(** * pmpsdb_client: the ftp file transfer interface (ftp_data.py)

    A shallow embedding of [pmpsdb_client/ftp_data.py] and the properties
    of its session manager, listing parser, transfer and comparison
    functions.

    Conventions of the embedding:
    - a Python [str] is a Rocq [string]; its characters are code points
      below 256;
    - a Python [bytes] is a [list Byte.byte];
    - a Python [int] is a [Z];
    - an expression that may raise is a value of [Res]; a function that
      talks to the network or the local disk is a computation of [M], a
      state and exception monad over the environment;
    - a Python [float] is a [pyfloat], the value of a double;
    - [logger.debug] calls have no effect on results and are left out. *)

From Stdlib Require Import ZArith Ascii String List Lia Bool.
From Stdlib.Strings Require Import Byte.
From stdpp Require Import base list strings gmap.

Set Default Proof Using "Type".
Local Open Scope string_scope.
Local Open Scope Z_scope.
Local Open Scope list_scope.

(** ** Python exceptions and results *)

(** The exception classes that the module and the libraries it calls can
    raise. All of them derive from [Exception]. [UnicodeDecodeError] and
    [JSONDecodeError] derive from [ValueError]; the four [error_*] classes
    are those of ftplib, and none of them is a [RuntimeError]. *)
Inductive exn : Type :=
  | ValueError
  | UnicodeDecodeError
  | JSONDecodeError
  | RuntimeError
  | OverflowError
  | TypeError
  | OSError
  | EOFError
  | error_reply
  | error_temp
  | error_perm
  | error_proto.

#[global] Instance exn_eq_dec : EqDecision exn.
Proof. solve_decision. Defined.

(** [isinstance(e, ValueError)] *)
Definition is_ValueError (e : exn) : bool :=
  match e with
  | ValueError | UnicodeDecodeError | JSONDecodeError => true
  | _ => false
  end.

(** [isinstance(e, RuntimeError)] *)
Definition is_RuntimeError (e : exn) : bool :=
  match e with
  | RuntimeError => true
  | _ => false
  end.

Inductive Res (A : Type) : Type :=
  | Ok (a : A)
  | Raise (e : exn).
Arguments Ok {A} a.
Arguments Raise {A} e.

Definition res_bind {A B} (r : Res A) (k : A -> Res B) : Res B :=
  match r with
  | Ok a => k a
  | Raise e => Raise e
  end.

#[global] Instance Res_ret : MRet Res := @Ok.
#[global] Instance Res_bind : MBind Res := fun A B k r => res_bind r k.

Definition is_ok {A} (r : Res A) : bool :=
  match r with Ok _ => true | Raise _ => false end.

(** ** Python strings *)

(** [str.isspace] on one character, for the code points below 256:
    TAB, LF, VT, FF, CR, FS, GS, RS, US, SPACE, NEL and NBSP. *)
Definition py_isspace (c : ascii) : bool :=
  let n := nat_of_ascii c in
  ((9 <=? n)%nat && (n <=? 13)%nat) || ((28 <=? n)%nat && (n <=? 32)%nat)
  || (n =? 133)%nat || (n =? 160)%nat.

Definition str_is_empty (s : string) : bool :=
  match s with EmptyString => true | _ => false end.

Definition str_snoc (s : string) (c : ascii) : string := s +:+ String c "".

(** [s.split()]: the maximal runs of characters that are not whitespace.
    [cur] is the token being read. *)
Fixpoint str_split_go (s cur : string) : list string :=
  match s with
  | EmptyString => if str_is_empty cur then [] else [cur]
  | String c s' =>
      if py_isspace c
      then (if str_is_empty cur then str_split_go s' ""
            else cur :: str_split_go s' "")
      else str_split_go s' (str_snoc cur c)
  end.

Definition str_split (s : string) : list string := str_split_go s "".

(** [s.split(sep)] for a separator of one character: every occurrence
    of [sep] cuts, empty pieces are kept. *)
Fixpoint str_split_on_go (sep : ascii) (s cur : string) : list string :=
  match s with
  | EmptyString => [cur]
  | String c s' =>
      if Ascii.eqb c sep then cur :: str_split_on_go sep s' ""
      else str_split_on_go sep s' (str_snoc cur c)
  end.

Definition str_split_on (sep : ascii) (s : string) : list string :=
  str_split_on_go sep s "".

Fixpoint str_lstrip (s : string) : string :=
  match s with
  | String c s' => if py_isspace c then str_lstrip s' else s
  | EmptyString => EmptyString
  end.

Definition str_strip (s : string) : string :=
  String.rev (str_lstrip (String.rev (str_lstrip s))).

Definition is_digit (c : ascii) : bool :=
  let n := nat_of_ascii c in (48 <=? n)%nat && (n <=? 57)%nat.

Definition digit_val (c : ascii) : Z := Z.of_nat (nat_of_ascii c) - 48.

(** The digits of a decimal literal: at least one digit, single
    underscores allowed between digits only. *)
Fixpoint int_digits (s : string) (acc : Z) (after_digit : bool) : option Z :=
  match s with
  | EmptyString => if after_digit then Some acc else None
  | String c s' =>
      if is_digit c then int_digits s' (10 * acc + digit_val c) true
      else if Ascii.eqb c "_"
           then (if after_digit then int_digits s' acc false else None)
           else None
  end.

(** [int(s)] in base 10: surrounding whitespace is ignored, one sign is
    allowed; anything else raises [ValueError]. The interpreter's limit on
    the number of digits of a literal is not modelled. *)
Definition py_int (s : string) : Res Z :=
  let body := str_strip s in
  let '(neg, ds) :=
    match body with
    | String "-" r => (true, r)
    | String "+" r => (false, r)
    | _ => (false, body)
    end in
  match int_digits ds 0 false with
  | Some n => Ok (if neg : bool then - n else n)
  | None => Raise ValueError
  end.

(** ** datetime.datetime *)

Record datetime : Type := mk_datetime {
  year : Z;
  month : Z;
  day : Z;
  hour : Z;
  minute : Z;
  second : Z;
  microsecond : Z
}.

Definition is_leap (y : Z) : bool :=
  ((y mod 4 =? 0) && negb (y mod 100 =? 0)) || (y mod 400 =? 0).

Definition days_in_month (y m : Z) : Z :=
  if m =? 2 then (if is_leap y then 29 else 28)
  else if (m =? 4) || (m =? 6) || (m =? 9) || (m =? 11) then 30
  else 31.

(** The range of a C [int], to which the constructor converts its
    arguments. *)
Definition fits_c_int (n : Z) : bool :=
  (-2147483648 <=? n) && (n <=? 2147483647).

(** [datetime.datetime(year=, month=, day=, hour=, minute=)]: an argument
    that does not fit a C [int] raises [OverflowError]; then the
    constructor checks every field and raises [ValueError] outside the
    calendar; seconds and microseconds default to 0. *)
Definition datetime_new (y mo d h mi : Z) : Res datetime :=
  if negb (forallb fits_c_int [y; mo; d; h; mi]) then Raise OverflowError
  else if negb ((1 <=? y) && (y <=? 9999)) then Raise ValueError
  else if negb ((1 <=? mo) && (mo <=? 12)) then Raise ValueError
  else if negb ((1 <=? d) && (d <=? days_in_month y mo)) then Raise ValueError
  else if negb ((0 <=? h) && (h <=? 23)) then Raise ValueError
  else if negb ((0 <=? mi) && (mi <=? 59)) then Raise ValueError
  else Ok (mk_datetime y mo d h mi 0 0).

(** ** PLCFile *)

Record PLCFile : Type := mk_PLCFile {
  filename : string;
  create_time : datetime;
  size : Z
}.

(** [PLCFile.from_list_line]. Unpacking a list into a fixed number of
    names raises [ValueError] when the lengths differ. *)
Definition from_list_line (line : string) : Res PLCFile :=
  match str_split line with
  | [date; time; size; filename] =>
      match str_split_on "-" date with
      | [month; day; year] =>
          match str_split_on ":" time with
          | [hour; minute] =>
              y ← py_int year;
              mo ← py_int month;
              d ← py_int day;
              h ← py_int hour;
              mi ← py_int minute;
              full_datetime ← datetime_new (y + 2000) mo d h mi;
              sz ← py_int size;
              Ok (mk_PLCFile filename full_datetime sz)
          | _ => Raise ValueError
          end
      | _ => Raise ValueError
      end
  | _ => Raise ValueError
  end.

(** [os.path.basename] (posix): what follows the last slash. *)
Fixpoint basename_go (p cur : string) : string :=
  match p with
  | EmptyString => cur
  | String c p' =>
      if Ascii.eqb c "/" then basename_go p' "" else basename_go p' (str_snoc cur c)
  end.

Definition os_path_basename (p : string) : string := basename_go p "".

(** [x or default] for an optional string: [None] and the empty string
    are falsy. *)
Definition py_or (x : option string) (default : string) : string :=
  match x with
  | Some s => if str_is_empty s then default else s
  | None => default
  end.

(** [f'{x}'] for a value that is a string or [None]. *)
Definition py_format (x : option string) : string :=
  match x with
  | Some s => s
  | None => "None"
  end.

(** ** Python bytes *)

Abbreviation bytes := (list byte).

Definition byte_is_ascii (b : byte) : bool := (Byte.to_N b <? 128)%N.

Definition str_of_bytes (bs : bytes) : string :=
  string_of_list_ascii (map ascii_of_byte bs).

(** [chunk.decode('ascii')], errors='strict'. *)
Definition decode_ascii (chunk : bytes) : Res string :=
  if forallb byte_is_ascii chunk then Ok (str_of_bytes chunk)
  else Raise UnicodeDecodeError.

(** The bytes of a text of code points below 256. *)
Definition bytes_of_str (s : string) : bytes :=
  map byte_of_ascii (list_ascii_of_string s).

(** [data.decode('utf-8')], errors='strict', as far as the result has
    code points below 256 only: a byte below 128 is its character, and C2
    or C3 with a continuation byte is a character from 128 to 255. Any
    other byte is a [UnicodeDecodeError], for a sequence that is not UTF-8
    as in Python; a sequence for a code point above 255 has no text in this
    model of [str] and is answered in the same way. *)
Fixpoint decode_utf8 (data : bytes) : Res (list ascii) :=
  match data with
  | [] => Ok []
  | b :: rest =>
      if byte_is_ascii b
      then chars ← decode_utf8 rest; Ok (ascii_of_byte b :: chars)
      else if (Byte.to_N b =? 194)%N || (Byte.to_N b =? 195)%N
      then
        match rest with
        | b2 :: rest' =>
            if (128 <=? Byte.to_N b2)%N && (Byte.to_N b2 <? 192)%N
            then
              chars ← decode_utf8 rest';
              Ok (ascii_of_N ((Byte.to_N b - 192) * 64 + (Byte.to_N b2 - 128))
                    :: chars)
            else Raise UnicodeDecodeError
        | [] => Raise UnicodeDecodeError
        end
      else Raise UnicodeDecodeError
  end.

(** What a file opened in text mode with [newline=None] makes of the line
    ends: CR LF and a CR alone are read as LF. *)
Fixpoint universal_newlines (s : list ascii) : list ascii :=
  match s with
  | [] => []
  | c :: s' =>
      if Ascii.eqb c "013"
      then
        "010"%char
          :: match s' with
             | c' :: s'' =>
                 if Ascii.eqb c' "010" then universal_newlines s''
                 else universal_newlines s'
             | [] => []
             end
      else c :: universal_newlines s'
  end.

(** No byte of [data] is a CR. *)
Definition no_CR (data : bytes) : bool :=
  forallb (fun b => negb (Byte.eqb b x0d)) data.

(** [open(filename, 'r').read()] on the bytes of the file, with UTF-8 as
    the codec of the locale. *)
Definition read_text (data : bytes) : Res string :=
  chars ← decode_utf8 data;
  Ok (string_of_list_ascii (universal_newlines chars)).

(** ** JSON values as Python objects *)

(** A Python [float], an IEEE 754 double: not a number, an infinity, a
    signed zero, or the number [z * 2 ^ e] with [z] odd. Every finite
    double other than zero is such a product in one way only; the bounds
    of the format on [z] and [e] are not part of the type. *)
Inductive pyfloat : Type :=
  | FNan
  | FInf (negative : bool)
  | FZero (negative : bool)
  | FFin (z e : Z).

Definition float_wf (f : pyfloat) : bool :=
  match f with
  | FFin z e => Z.odd z
  | _ => true
  end.

(** [f == g] for two floats: a NaN equals nothing, the two zeros are
    equal. *)
Definition float_eqb (f g : pyfloat) : bool :=
  match f, g with
  | FInf a, FInf b => Bool.eqb a b
  | FZero _, FZero _ => true
  | FFin z e, FFin z' e' => (z =? z') && (e =? e')
  | _, _ => false
  end.

(** [n == f] for an [int] and a float: Python compares the two numbers
    exactly. *)
Definition int_float_eqb (n : Z) (f : pyfloat) : bool :=
  match f with
  | FZero _ => n =? 0
  | FFin z e => (0 <=? e) && (n =? z * 2 ^ e)
  | _ => false
  end.

(** What [json.loads] builds: [None], [bool], [int], [float], [str],
    [list] and [dict] with string keys. A [dict] is kept as its items in
    insertion order; its keys are distinct. Every NaN is the one object
    [json.decoder.NaN] that the decoder returns for the literal NaN. *)
#[warnings="-register-all"] Inductive jval : Type :=
  | JNull
  | JBool (b : bool)
  | JInt (n : Z)
  | JFloat (f : pyfloat)
  | JStr (s : string)
  | JList (l : list jval)
  | JDict (d : list (string * jval)).

(** [d.get(k)] on the items of a dict. *)
Fixpoint dict_get {V} (k : string) (d : list (string * V)) : option V :=
  match d with
  | [] => None
  | (k', v) :: d' => if String.eqb k k' then Some v else dict_get k d'
  end.

(** [a == b] for two dicts, given [==] on their values: the same number
    of items, and every key of [a] is in [b] with an equal value. *)
Definition dict_eqb {V} (veq : V -> V -> bool) (a b : list (string * V))
    : bool :=
  (length a =? length b)%nat
  && forallb (fun kv : string * V =>
                let (k, v) := kv in
                match dict_get k b with
                | Some w => veq v w
                | None => false
                end) a.

(** [a == b] for two lists: the same length and equal items in order. *)
Fixpoint list_eqb {V} (veq : V -> V -> bool) (a b : list V) : bool :=
  match a, b with
  | [], [] => true
  | x :: a', y :: b' => veq x y && list_eqb veq a' b'
  | _, _ => false
  end.

(** [a is b] where it matters: the two are the NaN object. *)
Definition py_is (a b : jval) : bool :=
  match a, b with
  | JFloat FNan, JFloat FNan => true
  | _, _ => false
  end.

(** Python's [==] on these objects. [bool] is a subclass of [int], so
    [True == 1] and [False == 0]; numbers are compared by value across
    [int] and [float]; a [str] equals only a [str]. Inside a list or a
    dict two items are equal when they are the same object or [==]
    ([PyObject_RichCompareBool]), which makes the NaN object equal to
    itself there, and only there. *)
Fixpoint py_eq (a b : jval) {struct a} : bool :=
  match a, b with
  | JNull, JNull => true
  | JBool x, JBool y => Bool.eqb x y
  | JBool x, JInt n => Z.b2z x =? n
  | JInt n, JBool y => n =? Z.b2z y
  | JInt m, JInt n => m =? n
  | JBool x, JFloat f => int_float_eqb (Z.b2z x) f
  | JFloat f, JBool y => int_float_eqb (Z.b2z y) f
  | JInt n, JFloat f => int_float_eqb n f
  | JFloat f, JInt n => int_float_eqb n f
  | JFloat f, JFloat g => float_eqb f g
  | JStr s, JStr t => String.eqb s t
  | JList xs, JList ys => list_eqb (fun x y => py_is x y || py_eq x y) xs ys
  | JDict xs, JDict ys => dict_eqb (fun v w => py_is v w || py_eq v w) xs ys
  | _, _ => false
  end.

(** [v == w] for two items of a list or a dict. *)
Definition py_eq_item (v w : jval) : bool := py_is v w || py_eq v w.

(** *** Configuration documents *)

Definition dict_keys {V} (d : list (string * V)) : list string := fst <$> d.

Definition is_scalar (v : jval) : bool :=
  match v with
  | JNull | JBool _ | JInt _ | JStr _ => true
  | JFloat f => float_wf f
  | _ => false
  end.

(** The parameters of one device: a dict of scalars. *)
Definition is_params (v : jval) : bool :=
  match v with
  | JDict ps =>
      bool_decide (NoDup (dict_keys ps))
      && forallb (fun kv : string * jval => is_scalar (snd kv)) ps
  | _ => false
  end.

(** A ConfigDocument: a dict of dicts of scalars. *)
Definition is_config_document (v : jval) : bool :=
  match v with
  | JDict es =>
      bool_decide (NoDup (dict_keys es))
      && forallb (fun kv : string * jval => is_params (snd kv)) es
  | _ => false
  end.

(** The JSON type of a value. *)
Inductive jtype : Type := TNull | TBoolean | TNumber | TString | TArray | TObject.

Definition type_of (v : jval) : jtype :=
  match v with
  | JNull => TNull
  | JBool _ => TBoolean
  | JInt _ => TNumber
  | JFloat _ => TNumber
  | JStr _ => TString
  | JList _ => TArray
  | JDict _ => TObject
  end.

(** Two mappings are equal up to [R]: every key is a key of both or of
    neither, and the two values under a key of both are related by [R]. *)
Definition dict_equal {V} (R : V -> V -> Prop) (a b : list (string * V))
    : Prop :=
  forall k, option_Forall2 R (dict_get k a) (dict_get k b).

Definition params_equal (R : jval -> jval -> Prop) (p q : jval) : Prop :=
  match p, q with
  | JDict ps, JDict qs => dict_equal R ps qs
  | _, _ => False
  end.

(** Structural equality of two documents, as the specification words it:
    equal sets of top-level keys and, for each key, equal sets of
    parameter names and values related by [R]. With [R := eq] the values
    must be the same value of the same type. *)
Definition structurally_equal (R : jval -> jval -> Prop) (a b : jval) : Prop :=
  match a, b with
  | JDict xs, JDict ys => dict_equal (params_equal R) xs ys
  | _, _ => False
  end.

(** The value of parameter [name] of device [dev] in a document. *)
Definition param_at (a : jval) (dev name : string) : option jval :=
  match a with
  | JDict xs =>
      match dict_get dev xs with
      | Some (JDict ps) => dict_get name ps
      | _ => None
      end
  | _ => None
  end.

(** The number that a boolean, an integer or a finite float stands for,
    as a pair [(z, e)] for [z * 2 ^ e]. *)
Definition number_value (v : jval) : option (Z * Z) :=
  match v with
  | JBool x => Some (Z.b2z x, 0)
  | JInt n => Some (n, 0)
  | JFloat (FZero _) => Some (0, 0)
  | JFloat (FFin z e) => Some (z, e)
  | _ => None
  end.

(** Two scalars stand for the same number. *)
Definition same_number (v w : jval) : Prop :=
  exists z e z' e',
    number_value v = Some (z, e) /\ number_value w = Some (z', e')
    /\ z * 2 ^ (e - Z.min e e') = z' * 2 ^ (e' - Z.min e e').

(** What [==] makes of two scalars of a document: the same value of the
    same type, or two numbers of the same value, a boolean counting as 1
    or 0 ([True == 1 == 1.0], [0 == -0.0]). *)
Definition py_equal_scalars (v w : jval) : Prop :=
  v = w \/ same_number v w.

(** The same items in another order. *)
Definition params_permuted (p p' : jval) : Prop :=
  match p, p' with
  | JDict ps, JDict ps' => ps ≡ₚ ps'
  | _, _ => False
  end.

(** The same devices in another order, each with its parameters in
    another order. *)
Definition doc_permuted (a a' : jval) : Prop :=
  match a, a' with
  | JDict xs, JDict xs' =>
      exists m,
        Forall2 (fun e e' : string * jval =>
                   fst e = fst e' /\ params_permuted (snd e) (snd e')) xs m
        /\ m ≡ₚ xs'
  | _, _ => False
  end.

(** ** The json library: [json.loads]

    CPython's decoder with its default settings, on texts of code points
    below 256. An escape [\uXXXX] for a larger code point has no value in
    this model of [str]; the decoder of the model refuses it. Messages and
    positions of errors are left out. *)

(** [round(num / den)], ties to even. *)
Definition round_half_even (num den : Z) : Z :=
  let q := num / den in
  let r := num mod den in
  if 2 * r <? den then q
  else if den <? 2 * r then q + 1
  else if Z.even q then q else q + 1.

(** [p / q] counted in units of [2 ^ e], as a fraction. *)
Definition scaled (p q e : Z) : Z * Z :=
  if 0 <=? e then (p, q * 2 ^ e) else (p * 2 ^ (- e), q).

(** The double nearest to [p / q], for [0 <= p] and [0 < q]: 53 bits
    above [2 ^ -1022], steps of [2 ^ -1074] below; an infinity from
    [2 ^ 1024 - 2 ^ 970] on. *)
Definition float_of_ratio (neg : bool) (p q : Z) : pyfloat :=
  if p =? 0 then FZero neg
  else
    let e0 := Z.log2 p - Z.log2 q - 52 in
    let e1 := if fst (scaled p q e0) / snd (scaled p q e0) <? 2 ^ 52
              then e0 - 1 else e0 in
    let e := Z.max e1 (-1074) in
    let n := round_half_even (fst (scaled p q e)) (snd (scaled p q e)) in
    if n =? 0 then FZero neg
    else if (971 <? e) || ((e =? 971) && (2 ^ 53 <=? n)) then FInf neg
    else
      let tz := Z.log2 (Z.land n (- n)) in
      FFin ((if neg then -1 else 1) * Z.shiftr n tz) (e + tz).

(** [float(text)] for the decimal [m * 10 ^ k], [0 <= m]. *)
Definition float_of_decimal (neg : bool) (m k : Z) : pyfloat :=
  if 0 <=? k then float_of_ratio neg (m * 10 ^ k) 1
  else float_of_ratio neg m (10 ^ (- k)).

(** [d[k] = v] on the items of a dict: a key that is there keeps its
    place. *)
Fixpoint dict_set {V} (k : string) (v : V) (d : list (string * V))
    : list (string * V) :=
  match d with
  | [] => [(k, v)]
  | (k', v') :: d' =>
      if String.eqb k k' then (k, v) :: d' else (k', v') :: dict_set k v d'
  end.

Module json.

Definition quote : ascii := "034".

(** [WHITESPACE] *)
Definition is_ws (c : ascii) : bool :=
  (Ascii.eqb c " " || Ascii.eqb c "009" || Ascii.eqb c "010"
   || Ascii.eqb c "013")%char.

Fixpoint skip_ws (s : list ascii) : list ascii :=
  match s with
  | c :: s' => if is_ws c then skip_ws s' else s
  | [] => []
  end.

Definition digit_value (c : ascii) : option Z :=
  let n := Z.of_nat (nat_of_ascii c) in
  if (48 <=? n) && (n <=? 57) then Some (n - 48) else None.

Definition hex_value (c : ascii) : option Z :=
  let n := Z.of_nat (nat_of_ascii c) in
  if (48 <=? n) && (n <=? 57) then Some (n - 48)
  else if (65 <=? n) && (n <=? 70) then Some (n - 55)
  else if (97 <=? n) && (n <=? 102) then Some (n - 87)
  else None.

(** The digits at the head of [s], and what follows them. *)
Fixpoint span_digits (s : list ascii) : list Z * list ascii :=
  match s with
  | c :: s' =>
      match digit_value c with
      | Some d => let (ds, rest) := span_digits s' in (d :: ds, rest)
      | None => ([], s)
      end
  | [] => ([], [])
  end.

Definition digits_value (ds : list Z) : Z :=
  fold_left (fun acc d => acc * 10 + d) ds 0.

(** [BACKSLASH] *)
Definition backslash (c : ascii) : option ascii :=
  (if Ascii.eqb c quote then Some quote
   else if Ascii.eqb c "\" then Some "\"
   else if Ascii.eqb c "/" then Some "/"
   else if Ascii.eqb c "b" then Some "008"
   else if Ascii.eqb c "f" then Some "012"
   else if Ascii.eqb c "n" then Some "010"
   else if Ascii.eqb c "r" then Some "013"
   else if Ascii.eqb c "t" then Some "009"
   else None)%char.

Definition decode_uXXXX (h1 h2 h3 h4 : ascii) : option Z :=
  a ← hex_value h1; b ← hex_value h2; c ← hex_value h3; d ← hex_value h4;
  Some (((a * 16 + b) * 16 + c) * 16 + d).

(** [scanstring], strict: from behind the opening quote to the closing
    one. *)
Fixpoint scanstring (s : list ascii) (chunks : list ascii)
    : Res (string * list ascii) :=
  match s with
  | [] => Raise JSONDecodeError
  | c :: s' =>
      if Ascii.eqb c quote
      then Ok (string_of_list_ascii (rev chunks), s')
      else if Ascii.eqb c "\"
      then
        match s' with
        | [] => Raise JSONDecodeError
        | esc :: s'' =>
            if Ascii.eqb esc "u"
            then
              match s'' with
              | h1 :: h2 :: h3 :: h4 :: s''' =>
                  match decode_uXXXX h1 h2 h3 h4 with
                  | Some uni =>
                      if uni <? 256
                      then scanstring s'''
                             (ascii_of_nat (Z.to_nat uni) :: chunks)
                      else Raise JSONDecodeError
                  | None => Raise JSONDecodeError
                  end
              | _ => Raise JSONDecodeError
              end
            else
              match backslash esc with
              | Some char => scanstring s'' (char :: chunks)
              | None => Raise JSONDecodeError
              end
        end
      else if (nat_of_ascii c <? 32)%nat then Raise JSONDecodeError
      else scanstring s' (c :: chunks)
  end.

(** [s.startswith(prefix)], and what follows the prefix. *)
Fixpoint strip (prefix : string) (s : list ascii) : option (list ascii) :=
  match prefix with
  | EmptyString => Some s
  | String a prefix' =>
      match s with
      | b :: s' => if Ascii.eqb a b then strip prefix' s' else None
      | [] => None
      end
  end.

(** The integer part of [NUMBER_RE]: a zero, or digits that do not start
    with a zero. *)
Definition match_integer (s : list ascii) : option (list Z * list ascii) :=
  match s with
  | c :: s' =>
      match digit_value c with
      | Some 0 => Some ([0], s')
      | Some _ => Some (span_digits s)
      | None => None
      end
  | [] => None
  end.

(** The fraction of [NUMBER_RE]: a point and at least one digit. *)
Definition match_frac (s : list ascii) : option (list Z * list ascii) :=
  match s with
  | c :: s' =>
      if Ascii.eqb c "."
      then match span_digits s' with
           | ([], _) => None
           | (ds, rest) => Some (ds, rest)
           end
      else None
  | [] => None
  end.

(** The exponent of [NUMBER_RE]: e or E, a sign or none, and at least one
    digit. *)
Definition match_exp (s : list ascii) : option (Z * list ascii) :=
  match s with
  | c :: s' =>
      if Ascii.eqb c "e" || Ascii.eqb c "E"
      then
        let (neg, s'') :=
          match s' with
          | sign :: s'' =>
              if Ascii.eqb sign "-" then (true, s'')
              else if Ascii.eqb sign "+" then (false, s'')
              else (false, s')
          | [] => (false, s')
          end in
        match span_digits s'' with
        | ([], _) => None
        | (ds, rest) =>
            Some ((if neg then - digits_value ds else digits_value ds), rest)
        end
      else None
  | [] => None
  end.

(** [sys.int_max_str_digits] *)
Definition int_max_str_digits : nat := 4300.

(** [match_number] and the conversion of what it matched: [int(integer)]
    when there is neither a fraction nor an exponent, else
    [float(integer + frac + exp)]. *)
Definition match_number (s : list ascii) : option (Res jval * list ascii) :=
  let (neg, s1) :=
    match s with
    | c :: s' => if Ascii.eqb c "-" then (true, s') else (false, s)
    | [] => (false, s)
    end in
  match match_integer s1 with
  | None => None
  | Some (int_digits, s2) =>
      let (frac, s3) :=
        match match_frac s2 with
        | Some (ds, rest) => (Some ds, rest)
        | None => (None, s2)
        end in
      let (exp, s4) :=
        match match_exp s3 with
        | Some (e, rest) => (Some e, rest)
        | None => (None, s3)
        end in
      match frac, exp with
      | None, None =>
          if (int_max_str_digits <? length int_digits)%nat
          then Some (Raise ValueError, s4)
          else
            let n := digits_value int_digits in
            Some (Ok (JInt (if neg then - n else n)), s4)
      | _, _ =>
          let frac_digits := default [] frac in
          let m := digits_value (int_digits ++ frac_digits) in
          let k := default 0 exp - Z.of_nat (length frac_digits) in
          Some (Ok (JFloat (float_of_decimal neg m k)), s4)
      end
  end.

Section scanner.
Variable scan_once : list ascii -> Res (jval * list ascii).

(** The loop of [JSONObject], from behind the opening quote of a key. *)
Fixpoint JSONObject_pairs (fuel : nat) (pairs : list (string * jval))
    (s : list ascii) : Res (jval * list ascii) :=
  match fuel with
  | O => Raise RuntimeError
  | Datatypes.S fuel' =>
      '(key, s1) ← scanstring s [];
      match skip_ws s1 with
      | c :: s2 =>
          if Ascii.eqb c ":"
          then
            '(value, s3) ← scan_once (skip_ws s2);
            let pairs := dict_set key value pairs in
            match skip_ws s3 with
            | c' :: s4 =>
                if Ascii.eqb c' "}" then Ok (JDict pairs, s4)
                else if Ascii.eqb c' ","
                then
                  match skip_ws s4 with
                  | c'' :: s5 =>
                      if Ascii.eqb c'' quote
                      then JSONObject_pairs fuel' pairs s5
                      else Raise JSONDecodeError
                  | [] => Raise JSONDecodeError
                  end
                else Raise JSONDecodeError
            | [] => Raise JSONDecodeError
            end
          else Raise JSONDecodeError
      | [] => Raise JSONDecodeError
      end
  end.

(** [JSONObject], from behind the opening brace. *)
Definition JSONObject (fuel : nat) (s : list ascii)
    : Res (jval * list ascii) :=
  match skip_ws s with
  | c :: s' =>
      if Ascii.eqb c "}" then Ok (JDict [], s')
      else if Ascii.eqb c quote then JSONObject_pairs fuel [] s'
      else Raise JSONDecodeError
  | [] => Raise JSONDecodeError
  end.

(** The loop of [JSONArray], from the start of a value. *)
Fixpoint JSONArray_values (fuel : nat) (values : list jval) (s : list ascii)
    : Res (jval * list ascii) :=
  match fuel with
  | O => Raise RuntimeError
  | Datatypes.S fuel' =>
      '(value, s1) ← scan_once s;
      let values := values ++ [value] in
      match skip_ws s1 with
      | c :: s2 =>
          if Ascii.eqb c "]" then Ok (JList values, s2)
          else if Ascii.eqb c ","
          then JSONArray_values fuel' values (skip_ws s2)
          else Raise JSONDecodeError
      | [] => Raise JSONDecodeError
      end
  end.

(** [JSONArray], from behind the opening bracket. *)
Definition JSONArray (fuel : nat) (s : list ascii)
    : Res (jval * list ascii) :=
  match skip_ws s with
  | c :: s' =>
      if Ascii.eqb c "]" then Ok (JList [], s')
      else JSONArray_values fuel [] (c :: s')
  | [] => Raise JSONDecodeError
  end.

End scanner.

(** [scan_once]. The fuel bounds the nesting and the number of items of
    each object and array; [RecursionError], a [RuntimeError], is what
    Python raises at its own bound on the nesting. *)
Fixpoint scan_once (fuel : nat) (s : list ascii) : Res (jval * list ascii) :=
  match fuel with
  | O => Raise RuntimeError
  | Datatypes.S fuel' =>
      match s with
      | [] => Raise JSONDecodeError
      | c :: s' =>
          if Ascii.eqb c quote
          then '(text, rest) ← scanstring s' []; Ok (JStr text, rest)
          else if Ascii.eqb c "{"
          then JSONObject (scan_once fuel') fuel' s'
          else if Ascii.eqb c "["
          then JSONArray (scan_once fuel') fuel' s'
          else
            match strip "null" s, strip "true" s, strip "false" s with
            | Some rest, _, _ => Ok (JNull, rest)
            | _, Some rest, _ => Ok (JBool true, rest)
            | _, _, Some rest => Ok (JBool false, rest)
            | None, None, None =>
                match match_number s with
                | Some (number, rest) => v ← number; Ok (v, rest)
                | None =>
                    match strip "NaN" s, strip "Infinity" s,
                          strip "-Infinity" s with
                    | Some rest, _, _ => Ok (JFloat FNan, rest)
                    | _, Some rest, _ => Ok (JFloat (FInf false), rest)
                    | _, _, Some rest => Ok (JFloat (FInf true), rest)
                    | None, None, None => Raise JSONDecodeError
                    end
                end
            end
      end
  end.

(** [JSONDecoder.decode]: one value, whitespace around it, nothing
    else. *)
Definition decode (s : list ascii) : Res jval :=
  '(obj, rest) ← scan_once (Datatypes.S (length s)) (skip_ws s);
  match skip_ws rest with
  | [] => Ok obj
  | _ => Raise JSONDecodeError
  end.

(** [json.loads(s)] for a [str]. *)
Definition loads (s : string) : Res jval :=
  decode (list_ascii_of_string s).

End json.

(** ** The environment: the FTP server, the local disk, the json library *)

(** An [ftplib.FTP] object is known to the environment by a number. *)
Definition FTP : Type := nat.

(** The calls the module makes on [ftplib.FTP] objects, in the order it
    makes them. *)
Inductive call : Type :=
  | CConnect (hostname : string)
  | CSetPasv (f : FTP) (val : bool)
  | CLogin (f : FTP) (cred : option (string * string))
  | CNlst (f : FTP)
  | CMkd (f : FTP) (dirname : string)
  | CCwd (f : FTP) (dirname : string)
  | CQuit (f : FTP)
  | CClose (f : FTP)
  | CRetrlines (f : FTP) (cmd : string)
  | CStorbinary (f : FTP) (cmd : string) (data : bytes)
  | CRetrbinary (f : FTP) (cmd : string).

#[global] Instance byte_eq_dec : EqDecision byte := Byte.byte_eq_dec.
#[global] Instance call_eq_dec : EqDecision call.
Proof. solve_decision. Defined.

(** What the outside world answers. [env_login] answers [login(user,
    passwd)] for [Some (user, passwd)] and [login()] for [None]; ftplib
    returns the server's response line or raises, [None] is in the type
    because the module tests for it. [env_close] only drops the socket and
    cannot fail. [env_retrlines] and [env_retrbinary] answer with the lines
    and the blocks handed to the callback. *)
Class Env (S : Type) : Type := {
  env_connect : string -> S -> Res FTP * S;
  env_login : FTP -> option (string * string) -> S -> Res (option string) * S;
  env_nlst : FTP -> S -> Res (list string) * S;
  env_mkd : FTP -> string -> S -> Res unit * S;
  env_cwd : FTP -> string -> S -> Res unit * S;
  env_quit : FTP -> S -> Res unit * S;
  env_close : FTP -> S -> S;
  env_retrlines : FTP -> string -> S -> Res (list string) * S;
  env_storbinary : FTP -> string -> bytes -> S -> Res unit * S;
  env_retrbinary : FTP -> string -> S -> Res (list bytes) * S;
  env_read_text : string -> S -> Res string;
  env_read_bytes : string -> S -> Res bytes;
  json_loads : string -> Res jval
}.

Record world (S : Type) : Type := World {
  state : S;
  trace : list call
}.
Arguments World {S} state trace.
Arguments state {S} w.
Arguments trace {S} w.

(** ** The monad of the module's functions *)

Definition M (S A : Type) : Type := world S -> Res A * world S.

#[global] Instance M_ret {S} : MRet (M S) := fun A a w => (Ok a, w).
#[global] Instance M_bind {S} : MBind (M S) := fun A B k c w =>
  match c w with
  | (Ok a, w') => k a w'
  | (Raise e, w') => (Raise e, w')
  end.

Definition raise {S A} (e : exn) : M S A := fun w => (Raise e, w).

Definition lift {S A} (r : Res A) : M S A := fun w => (r, w).

(** [try: c  except cls: handler], [catches] decides [isinstance(e, cls)]. *)
Definition try_except {S A} (c : M S A) (catches : exn -> bool)
    (handler : M S A) : M S A := fun w =>
  match c w with
  | (Ok a, w') => (Ok a, w')
  | (Raise e, w') => if catches e then handler w' else (Raise e, w')
  end.

Definition log {S} (c : call) : M S unit := fun w =>
  (Ok tt, World (state w) (trace w ++ [c])).

Definition ask {S A} (f : S -> Res A * S) : M S A := fun w =>
  let (r, s') := f (state w) in (r, World s' (trace w)).

(** A generator function with one [yield]: the code before it, the code
    run when the generator is resumed, and what happens when an exception
    is thrown in at the [yield]. The last one cannot return: the
    generators of this module never swallow the exception. *)
Record generator (S Y : Type) : Type := Generator {
  gen_start : M S Y;
  gen_next : Y -> M S unit;
  gen_throw : Y -> exn -> M S Empty_set
}.
Arguments Generator {S Y} gen_start gen_next gen_throw.
Arguments gen_start {S Y} g.
Arguments gen_next {S Y} g y.
Arguments gen_throw {S Y} g y e.

(** [with g as y: body y], for [g] made by [contextlib.contextmanager]:
    [__enter__] runs the generator to its [yield]; on a normal end of the
    body [__exit__] resumes it; when the body raises, [__exit__] throws the
    exception into the generator at the [yield]. *)
Definition with_ {S Y A} (g : generator S Y) (body : Y -> M S A) : M S A :=
  fun w =>
    match gen_start g w with
    | (Raise e, w1) => (Raise e, w1)
    | (Ok y, w1) =>
        match body y w1 with
        | (Ok a, w2) =>
            match gen_next g y w2 with
            | (Ok _, w3) => (Ok a, w3)
            | (Raise e, w3) => (Raise e, w3)
            end
        | (Raise e, w2) =>
            match gen_throw g y e w2 with
            | (Ok v, _) => match v with end
            | (Raise e', w3) => (Raise e', w3)
            end
        end
    end.

(** ** ftp_data.py *)

Definition DEFAULT_PW : list (string * string) :=
  [("Administrator", "1"); ("webguest", "1")].

Definition DIRECTORY : string := "pmps".

Definition is_error_perm (e : exn) : bool :=
  match e with error_perm => true | _ => false end.

(** [except Exception]: every exception of the model is one. *)
Definition is_Exception (e : exn) : bool := true.

Definition is_None {A} (x : option A) : bool :=
  match x with None => true | Some _ => false end.

(** [x in names] *)
Definition str_in (x : string) (names : list string) : bool :=
  existsb (String.eqb x) names.

Section ftp_data.
Context {S : Type} `{!Env S}.

#[local] Abbreviation M := (M S).

(** *** The methods of [ftplib.FTP] used by the module *)

Definition FTP_new (hostname : string) : M FTP :=
  _ ← log (CConnect hostname); ask (env_connect hostname).

Definition set_pasv (f : FTP) (val : bool) : M unit :=
  log (CSetPasv f val).

Definition login (f : FTP) (cred : option (string * string))
    : M (option string) :=
  _ ← log (CLogin f cred); ask (env_login f cred).

Definition nlst (f : FTP) : M (list string) :=
  _ ← log (CNlst f); ask (env_nlst f).

Definition mkd (f : FTP) (dirname : string) : M unit :=
  _ ← log (CMkd f dirname); ask (env_mkd f dirname).

Definition cwd (f : FTP) (dirname : string) : M unit :=
  _ ← log (CCwd f dirname); ask (env_cwd f dirname).

Definition quit (f : FTP) : M unit :=
  _ ← log (CQuit f); ask (env_quit f).

Definition close (f : FTP) : M unit :=
  _ ← log (CClose f); ask (fun s => (Ok tt, env_close f s)).

Definition retrlines (f : FTP) (cmd : string) : M (list string) :=
  _ ← log (CRetrlines f cmd); ask (env_retrlines f cmd).

Definition storbinary (f : FTP) (cmd : string) (fd : bytes) : M unit :=
  _ ← log (CStorbinary f cmd fd); ask (env_storbinary f cmd fd).

Definition retrbinary (f : FTP) (cmd : string) : M (list bytes) :=
  _ ← log (CRetrbinary f cmd); ask (env_retrbinary f cmd).

(** *** [ftp], lines 57-63: the loop over [DEFAULT_PW]. [rval] keeps its
    value when a login raises [error_perm]; the loop has no [break]. *)
Fixpoint login_defaults (ftp_obj : FTP) (creds : list (string * string))
    (rval : option string) : M (option string) :=
  match creds with
  | [] => mret rval
  | (user, pwd) :: creds' =>
      rval ← try_except (login ftp_obj (Some (user, pwd)))
               is_error_perm (mret rval);
      login_defaults ftp_obj creds' rval
  end.

(** *** [ftp], lines 49-76: everything before the [yield]. *)
Definition ftp_setup (hostname : string) (directory : option string)
    : M FTP :=
  let directory := py_or directory DIRECTORY in
  ftp_obj ← FTP_new hostname;
  _ ← set_pasv ftp_obj false;
  rval ← login_defaults ftp_obj DEFAULT_PW None;
  rval ← (if is_None rval then login ftp_obj None else mret rval);
  _ ← (if is_None rval then raise RuntimeError else mret tt);
  names ← nlst ftp_obj;
  _ ← (if negb (str_in directory names) then mkd ftp_obj directory
       else mret tt);
  _ ← cwd ftp_obj directory;
  mret ftp_obj.

(** *** [ftp], lines 78-84: the code after the [yield]. *)
Definition ftp_cleanup (ftp_obj : FTP) : M unit :=
  try_except (quit ftp_obj) is_Exception (close ftp_obj).

(** *** [ftp], line 77: the [yield] is inside no [try] statement, so an
    exception thrown in at it leaves the generator at once. *)
Definition ftp_thrown (ftp_obj : FTP) (e : exn) : M Empty_set :=
  raise e.

Definition ftp (hostname : string) (directory : option string)
    : generator S FTP :=
  Generator (ftp_setup hostname directory) ftp_cleanup ftp_thrown.

Definition list_filenames (hostname : string) (directory : option string)
    : M (list string) :=
  with_ (ftp hostname directory) (fun ftp_obj => nlst ftp_obj).

(** [[f(x) for x in xs]] for an [f] that may raise. *)
Fixpoint list_comprehension {A B} (f : A -> Res B) (xs : list A)
    : Res (list B) :=
  match xs with
  | [] => Ok []
  | x :: xs' => y ← f x; ys ← list_comprehension f xs'; Ok (y :: ys)
  end.

Definition list_file_info (hostname : string) (directory : option string)
    : M (list PLCFile) :=
  let lines := [] in
  lines ← with_ (ftp hostname directory)
            (fun ftp_obj =>
               got ← retrlines ftp_obj "LIST"; mret (lines ++ got)%list);
  lift (list_comprehension from_list_line lines).

Definition upload_file (hostname target_filename : string) (fd : bytes)
    (directory : option string) : M unit :=
  with_ (ftp hostname directory)
    (fun ftp_obj => storbinary ftp_obj ("STOR " +:+ target_filename) fd).

Definition upload_filename (hostname filename : string)
    (dest_filename directory : option string) : M unit :=
  fd ← ask (fun s => (env_read_bytes filename s, s));
  upload_file hostname (py_or dest_filename (os_path_basename filename))
    fd directory.

(** Lines 289-291: the chunks are decoded one by one and appended. *)
Fixpoint decode_chunks (byte_chunks : list bytes) (contents : string)
    : Res string :=
  match byte_chunks with
  | [] => Ok contents
  | chunk :: rest =>
      text ← decode_ascii chunk; decode_chunks rest (contents +:+ text)
  end.

(** [filename] is annotated [str], but [compare_file] hands its
    [plc_filename] on as it is, [None] included. *)
Definition download_file_text (hostname : string) (filename : option string)
    (directory : option string) : M string :=
  let byte_chunks := [] in
  byte_chunks ← with_ (ftp hostname directory)
                  (fun ftp_obj =>
                     got ← retrbinary ftp_obj ("RETR " +:+ py_format filename);
                     mret (byte_chunks ++ got)%list);
  lift (decode_chunks byte_chunks "").

Definition download_file_json_dict (hostname : string)
    (filename : option string) (directory : option string) : M jval :=
  text ← download_file_text hostname filename directory;
  lift (json_loads text).

Definition local_file_json_dict (filename : string) : M jval :=
  text ← ask (fun s => (env_read_text filename s, s));
  lift (json_loads text).

Definition compare_file (hostname local_filename : string)
    (plc_filename directory : option string) : M bool :=
  local_data ← local_file_json_dict local_filename;
  plc_data ← download_file_json_dict hostname plc_filename directory;
  mret (py_eq local_data plc_data).

End ftp_data.

(** ** A reference device

    A PLC that keeps what is stored and serves it back, together with the
    ftplib client that talks to it and the local disk. Its root holds
    directories only; a file lives in a directory under the name it was
    stored with. The device lets in the credentials of [plc_accepts]; with
    [plc_relogin_resets] a login that it rejects also ends the login that
    the session had, as a server does that forgets the user at every USER
    command, and without it a rejected login leaves the session as it
    was. *)

Record session : Type := Session {
  ses_user : option (option (string * string));
  ses_cwd : string
}.

Record plc : Type := Plc {
  plc_hostname : string;
  plc_online : bool;
  plc_accepts : list (option (string * string));
  plc_relogin_resets : bool;
  plc_dirs : list string;
  plc_files : gmap (string * string) bytes;
  plc_listing : list string;
  plc_blocksize : nat;
  plc_sessions : gmap nat session;
  plc_next : nat;
  local_files : gmap string bytes
}.

Definition with_files (fs : gmap (string * string) bytes) (p : plc) : plc :=
  Plc (plc_hostname p) (plc_online p) (plc_accepts p)
    (plc_relogin_resets p) (plc_dirs p) fs
    (plc_listing p) (plc_blocksize p) (plc_sessions p) (plc_next p)
    (local_files p).

Definition with_dirs (ds : list string) (p : plc) : plc :=
  Plc (plc_hostname p) (plc_online p) (plc_accepts p)
    (plc_relogin_resets p) ds (plc_files p)
    (plc_listing p) (plc_blocksize p) (plc_sessions p) (plc_next p)
    (local_files p).

Definition with_sessions (ss : gmap nat session) (p : plc) : plc :=
  Plc (plc_hostname p) (plc_online p) (plc_accepts p)
    (plc_relogin_resets p) (plc_dirs p)
    (plc_files p) (plc_listing p) (plc_blocksize p) ss (plc_next p)
    (local_files p).

Definition with_next (n : nat) (p : plc) : plc :=
  Plc (plc_hostname p) (plc_online p) (plc_accepts p)
    (plc_relogin_resets p) (plc_dirs p)
    (plc_files p) (plc_listing p) (plc_blocksize p) (plc_sessions p) n
    (local_files p).

Fixpoint str_forallb (f : ascii -> bool) (s : string) : bool :=
  match s with
  | EmptyString => true
  | String c s' => f c && str_forallb f s'
  end.

(** [c not in s] *)
Definition no_char (c : ascii) (s : string) : bool :=
  str_forallb (fun x => negb (Ascii.eqb x c)) s.

(** Neither a CR nor an LF in [s]: what ftplib's [putline] asks of a
    command line. *)
Definition no_newline (s : string) : bool :=
  no_char "013" s && no_char "010" s.

(** Printable, not a space, not a slash. *)
Definition plain_char (c : ascii) : bool :=
  let n := nat_of_ascii c in
  (33 <=? n)%nat && (n <=? 126)%nat && negb (n =? 47)%nat.

Fixpoint all_plain (s : string) : bool :=
  match s with
  | EmptyString => true
  | String c s' => plain_char c && all_plain s'
  end.

Definition plain_name (s : string) : bool :=
  negb (str_is_empty s) && all_plain s.

Fixpoint strip_prefix (p s : string) : option string :=
  match p with
  | EmptyString => Some s
  | String a p' =>
      match s with
      | String b s' => if Ascii.eqb a b then strip_prefix p' s' else None
      | EmptyString => None
      end
  end.

(** The blocks of at most [n] items a transfer is cut into. *)
Fixpoint chunks_go {A} (fuel n : nat) (l : list A) : list (list A) :=
  match fuel with
  | O => []
  | Datatypes.S fuel' =>
      match l with
      | [] => []
      | _ => take n l :: chunks_go fuel' n (drop n l)
      end
  end.

Definition chunks_of {A} (n : nat) (l : list A) : list (list A) :=
  chunks_go (length l) n l.

Definition cred_eqb (a b : option (string * string)) : bool :=
  bool_decide (a = b).

Definition accepts_cred (accepts : list (option (string * string)))
    (cred : option (string * string)) : bool :=
  existsb (cred_eqb cred) accepts.

(** A command needs an open connection that has logged in. *)
Definition logged_in (f : FTP) (p : plc) : option session :=
  match plc_sessions p !! f with
  | Some ses => if is_None (ses_user ses) then None else Some ses
  | None => None
  end.

Definition plc_connect (hostname : string) (p : plc) : Res FTP * plc :=
  if plc_online p && String.eqb hostname (plc_hostname p)
  then (Ok (plc_next p),
        with_next (Datatypes.S (plc_next p))
          (with_sessions (<[plc_next p := Session None ""]> (plc_sessions p)) p))
  else (Raise OSError, p).

Definition plc_login (f : FTP) (cred : option (string * string)) (p : plc)
    : Res (option string) * plc :=
  match plc_sessions p !! f with
  | None => (Raise EOFError, p)
  | Some ses =>
      if accepts_cred (plc_accepts p) cred
      then (Ok (Some "230 User logged in."),
            with_sessions
              (<[f := Session (Some cred) (ses_cwd ses)]> (plc_sessions p)) p)
      else (Raise error_perm,
            if plc_relogin_resets p
            then with_sessions
                   (<[f := Session None (ses_cwd ses)]> (plc_sessions p)) p
            else p)
  end.

Definition names_in (d : string) (fs : gmap (string * string) bytes)
    : list string :=
  omap (fun kv : (string * string) * bytes =>
          if String.eqb (fst (fst kv)) d then Some (snd (fst kv)) else None)
       (map_to_list fs).

Definition plc_nlst (f : FTP) (p : plc) : Res (list string) * plc :=
  match logged_in f p with
  | None => (Raise error_perm, p)
  | Some ses =>
      if str_is_empty (ses_cwd ses) then (Ok (plc_dirs p), p)
      else (Ok (names_in (ses_cwd ses) (plc_files p)), p)
  end.

(** [mkd]: ftplib sends no command line that holds a CR or an LF, it
    raises [ValueError] instead; the device makes a directory that it does
    not have yet. *)
Definition plc_mkd (f : FTP) (d : string) (p : plc) : Res unit * plc :=
  if negb (no_newline d) then (Raise ValueError, p)
  else
    match logged_in f p with
    | None => (Raise error_perm, p)
    | Some ses =>
        if str_in d (plc_dirs p) then (Raise error_perm, p)
        else (Ok tt, with_dirs (plc_dirs p ++ [d]) p)
    end.

Definition plc_cwd (f : FTP) (d : string) (p : plc) : Res unit * plc :=
  if negb (no_newline d) then (Raise ValueError, p)
  else
    match logged_in f p with
    | None => (Raise error_perm, p)
    | Some ses =>
        if str_in d (plc_dirs p)
        then (Ok tt,
              with_sessions
                (<[f := Session (ses_user ses) d]> (plc_sessions p)) p)
        else (Raise error_perm, p)
    end.

Definition plc_close (f : FTP) (p : plc) : plc :=
  with_sessions (delete f (plc_sessions p)) p.

Definition plc_quit (f : FTP) (p : plc) : Res unit * plc :=
  match plc_sessions p !! f with
  | None => (Raise EOFError, p)
  | Some _ => (Ok tt, plc_close f p)
  end.

Definition plc_retrlines (f : FTP) (cmd : string) (p : plc)
    : Res (list string) * plc :=
  match logged_in f p with
  | None => (Raise error_perm, p)
  | Some _ =>
      if String.eqb cmd "LIST" then (Ok (plc_listing p), p)
      else (Raise error_perm, p)
  end.

(** [storbinary]: the TYPE I command comes first and needs a session that
    has logged in; then ftplib refuses a command line that holds a CR or an
    LF with [ValueError]; the device stores the bytes under the name it is
    given, over what it held under that name. *)
Definition plc_storbinary (f : FTP) (cmd : string) (data : bytes) (p : plc)
    : Res unit * plc :=
  match logged_in f p with
  | None => (Raise error_perm, p)
  | Some ses =>
      if negb (no_newline cmd) then (Raise ValueError, p)
      else
        match strip_prefix "STOR " cmd with
        | Some name =>
            (Ok tt, with_files (<[(ses_cwd ses, name) := data]> (plc_files p)) p)
        | None => (Raise error_perm, p)
        end
  end.

Definition plc_retrbinary (f : FTP) (cmd : string) (p : plc)
    : Res (list bytes) * plc :=
  match logged_in f p with
  | None => (Raise error_perm, p)
  | Some ses =>
      match strip_prefix "RETR " cmd with
      | Some name =>
          match plc_files p !! (ses_cwd ses, name) with
          | Some data => (Ok (chunks_of (plc_blocksize p) data), p)
          | None => (Raise error_perm, p)
          end
      | None => (Raise error_perm, p)
      end
  end.

Definition plc_read_bytes (filename : string) (p : plc) : Res bytes :=
  match local_files p !! filename with
  | Some data => Ok data
  | None => Raise OSError
  end.

Definition plc_read_text (filename : string) (p : plc) : Res string :=
  data ← plc_read_bytes filename p; read_text data.

(** Four documents. [doc_b] is [doc_a] with the devices and the
    parameters in another order and the boolean written as the number 1;
    [doc_c] is [doc_a] with the rate written as a string; [doc_d] is
    [doc_b] with the numbers written as floats. *)
Definition doc_a : jval :=
  JDict [("dev1", JDict [("rate", JInt 1); ("name", JStr "a")]);
         ("dev2", JDict [("on", JBool true)])].

Definition doc_b : jval :=
  JDict [("dev2", JDict [("on", JInt 1)]);
         ("dev1", JDict [("name", JStr "a"); ("rate", JInt 1)])].

Definition doc_c : jval :=
  JDict [("dev1", JDict [("rate", JStr "1"); ("name", JStr "a")]);
         ("dev2", JDict [("on", JBool true)])].

Definition doc_d : jval :=
  JDict [("dev2", JDict [("on", JFloat (FFin 1 0))]);
         ("dev1", JDict [("name", JStr "a"); ("rate", JFloat (FFin 1 0))])].

(** A text written with an apostrophe for every double quote. *)
Fixpoint json_text (s : string) : string :=
  match s with
  | EmptyString => EmptyString
  | String c s' =>
      String (if Ascii.eqb c "'" then json.quote else c) (json_text s')
  end.

(** Two documents with floats that have no integer value or no value at
    all: the same limits, written in two ways. *)
Definition limits_local_text : string :=
  json_text "{'dev1': {'gain': NaN, 'max': 1e400, 'on': true, 'zero': 0, 'step': 0.5}}".
Definition limits_plc_text : string :=
  json_text "{'dev1': {'step': 5e-1, 'zero': -0.0, 'on': 1.0, 'max': 1e999, 'gain': NaN}}".

Definition limits_local : jval :=
  JDict [("dev1", JDict [("gain", JFloat FNan); ("max", JFloat (FInf false));
                         ("on", JBool true); ("zero", JInt 0);
                         ("step", JFloat (FFin 1 (-1)))])].
Definition limits_plc : jval :=
  JDict [("dev1", JDict [("step", JFloat (FFin 1 (-1)));
                         ("zero", JFloat (FZero true));
                         ("on", JFloat (FFin 1 0)); ("max", JFloat (FInf false));
                         ("gain", JFloat FNan)])].

(** The JSON texts of the four documents. *)
Definition doc_a_text : string :=
  json_text "{'dev1': {'rate': 1, 'name': 'a'}, 'dev2': {'on': true}}".
Definition doc_b_text : string :=
  json_text "{'dev2': {'on': 1}, 'dev1': {'name': 'a', 'rate': 1}}".
Definition doc_c_text : string :=
  json_text "{'dev1': {'rate': '1', 'name': 'a'}, 'dev2': {'on': true}}".
Definition doc_d_text : string :=
  json_text "{'dev2': {'on': 1.0}, 'dev1': {'name': 'a', 'rate': 1e0}}".

#[global] Instance plc_env : Env plc := {|
  env_connect := plc_connect;
  env_login := plc_login;
  env_nlst := plc_nlst;
  env_mkd := plc_mkd;
  env_cwd := plc_cwd;
  env_quit := plc_quit;
  env_close := plc_close;
  env_retrlines := plc_retrlines;
  env_storbinary := plc_storbinary;
  env_retrbinary := plc_retrbinary;
  env_read_text := plc_read_text;
  env_read_bytes := plc_read_bytes;
  json_loads := json.loads
|}.

(** *** Sample devices *)

Definition sample_hostname : string := "plc-kfe-motion".

Definition Administrator : option (string * string) := Some ("Administrator", "1").
Definition webguest : option (string * string) := Some ("webguest", "1").
Definition anonymous : option (string * string) := None.

(** The bytes of the four texts, which are ASCII. *)
Definition doc_a_bytes : bytes := bytes_of_str doc_a_text.
Definition doc_b_bytes : bytes := bytes_of_str doc_b_text.
Definition doc_c_bytes : bytes := bytes_of_str doc_c_text.
Definition doc_d_bytes : bytes := bytes_of_str doc_d_text.

Definition sample_local_files : gmap string bytes :=
  <["/data/plc-kfe-motion.json" := doc_a_bytes]>
    (<["/data/doc_c.json" := doc_c_bytes]> ∅).

(** A device that holds the limits under pmps/limits.json, with the local
    copy in /data/limits.json. *)
Definition limits_plc_device : plc :=
  Plc sample_hostname true [Administrator] false ["pmps"]
    {[ ("pmps", "limits.json") := bytes_of_str limits_plc_text ]} [] 4 ∅ 0
    {[ "/data/limits.json" := bytes_of_str limits_local_text ]}.

(** A device that is online, holds the directory pmps, accepts the
    credentials [accepts] and stores [files]; transfers go in blocks of
    four bytes. *)
Definition sample_plc (accepts : list (option (string * string)))
    (files : gmap (string * string) bytes) : plc :=
  Plc sample_hostname true accepts false ["pmps"] files
    ["11-04-22  13:59                16439 kfe-motion.json"] 4 ∅ 0
    sample_local_files.

Definition sample_world (accepts : list (option (string * string)))
    (files : gmap (string * string) bytes) : world plc :=
  World (sample_plc accepts files) [].

(** The logins that [ftp] makes leave the session logged in: the device
    lets webguest in, the last login of the loop; or it lets Administrator
    in and the rejection of webguest that follows does not end that login;
    or it rejects both and lets the anonymous login in. *)
Definition logins_succeed (p : plc) : bool :=
  accepts_cred (plc_accepts p) webguest
  || (if accepts_cred (plc_accepts p) Administrator
      then negb (plc_relogin_resets p)
      else accepts_cred (plc_accepts p) anonymous).

(** The device answers [hostname], the logins that [ftp] makes leave the
    session logged in, and the device sends blocks that are not empty. *)
Definition device_ok (hostname : string) (p : plc) : bool :=
  plc_online p && String.eqb hostname (plc_hostname p)
  && logins_succeed p
  && (0 <? plc_blocksize p)%nat.

(** Two states of one device: the name, the reachability, the accepted
    credentials, the handling of a rejected login and the block size are
    the same; the directories, the files and the sessions may differ. *)
Definition same_device (p q : plc) : Prop :=
  plc_hostname q = plc_hostname p /\ plc_online q = plc_online p
  /\ plc_accepts q = plc_accepts p
  /\ plc_relogin_resets q = plc_relogin_resets p
  /\ plc_blocksize q = plc_blocksize p.

(** *** Predicates on strings and traces used in the statements *)

(** No character of [s] is whitespace. *)
Definition no_space (s : string) : bool :=
  str_forallb (fun x => negb (py_isspace x)) s.

(** Every call that the computation [c] adds to the trace satisfies [P],
    whatever the environment answers and however [c] ends. *)
Definition emits {S A} (P : call -> bool) (c : M S A) : Prop :=
  forall w, exists l, trace (snd (c w)) = trace w ++ l /\ forallb P l = true.

(** The calls of an operation that only reads from directory [dir]: no
    store, and no directory made but [dir]. *)
Definition reads_only (dir : string) (c : call) : bool :=
  match c with
  | CStorbinary _ _ _ => false
  | CMkd _ d => String.eqb d dir
  | _ => true
  end.

(** The calls of an upload of [data] as [name] into [dir]: no store but
    that one, no directory made but [dir], nothing retrieved. *)
Definition uploads_only (dir name : string) (data : bytes) (c : call) : bool :=
  match c with
  | CStorbinary _ cmd d => String.eqb cmd ("STOR " +:+ name) && bool_decide (d = data)
  | CMkd _ d => String.eqb d dir
  | CRetrbinary _ _ | CRetrlines _ _ => false
  | _ => true
  end.

(** An environment whose server takes the connection and then drops it:
    every later command raises [EOFError]. *)
#[global] Instance dropping_env : Env unit := {|
  env_connect := fun _ s => (Ok 0%nat, s);
  env_login := fun _ _ s => (Raise EOFError, s);
  env_nlst := fun _ s => (Raise EOFError, s);
  env_mkd := fun _ _ s => (Raise EOFError, s);
  env_cwd := fun _ _ s => (Raise EOFError, s);
  env_quit := fun _ s => (Raise EOFError, s);
  env_close := fun _ s => s;
  env_retrlines := fun _ _ s => (Raise EOFError, s);
  env_storbinary := fun _ _ _ s => (Raise EOFError, s);
  env_retrbinary := fun _ _ s => (Raise EOFError, s);
  env_read_text := fun _ _ => Raise OSError;
  env_read_bytes := fun _ _ => Raise OSError;
  json_loads := fun _ => Raise JSONDecodeError
|}.

(** *** The session that [ftp] opens on the reference device *)

(** The credential the session ends up with: the last accepted login of
    the loop, the anonymous one when the loop had none. *)
Definition chosen_cred (accepts : list (option (string * string)))
    : option (string * string) :=
  if accepts_cred accepts webguest then webguest
  else if accepts_cred accepts Administrator then Administrator
  else anonymous.

Definition login_calls (f : FTP) (accepts : list (option (string * string)))
    : list call :=
  [CLogin f Administrator; CLogin f webguest]
  ++ (if accepts_cred accepts Administrator || accepts_cred accepts webguest
      then [] else [CLogin f anonymous]).

Definition setup_dirs (dir : string) (dirs : list string) : list string :=
  if str_in dir dirs then dirs else dirs ++ [dir].

Definition setup_calls (hostname dir : string) (p : plc) : list call :=
  [CConnect hostname; CSetPasv (plc_next p) false]
  ++ login_calls (plc_next p) (plc_accepts p)
  ++ [CNlst (plc_next p)]
  ++ (if str_in dir (plc_dirs p) then [] else [CMkd (plc_next p) dir])
  ++ [CCwd (plc_next p) dir].

(** The device once [ftp] has reached its [yield]. *)
Definition setup_state (dir : string) (p : plc) : plc :=
  Plc (plc_hostname p) (plc_online p) (plc_accepts p) (plc_relogin_resets p)
    (setup_dirs dir (plc_dirs p)) (plc_files p) (plc_listing p)
    (plc_blocksize p)
    (<[plc_next p := Session (Some (chosen_cred (plc_accepts p))) dir]>
       (plc_sessions p))
    (Datatypes.S (plc_next p)) (local_files p).

(** The device once the session has been quit. *)
Definition closed_state (dir : string) (p : plc) : plc :=
  plc_close (plc_next p) (setup_state dir p).

(** ** Running computations of [M] *)

Section running.
Context {S : Type}.

Lemma bind_run {A B} (c : M S A) (k : A -> M S B) (w : world S) :
  (c ≫= k) w =
  match c w with
  | (Ok a, w') => k a w'
  | (Raise e, w') => (Raise e, w')
  end.
Proof. reflexivity. Qed.

Lemma bind_ok {A B} (c : M S A) (k : A -> M S B) w a w1 :
  c w = (Ok a, w1) -> (c ≫= k) w = k a w1.
Proof. intros Hc. rewrite bind_run, Hc. reflexivity. Qed.

Lemma bind_raise {A B} (c : M S A) (k : A -> M S B) w e w1 :
  c w = (Raise e, w1) -> (c ≫= k) w = (Raise e, w1).
Proof. intros Hc. rewrite bind_run, Hc. reflexivity. Qed.

Lemma bind_ok_inv {A B} (c : M S A) (k : A -> M S B) w b w2 :
  (c ≫= k) w = (Ok b, w2) ->
  exists a w1, c w = (Ok a, w1) /\ k a w1 = (Ok b, w2).
Proof.
  rewrite bind_run. destruct (c w) as [[a|e] w1]; [|discriminate].
  intros Hk. exists a, w1. split; [reflexivity|exact Hk].
Qed.

(** The body of a [with] may post-process what it got: the session is
    the same. *)
Lemma with_fmap {Y A B} (g : generator S Y) (body : Y -> M S A) (f : A -> B)
    w a w' :
  with_ g body w = (Ok a, w') ->
  with_ g (fun y => x ← body y; mret (f x)) w = (Ok (f a), w').
Proof.
  unfold with_. destruct (gen_start g w) as [[y|e] w1]; [|discriminate].
  rewrite bind_run. destruct (body y w1) as [[x|e] w2].
  - cbn. destruct (gen_next g y w2) as [[u|e] w3]; [|discriminate].
    intros [= -> ->]. reflexivity.
  - destruct (gen_throw g y e w2) as [[v|e'] w3]; [destruct v|discriminate].
Qed.

End running.

(** ** The listing parser *)

Example from_list_line_sample_ok :
  is_ok (from_list_line "11-04-22  13:59                16439 kfe-motion.json") = true.
Proof. reflexivity. Qed.

Example py_int_examples :
  py_int "007" = Ok 7 /\ py_int "-5" = Ok (-5) /\ py_int "1_000" = Ok 1000
  /\ py_int "" = Raise ValueError /\ py_int "1__0" = Raise ValueError
  /\ py_int "12a" = Raise ValueError /\ py_int " 42 " = Ok 42.
Proof. repeat split; reflexivity. Qed.

Example str_split_examples :
  str_split "  a  b c " = ["a"; "b"; "c"]
  /\ str_split "" = []
  /\ str_split_on "-" "11-04-22" = ["11"; "04"; "22"]
  /\ str_split_on "-" "-1-" = [""; "1"; ""].
Proof. repeat split; reflexivity. Qed.

(** C6. A listing line that does not split into exactly four
    whitespace-separated tokens makes [PLCFile.from_list_line] raise
    [ValueError]: no record is returned, partial or not. *)
Theorem from_list_line_wrong_token_count (line : string) :
  length (str_split line) <> 4%nat ->
  from_list_line line = Raise ValueError
  /\ is_ValueError ValueError = true
  /\ forall record, from_list_line line <> Ok record.
Proof.
  intros Hlen.
  assert (Hraise : from_list_line line = Raise ValueError).
  { unfold from_list_line.
    destruct (str_split line) as [|t1 [|t2 [|t3 [|t4 [|t5 rest]]]]];
      try reflexivity.
    exfalso. apply Hlen. reflexivity. }
  split; [exact Hraise|]. split; [reflexivity|].
  intros record. rewrite Hraise. discriminate.
Qed.

Lemma from_list_line_wrong_token_count_witness :
  from_list_line "11-04-22  13:59  16439 kfe motion.json" = Raise ValueError
  /\ is_ValueError ValueError = true
  /\ forall record,
       from_list_line "11-04-22  13:59  16439 kfe motion.json" <> Ok record.
Proof.
  apply (from_list_line_wrong_token_count
           "11-04-22  13:59  16439 kfe motion.json").
  vm_compute. discriminate.
Defined.

(** C7. The sample line of the docstring parses to the file
    kfe-motion.json of 16439 bytes created on 2022-11-04 at 13:59, the
    two-digit year 22 being read as 2000 + 22. *)
Theorem from_list_line_sample :
  from_list_line "11-04-22  13:59                16439 kfe-motion.json"
  = Ok {| filename := "kfe-motion.json";
          create_time := {| year := 2000 + 22; month := 11; day := 4;
                            hour := 13; minute := 59;
                            second := 0; microsecond := 0 |};
          size := 16439 |}.
Proof. vm_compute. reflexivity. Qed.

(** ** Text decoding *)

Lemma str_of_bytes_app (a b : bytes) :
  str_of_bytes (a ++ b) = str_of_bytes a +:+ str_of_bytes b.
Proof.
  unfold str_of_bytes. rewrite map_app.
  induction (map ascii_of_byte a) as [|c l IH]; [reflexivity|].
  cbn [app string_of_list_ascii]. rewrite IH. reflexivity.
Qed.

Lemma str_app_assoc (a b c : string) : (a +:+ b) +:+ c = a +:+ (b +:+ c).
Proof.
  induction a as [|x a IH]; [reflexivity|].
  change (String x ((a +:+ b) +:+ c) = String x (a +:+ (b +:+ c))).
  f_equal. exact IH.
Qed.

Lemma str_app_nil_r (a : string) : a +:+ "" = a.
Proof.
  induction a as [|x a IH]; [reflexivity|].
  change (String x (a +:+ "") = String x a). f_equal. exact IH.
Qed.

(** Decoding chunk by chunk is decoding the concatenation. *)
Lemma decode_chunks_concat (byte_chunks : list bytes) (contents : string) :
  decode_chunks byte_chunks contents =
  (text ← decode_ascii (concat byte_chunks); Ok (contents +:+ text)).
Proof.
  revert contents. induction byte_chunks as [|chunk rest IH]; intros contents.
  - cbn. rewrite str_app_nil_r. reflexivity.
  - cbn [decode_chunks concat]. unfold decode_ascii at 1 2.
    rewrite forallb_app. destruct (forallb byte_is_ascii chunk); cbn.
    + rewrite IH. unfold decode_ascii.
      destruct (forallb byte_is_ascii (concat rest)); cbn; [|reflexivity].
      rewrite str_of_bytes_app, str_app_assoc. reflexivity.
    + reflexivity.
Qed.

Lemma decode_ascii_non_ascii (bs : bytes) (b : byte) :
  b ∈ bs -> byte_is_ascii b = false -> decode_ascii bs = Raise UnicodeDecodeError.
Proof.
  intros Hin Hb. unfold decode_ascii.
  destruct (forallb byte_is_ascii bs) eqn:Hall; [|reflexivity].
  rewrite forallb_forall in Hall. apply list_elem_of_In in Hin.
  rewrite (Hall b Hin) in Hb. discriminate.
Qed.

(** [download_file_text] on a session that delivered [byte_chunks]. *)
Lemma download_file_text_run {S} `{!Env S} h f d (w w' : world S) byte_chunks :
  with_ (ftp h d) (fun ftp_obj => retrbinary ftp_obj ("RETR " +:+ py_format f)) w
  = (Ok byte_chunks, w') ->
  download_file_text h f d w = (decode_ascii (concat byte_chunks), w').
Proof.
  intros Hsession. unfold download_file_text.
  apply (with_fmap _ _ (fun got => ([] ++ got)%list)) in Hsession.
  rewrite (bind_ok _ _ _ _ _ Hsession). unfold lift. cbn [app].
  rewrite decode_chunks_concat.
  destruct (decode_ascii (concat byte_chunks)); reflexivity.
Qed.

Lemma bytes_of_str_of_bytes (data : bytes) :
  bytes_of_str (str_of_bytes data) = data.
Proof.
  unfold bytes_of_str, str_of_bytes.
  rewrite list_ascii_of_string_of_list_ascii, map_map.
  induction data as [|b data IH]; [reflexivity|].
  cbn [map]. rewrite byte_of_ascii_of_byte, IH. reflexivity.
Qed.

(** The characters of a decoded text are the bytes, one character per
    byte. *)
Lemma str_of_bytes_chars (data : bytes) :
  list_ascii_of_string (str_of_bytes data) = map ascii_of_byte data.
Proof. unfold str_of_bytes. apply list_ascii_of_string_of_list_ascii. Qed.

Lemma str_length_chars (s : string) :
  String.length s = length (list_ascii_of_string s).
Proof. induction s as [|c s IH]; [reflexivity|]. cbn. rewrite IH. reflexivity. Qed.

(** C8. [download_file_text] returns the downloaded chunks, concatenated
    and decoded as strict ASCII: when every byte is below 128 the result is
    the text of the concatenation, one character per byte with the code of
    the byte, so that encoding the text gives the bytes back; and when some
    byte of some chunk is not below 128, the call raises
    [UnicodeDecodeError]. *)
Theorem download_file_text_strict_ascii {S : Type} `{!Env S}
    (hostname : string) (filename directory : option string)
    (w w' : world S) (byte_chunks : list bytes) :
  with_ (ftp hostname directory)
    (fun ftp_obj => retrbinary ftp_obj ("RETR " +:+ py_format filename)) w
  = (Ok byte_chunks, w') ->
  download_file_text hostname filename directory w
  = (decode_ascii (concat byte_chunks), w')
  /\ (forallb byte_is_ascii (concat byte_chunks) = true ->
      download_file_text hostname filename directory w
      = (Ok (str_of_bytes (concat byte_chunks)), w'))
  /\ (forallb byte_is_ascii (concat byte_chunks) = true ->
      exists text,
        download_file_text hostname filename directory w = (Ok text, w')
        /\ list_ascii_of_string text = map ascii_of_byte (concat byte_chunks)
        /\ bytes_of_str text = concat byte_chunks
        /\ String.length text = length (concat byte_chunks))
  /\ (forall chunk b, chunk ∈ byte_chunks -> b ∈ chunk ->
      byte_is_ascii b = false ->
      download_file_text hostname filename directory w
      = (Raise UnicodeDecodeError, w')).
Proof.
  intros Hsession.
  pose proof (download_file_text_run hostname filename directory w w'
                byte_chunks Hsession) as Hrun.
  assert (Hok : forallb byte_is_ascii (concat byte_chunks) = true ->
                download_file_text hostname filename directory w
                = (Ok (str_of_bytes (concat byte_chunks)), w')).
  { intros Hall. rewrite Hrun. unfold decode_ascii. rewrite Hall. reflexivity. }
  split; [exact Hrun|]. split; [exact Hok|]. split.
  - intros Hall. exists (str_of_bytes (concat byte_chunks)).
    split; [exact (Hok Hall)|]. split; [apply str_of_bytes_chars|].
    split; [apply bytes_of_str_of_bytes|].
    rewrite str_length_chars, str_of_bytes_chars. apply length_map.
  - intros chunk b Hchunk Hb Hnon. rewrite Hrun.
    rewrite (decode_ascii_non_ascii (concat byte_chunks) b); [reflexivity| |exact Hnon].
    apply list_elem_of_In, in_concat. exists chunk.
    split; apply list_elem_of_In; assumption.
Qed.

Lemma download_file_text_strict_ascii_witness :
  let w := sample_world [Administrator]
             {[ ("pmps", "kfe-motion.json") := [x7b; x22; x61; x22; x3a; x31; x7d];
                ("pmps", "latin.json") := [x7b; x22; x61; x22; x3a; xe9; x7d] ]} in
  (exists text,
     fst (download_file_text sample_hostname (Some "kfe-motion.json") None w)
     = Ok text
     /\ list_ascii_of_string text
        = ["{"; "034"; "a"; "034"; ":"; "1"; "}"]%char
     /\ bytes_of_str text = [x7b; x22; x61; x22; x3a; x31; x7d]
     /\ String.length text = 7%nat)
  /\ fst (download_file_text sample_hostname (Some "latin.json") None w)
     = Raise UnicodeDecodeError.
Proof.
  cbv zeta. split.
  - destruct (download_file_text_strict_ascii sample_hostname
                (Some "kfe-motion.json") None
                (sample_world [Administrator]
                   {[ ("pmps", "kfe-motion.json")
                        := [x7b; x22; x61; x22; x3a; x31; x7d];
                      ("pmps", "latin.json")
                        := [x7b; x22; x61; x22; x3a; xe9; x7d] ]})
                (snd (download_file_text sample_hostname
                        (Some "kfe-motion.json") None
                        (sample_world [Administrator]
                           {[ ("pmps", "kfe-motion.json")
                                := [x7b; x22; x61; x22; x3a; x31; x7d];
                              ("pmps", "latin.json")
                                := [x7b; x22; x61; x22; x3a; xe9; x7d] ]})))
                [[x7b; x22; x61; x22]; [x3a; x31; x7d]])
      as (_ & _ & Htext & _); [vm_compute; reflexivity|].
    destruct (Htext eq_refl) as (text & Hrun & Hchars & Hbytes & Hlen).
    exists text. rewrite Hrun. repeat split; assumption.
  - destruct (download_file_text_strict_ascii sample_hostname
                (Some "latin.json") None
                (sample_world [Administrator]
                   {[ ("pmps", "kfe-motion.json")
                        := [x7b; x22; x61; x22; x3a; x31; x7d];
                      ("pmps", "latin.json")
                        := [x7b; x22; x61; x22; x3a; xe9; x7d] ]})
                (snd (download_file_text sample_hostname
                        (Some "latin.json") None
                        (sample_world [Administrator]
                           {[ ("pmps", "kfe-motion.json")
                                := [x7b; x22; x61; x22; x3a; x31; x7d];
                              ("pmps", "latin.json")
                                := [x7b; x22; x61; x22; x3a; xe9; x7d] ]})))
                [[x7b; x22; x61; x22]; [x3a; xe9; x7d]])
      as (_ & _ & _ & Hraise); [vm_compute; reflexivity|].
    rewrite (Hraise [x3a; xe9; x7d] xe9); [reflexivity| | |reflexivity].
    + apply list_elem_of_further, list_elem_of_here.
    + apply list_elem_of_further, list_elem_of_here.
Defined.

(** ** The session manager *)

Section session.
Context {S : Type} `{!Env S}.

(** A method call on the FTP object adds itself, and nothing else, to the
    trace. *)
Lemma call_trace {A} (c : call) (g : S -> Res A * S) (w w' : world S) r :
  (_ ← log c; ask g) w = (r, w') -> trace w' = trace w ++ [c].
Proof.
  rewrite bind_run. unfold log, ask. cbn.
  destruct (g (state w)) as [r0 s']. intros [= _ <-]. reflexivity.
Qed.

Lemma login_trace f cred (w w' : world S) r :
  login f cred w = (r, w') -> trace w' = trace w ++ [CLogin f cred].
Proof. apply call_trace. Qed.


Lemma quit_trace f (w w' : world S) r :
  quit f w = (r, w') -> trace w' = trace w ++ [CQuit f].
Proof. apply call_trace. Qed.

Lemma close_run f (w : world S) :
  exists w', close f w = (Ok tt, w') /\ trace w' = trace w ++ [CClose f].
Proof. eexists. split; reflexivity. Qed.

(** The loop over the default credentials has no early exit: when it
    ends normally it has tried every credential, whatever the answers. *)
Lemma login_defaults_tries_all f creds rval (w w' : world S) r :
  login_defaults f creds rval w = (Ok r, w') ->
  trace w' = trace w ++ map (fun c => CLogin f (Some c)) creds.
Proof.
  revert rval w. induction creds as [|[user pwd] creds IH]; intros rval w.
  - cbn. intros [= _ <-]. rewrite app_nil_r. reflexivity.
  - cbn [login_defaults map]. intros Hrun.
    apply bind_ok_inv in Hrun as (rv & w1 & Hlogin & Hrest).
    apply IH in Hrest. rewrite Hrest.
    assert (Ht : trace w1 = trace w ++ [CLogin f (Some (user, pwd))]).
    { unfold try_except in Hlogin.
      destruct (login f (Some (user, pwd)) w) as [[a|e] w0] eqn:Hl;
        apply login_trace in Hl.
      - injection Hlogin as _ <-. exact Hl.
      - destruct (is_error_perm e); [|discriminate].
        cbn in Hlogin. injection Hlogin as _ <-. exact Hl. }
    rewrite Ht, <- app_assoc. reflexivity.
Qed.


(** The normal end of the body: the generator is resumed, [quit] is
    called, [close] only if [quit] raised, and nothing is raised. *)
Lemma with_ftp_body_returns {A} hostname directory (body : FTP -> M S A)
    (w w1 w2 : world S) f a :
  ftp_setup hostname directory w = (Ok f, w1) ->
  body f w1 = (Ok a, w2) ->
  exists w3, with_ (ftp hostname directory) body w = (Ok a, w3)
    /\ (trace w3 = trace w2 ++ [CQuit f]
        \/ trace w3 = trace w2 ++ [CQuit f; CClose f]).
Proof.
  intros Hsetup Hbody. unfold with_. cbn [ftp gen_start gen_next gen_throw].
  rewrite Hsetup, Hbody. unfold ftp_cleanup, try_except.
  destruct (quit f w2) as [[u|e] wq] eqn:Hquit; apply quit_trace in Hquit.
  - exists wq. split; [reflexivity|]. left. exact Hquit.
  - cbn [is_Exception].
    destruct (close_run f wq) as (wc & Hclose & Htrace). rewrite Hclose.
    exists wc. split; [reflexivity|]. right.
    rewrite Htrace, Hquit, <- app_assoc. reflexivity.
Qed.

(** The body raises: the exception comes back out of the generator at
    the [yield], the lines after it are not run, and the world is left as
    the body left it, with neither [quit] nor [close] called. *)
Lemma with_ftp_body_raises {A} hostname directory (body : FTP -> M S A)
    (w w1 w2 : world S) f e :
  ftp_setup hostname directory w = (Ok f, w1) ->
  body f w1 = (Raise e, w2) ->
  with_ (ftp hostname directory) body w = (Raise e, w2).
Proof.
  intros Hsetup Hbody. unfold with_. cbn [ftp gen_start gen_next gen_throw].
  rewrite Hsetup, Hbody. reflexivity.
Qed.

End session.



(** C1, at an input where the body of the [with] raises: the file asked
    for is not on the device, [retrbinary] raises [error_perm], and the
    call ends with the connection neither quit nor closed: the last call
    made is the download, and the device still holds the session. *)
Theorem ftp_body_exception_skips_teardown :
  let r := download_file_text sample_hostname (Some "kfe-motion.json") None
             (sample_world [Administrator; webguest] ∅) in
  fst r = Raise error_perm
  /\ trace (snd r)
     = [CConnect sample_hostname; CSetPasv 0%nat false;
        CLogin 0%nat Administrator; CLogin 0%nat webguest;
        CNlst 0%nat; CCwd 0%nat "pmps"; CRetrbinary 0%nat "RETR kfe-motion.json"]
  /\ plc_sessions (state (snd r)) !! 0%nat = Some (Session (Some webguest) "pmps").
Proof. vm_compute. repeat split; reflexivity. Qed.

(** C2, at a host that accepts the first default credential: the login
    with the second one is made all the same. When the host accepts only
    Administrator the second attempt is rejected and swallowed; when it
    accepts both, the session ends up logged in as webguest. *)
Theorem ftp_login_continues_after_accept :
  let r1 := ftp_setup sample_hostname None (sample_world [Administrator] ∅) in
  let r2 := ftp_setup sample_hostname None
              (sample_world [Administrator; webguest] ∅) in
  fst r1 = Ok 0%nat
  /\ trace (snd r1)
     = [CConnect sample_hostname; CSetPasv 0%nat false;
        CLogin 0%nat Administrator; CLogin 0%nat webguest; CNlst 0%nat; CCwd 0%nat "pmps"]
  /\ fst r2 = Ok 0%nat
  /\ trace (snd r2) = trace (snd r1)
  /\ plc_sessions (state (snd r2)) !! 0%nat = Some (Session (Some webguest) "pmps").
Proof. vm_compute. repeat split; reflexivity. Qed.

(** C3, at a call without [plc_filename]: the file asked of the device
    is named None, not the base name of the local path. Here the device
    holds the same document under the base name, the call raises
    [error_perm] for the missing file None, and the same call with the
    base name given returns [True]. *)
Theorem compare_file_omitted_name_fetches_None :
  let w := sample_world [Administrator]
             {[ ("pmps", "plc-kfe-motion.json") := doc_a_bytes ]} in
  let r := compare_file sample_hostname "/data/plc-kfe-motion.json" None None w in
  os_path_basename "/data/plc-kfe-motion.json" = "plc-kfe-motion.json"
  /\ fst r = Raise error_perm
  /\ last (trace (snd r)) = Some (CRetrbinary 0%nat "RETR None")
  /\ fst (compare_file sample_hostname "/data/plc-kfe-motion.json"
            (Some "plc-kfe-motion.json") None w) = Ok true.
Proof. vm_compute. repeat split; reflexivity. Qed.

(** C4, at a host that rejects the two default credentials and the
    anonymous login: the exception that leaves [ftp] is the [error_perm]
    of the anonymous login, which is not a [RuntimeError], and the
    connection that was opened is left open. *)
Theorem ftp_all_logins_rejected :
  let r := ftp_setup sample_hostname None (sample_world [] ∅) in
  fst r = Raise error_perm
  /\ is_RuntimeError error_perm = false
  /\ trace (snd r)
     = [CConnect sample_hostname; CSetPasv 0%nat false;
        CLogin 0%nat Administrator; CLogin 0%nat webguest; CLogin 0%nat anonymous]
  /\ plc_sessions (state (snd r)) !! 0%nat = Some (Session None "").
Proof. vm_compute. repeat split; reflexivity. Qed.

(** ** The module on the reference device *)

Lemma call_run {S A} (c : call) (g : S -> Res A * S) (w : world S) :
  (_ ← log c; ask g) w
  = (fst (g (state w)), World (snd (g (state w))) (trace w ++ [c])).
Proof.
  rewrite bind_run. unfold log, ask. cbn. destruct (g (state w)); reflexivity.
Qed.

Lemma login_plc f cred q t u d :
  plc_sessions q !! f = Some (Session u d) ->
  login f cred (World q t)
  = if accepts_cred (plc_accepts q) cred
    then (Ok (Some "230 User logged in."),
          World (with_sessions (<[f := Session (Some cred) d]> (plc_sessions q)) q)
            (t ++ [CLogin f cred]))
    else (Raise error_perm,
          World (if plc_relogin_resets q
                 then with_sessions
                        (<[f := Session None d]> (plc_sessions q)) q
                 else q)
            (t ++ [CLogin f cred])).
Proof.
  intros Hses. unfold login. rewrite call_run.
  cbn [env_login plc_env state trace]. unfold plc_login. rewrite Hses.
  cbn [ses_cwd]. destruct (accepts_cred (plc_accepts q) cred); reflexivity.
Qed.

Lemma try_except_run {S A} (c : M S A) catches handler (w : world S) :
  try_except c catches handler w
  = match c w with
    | (Ok a, w') => (Ok a, w')
    | (Raise e, w') => if catches e then handler w' else (Raise e, w')
    end.
Proof. reflexivity. Qed.

Ltac run := rewrite ?bind_run, ?try_except_run.

(** A rejected login leaves a session that had not logged in as it was,
    whether the device resets or not. *)
Lemma rejected_login_state (f : FTP) q d :
  plc_sessions q !! f = Some (Session None d) ->
  (if plc_relogin_resets q
   then with_sessions (<[f := Session None d]> (plc_sessions q)) q
   else q) = q.
Proof.
  intros Hses. destruct (plc_relogin_resets q); [|reflexivity].
  rewrite (insert_id _ _ _ Hses). destruct q; reflexivity.
Qed.

(** The logins of [ftp] on a device where they succeed: the calls are
    [login_calls] and the session ends with [chosen_cred]. *)
Lemma login_phase_plc_exact {B} f q t (k : unit -> M plc B) :
  plc_sessions q !! f = Some (Session None "") ->
  logins_succeed q = true ->
  (login_defaults f DEFAULT_PW None
     ≫= λ rval, (if is_None rval then login f None else mret rval)
     ≫= λ rval0, (if is_None rval0 then raise RuntimeError else mret ())
     ≫= k) (World q t)
  = k tt (World (with_sessions
                   (<[f := Session (Some (chosen_cred (plc_accepts q))) ""]>
                      (plc_sessions q)) q)
            (t ++ login_calls f (plc_accepts q))).
Proof.
  intros Hses Hacc. unfold logins_succeed in Hacc.
  unfold DEFAULT_PW, chosen_cred, login_calls.
  cbn [login_defaults]. run.
  rewrite (login_plc f _ q t None "" Hses).
  fold Administrator. fold webguest.
  destruct (accepts_cred (plc_accepts q) Administrator) eqn:HA.
  - run. erewrite login_plc by (cbn [plc_sessions with_sessions]; apply lookup_insert_eq).
    cbn [plc_accepts with_sessions plc_relogin_resets]. fold webguest.
    destruct (accepts_cred (plc_accepts q) webguest) eqn:HW.
    + cbn [is_None mret M_ret orb]. unfold with_sessions. cbn.
      rewrite insert_insert_eq, <- !app_assoc. reflexivity.
    + cbn [orb] in Hacc. apply negb_true_iff in Hacc. rewrite Hacc.
      cbn [is_error_perm is_None mret M_ret orb].
      rewrite <- !app_assoc. reflexivity.
  - rewrite (rejected_login_state f q "" Hses).
    cbn [is_error_perm mret M_ret]. run.
    rewrite (login_plc f _ q _ None "" Hses). fold webguest.
    destruct (accepts_cred (plc_accepts q) webguest) eqn:HW.
    + cbn [is_None mret M_ret orb]. rewrite <- !app_assoc. reflexivity.
    + rewrite (rejected_login_state f q "" Hses).
      cbn [is_error_perm is_None mret M_ret orb]. run.
      rewrite (login_plc f _ q _ None "" Hses).
      cbn [orb] in Hacc. unfold anonymous in *. rewrite Hacc.
      cbn [is_None mret M_ret]. rewrite <- !app_assoc. reflexivity.
Qed.

Lemma logged_in_plc f q c d :
  plc_sessions q !! f = Some (Session (Some c) d) ->
  logged_in f q = Some (Session (Some c) d).
Proof. intros Hses. unfold logged_in. rewrite Hses. reflexivity. Qed.

Lemma nlst_root_plc f q t c :
  plc_sessions q !! f = Some (Session (Some c) "") ->
  nlst f (World q t) = (Ok (plc_dirs q), World q (t ++ [CNlst f])).
Proof.
  intros Hses. unfold nlst. rewrite call_run.
  cbn [env_nlst plc_env state trace]. unfold plc_nlst.
  rewrite (logged_in_plc _ _ _ _ Hses). reflexivity.
Qed.

Lemma mkd_plc f q t c d0 d :
  plc_sessions q !! f = Some (Session (Some c) d0) ->
  no_newline d = true -> str_in d (plc_dirs q) = false ->
  mkd f d (World q t)
  = (Ok tt, World (with_dirs (plc_dirs q ++ [d]) q) (t ++ [CMkd f d])).
Proof.
  intros Hses Hline Hnew. unfold mkd. rewrite call_run.
  cbn [env_mkd plc_env state trace]. unfold plc_mkd.
  rewrite Hline, (logged_in_plc _ _ _ _ Hses), Hnew. reflexivity.
Qed.

Lemma cwd_plc f q t c d0 d :
  plc_sessions q !! f = Some (Session (Some c) d0) ->
  no_newline d = true -> str_in d (plc_dirs q) = true ->
  cwd f d (World q t)
  = (Ok tt,
     World (with_sessions (<[f := Session (Some c) d]> (plc_sessions q)) q)
       (t ++ [CCwd f d])).
Proof.
  intros Hses Hline Hin. unfold cwd. rewrite call_run.
  cbn [env_cwd plc_env state trace]. unfold plc_cwd.
  rewrite Hline, (logged_in_plc _ _ _ _ Hses), Hin. reflexivity.
Qed.

Lemma str_in_snoc d dirs : str_in d (dirs ++ [d]) = true.
Proof.
  unfold str_in. rewrite existsb_app. cbn. rewrite String.eqb_refl.
  rewrite orb_true_r. reflexivity.
Qed.

Lemma device_ok_fields h p :
  device_ok h p = true ->
  plc_online p = true /\ String.eqb h (plc_hostname p) = true
  /\ logins_succeed p = true
  /\ (0 < plc_blocksize p)%nat.
Proof.
  unfold device_ok. rewrite !andb_true_iff, Nat.ltb_lt. tauto.
Qed.

Lemma same_device_ok h p q :
  same_device p q -> device_ok h p = true -> device_ok h q = true.
Proof.
  intros (Hh & Ho & Ha & Hr & Hb). unfold device_ok, logins_succeed.
  rewrite Hh, Ho, Ha, Hr, Hb. tauto.
Qed.

Lemma str_forallb_impl (f g : ascii -> bool) (s : string) :
  (forall c, f c = true -> g c = true) ->
  str_forallb f s = true -> str_forallb g s = true.
Proof.
  intros Hfg. induction s as [|c s IH]; [reflexivity|].
  cbn [str_forallb]. rewrite !andb_true_iff. intros [Hc Hs].
  split; [apply Hfg, Hc|apply IH, Hs].
Qed.

Lemma all_plain_forallb (s : string) : all_plain s = str_forallb plain_char s.
Proof. induction s as [|c s IH]; [reflexivity|]. cbn. rewrite IH. reflexivity. Qed.

(** A plain name holds neither a CR nor an LF. *)
Lemma plain_name_no_newline (s : string) :
  plain_name s = true -> no_newline s = true.
Proof.
  unfold plain_name, no_newline, no_char. rewrite !andb_true_iff.
  intros [_ Hplain]. rewrite all_plain_forallb in Hplain.
  split; revert Hplain; apply str_forallb_impl; intros c Hc;
    destruct (Ascii.eqb_spec c "013"), (Ascii.eqb_spec c "010"); subst;
      first [reflexivity | discriminate Hc].
Qed.

Lemma plain_name_not_empty (s : string) :
  plain_name s = true -> str_is_empty s = false.
Proof. unfold plain_name. destruct (str_is_empty s); [discriminate|reflexivity]. Qed.

(** [directory or DIRECTORY] is never the empty string. *)
Lemma py_or_DIRECTORY_not_empty (d : option string) :
  str_is_empty (py_or d DIRECTORY) = false.
Proof. destruct d as [[|c s]|]; reflexivity. Qed.

(** The setup of [ftp] on the reference device. *)
Lemma ftp_setup_plc_exact h d p t :
  device_ok h p = true ->
  no_newline (py_or d DIRECTORY) = true ->
  ftp_setup h d (World p t)
  = (Ok (plc_next p),
     World (setup_state (py_or d DIRECTORY) p)
       (t ++ setup_calls h (py_or d DIRECTORY) p)).
Proof.
  intros Hok Hline. apply device_ok_fields in Hok as (Hon & Hhost & Hacc & _).
  set (dir := py_or d DIRECTORY) in *.
  unfold ftp_setup. fold dir.
  unfold FTP_new. rewrite bind_run, call_run.
  cbn [env_connect plc_env state trace fst snd].
  unfold plc_connect. rewrite Hon, Hhost. cbn [andb fst snd].
  rewrite bind_run. unfold set_pasv, log. cbn [state trace].
  set (f := plc_next p).
  set (q0 := with_next _ _).
  rewrite (login_phase_plc_exact (B := FTP) f q0
             ((t ++ [CConnect h]) ++ [CSetPasv f false])
             (fun _ => names ← nlst f;
                _ ← (if negb (str_in dir names) then mkd f dir else mret tt);
                _ ← cwd f dir; mret (f : FTP))).
  2:{ subst q0. cbn [plc_sessions with_next with_sessions]. apply lookup_insert_eq. }
  2:{ exact Hacc. }
  assert (Hses : forall ss0,
             (<[f := Session (Some (chosen_cred (plc_accepts p))) ""]> ss0 : gmap nat session)
               !! f = Some (Session (Some (chosen_cred (plc_accepts p))) "")).
  { intros ss0. apply lookup_insert_eq. }
  rewrite bind_run.
  erewrite nlst_root_plc by (cbn [plc_sessions with_sessions plc_accepts with_next q0]; subst q0; cbn [plc_sessions with_sessions plc_accepts with_next]; apply Hses).
  subst q0. cbn [plc_dirs with_sessions with_next plc_accepts].
  unfold setup_state, setup_calls, setup_dirs. fold f.
  destruct (str_in dir (plc_dirs p)) eqn:Hin; cbn [negb].
  - repeat first [rewrite bind_run | progress (cbn [mret M_ret])].
    erewrite cwd_plc
      by (cbn [plc_sessions with_sessions plc_dirs with_next plc_accepts];
          first [apply Hses | exact Hline | exact Hin]).
    unfold with_sessions, with_next. cbn.
    rewrite !insert_insert_eq, Hon, <- !app_assoc. reflexivity.
  - rewrite !bind_run.
    erewrite mkd_plc
      by (cbn [plc_sessions with_sessions plc_dirs with_next plc_accepts];
          first [apply Hses | exact Hline | exact Hin]).
    cbv beta iota. rewrite bind_run.
    erewrite cwd_plc
      by (cbn [plc_sessions with_sessions with_dirs plc_dirs with_next plc_accepts];
          first [apply Hses | exact Hline | apply str_in_snoc]).
    unfold with_sessions, with_next, with_dirs. cbn.
    rewrite !insert_insert_eq, Hon, <- !app_assoc. reflexivity.
Qed.

Lemma setup_state_session (dir : string) (p : plc) :
  plc_sessions (setup_state dir p) !! plc_next p
  = Some (Session (Some (chosen_cred (plc_accepts p))) dir).
Proof. cbn [setup_state plc_sessions]. apply lookup_insert_eq. Qed.

Lemma setup_state_same_device (dir : string) (p : plc) :
  same_device p (setup_state dir p).
Proof. repeat split. Qed.

Lemma ftp_setup_plc h d p t :
  device_ok h p = true ->
  no_newline (py_or d DIRECTORY) = true ->
  exists q t' c,
    ftp_setup h d (World p t) = (Ok (plc_next p), World q t')
    /\ plc_sessions q !! plc_next p = Some (Session (Some c) (py_or d DIRECTORY))
    /\ plc_files q = plc_files p
    /\ same_device p q.
Proof.
  intros Hok Hline. eexists _, _, _.
  split; [exact (ftp_setup_plc_exact h d p t Hok Hline)|].
  split; [apply setup_state_session|]. split; [reflexivity|].
  apply setup_state_same_device.
Qed.

Lemma storbinary_plc f q t c d name data :
  plc_sessions q !! f = Some (Session (Some c) d) ->
  no_newline name = true ->
  storbinary f ("STOR " +:+ name) data (World q t)
  = (Ok tt,
     World (with_files (<[(d, name) := data]> (plc_files q)) q)
       (t ++ [CStorbinary f ("STOR " +:+ name) data])).
Proof.
  intros Hses Hline. unfold storbinary. rewrite call_run.
  cbn [env_storbinary plc_env state trace]. unfold plc_storbinary.
  rewrite (logged_in_plc _ _ _ _ Hses).
  change (no_newline ("STOR " +:+ name)) with (no_newline name).
  rewrite Hline.
  change (strip_prefix "STOR " ("STOR " +:+ name)) with (Some name).
  reflexivity.
Qed.

Lemma retrbinary_plc f q t c d name data :
  plc_sessions q !! f = Some (Session (Some c) d) ->
  plc_files q !! (d, name) = Some data ->
  retrbinary f ("RETR " +:+ name) (World q t)
  = (Ok (chunks_of (plc_blocksize q) data),
     World q (t ++ [CRetrbinary f ("RETR " +:+ name)])).
Proof.
  intros Hses Hfile. unfold retrbinary. rewrite call_run.
  cbn [env_retrbinary plc_env state trace]. unfold plc_retrbinary.
  rewrite (logged_in_plc _ _ _ _ Hses).
  change (strip_prefix "RETR " ("RETR " +:+ name)) with (Some name).
  cbv beta iota. cbn [ses_cwd]. rewrite Hfile. reflexivity.
Qed.

Lemma ftp_cleanup_plc f q t ses :
  plc_sessions q !! f = Some ses ->
  ftp_cleanup f (World q t) = (Ok tt, World (plc_close f q) (t ++ [CQuit f])).
Proof.
  intros Hses. unfold ftp_cleanup. rewrite try_except_run.
  unfold quit. rewrite call_run. cbn [env_quit plc_env state trace].
  unfold plc_quit. rewrite Hses. reflexivity.
Qed.

Lemma concat_chunks_go {A} (fuel n : nat) (l : list A) :
  (0 < n)%nat -> (length l <= fuel)%nat -> concat (chunks_go fuel n l) = l.
Proof.
  intros Hn. revert l. induction fuel as [|fuel IH]; intros l Hlen.
  - destruct l; [reflexivity|cbn in Hlen; lia].
  - destruct l as [|x l]; [reflexivity|].
    cbn [chunks_go concat]. rewrite IH.
    + apply take_drop.
    + rewrite length_drop. cbn [length] in *. lia.
Qed.

Lemma concat_chunks_of {A} (n : nat) (l : list A) :
  (0 < n)%nat -> concat (chunks_of n l) = l.
Proof. intros Hn. apply concat_chunks_go; [exact Hn|reflexivity]. Qed.

Lemma with_ftp_returns {S} `{!Env S} {A} h d (body : FTP -> M S A)
    (w w1 w2 w3 : world S) f a :
  ftp_setup h d w = (Ok f, w1) ->
  body f w1 = (Ok a, w2) ->
  ftp_cleanup f w2 = (Ok tt, w3) ->
  with_ (ftp h d) body w = (Ok a, w3).
Proof.
  intros Hsetup Hbody Hclean. unfold with_.
  cbn [ftp gen_start gen_next gen_throw]. rewrite Hsetup, Hbody, Hclean.
  reflexivity.
Qed.

Lemma upload_file_plc h name data d p t :
  device_ok h p = true ->
  no_newline (py_or d DIRECTORY) = true ->
  no_newline name = true ->
  exists q t',
    upload_file h name data d (World p t) = (Ok tt, World q t')
    /\ plc_files q !! (py_or d DIRECTORY, name) = Some data
    /\ same_device p q.
Proof.
  intros Hok Hdir Hname.
  destruct (ftp_setup_plc h d p t Hok Hdir) as (q & t1 & c & Hsetup & Hses & _ & Hsame).
  eexists _, _. split.
  - unfold upload_file. eapply with_ftp_returns.
    + exact Hsetup.
    + apply (storbinary_plc _ _ _ _ _ _ _ Hses Hname).
    + eapply ftp_cleanup_plc. cbn [plc_sessions with_files]. exact Hses.
  - split; [cbn [plc_files plc_close with_sessions with_files]; apply lookup_insert_eq|].
    exact Hsame.
Qed.

Lemma download_file_text_plc h name data d p t :
  device_ok h p = true ->
  no_newline (py_or d DIRECTORY) = true ->
  plc_files p !! (py_or d DIRECTORY, name) = Some data ->
  exists q t',
    download_file_text h (Some name) d (World p t) = (decode_ascii data, World q t')
    /\ plc_files q = plc_files p
    /\ same_device p q.
Proof.
  intros Hok Hdir Hfile.
  destruct (ftp_setup_plc h d p t Hok Hdir) as (q & t1 & c & Hsetup & Hses & Hfiles & Hsame).
  apply device_ok_fields in Hok as (_ & _ & _ & Hblock).
  destruct Hsame as (Hh & Ho & Ha & Hr & Hb).
  eexists _, _. split.
  - rewrite <- (concat_chunks_of (plc_blocksize q) data) at 1 by (rewrite Hb; exact Hblock).
    apply download_file_text_run. eapply with_ftp_returns.
    + exact Hsetup.
    + cbn [py_format]. apply (retrbinary_plc _ _ _ _ _ _ _ Hses).
      rewrite Hfiles. exact Hfile.
    + eapply ftp_cleanup_plc. exact Hses.
  - split; [exact Hfiles|]. repeat split; assumption.
Qed.

(** C9, as the code has it. The reference device stores what it is sent
    under the name it is given and serves it back. Take such a device that
    answers the host name, on which the logins that [ftp] makes leave the
    session logged in, and whose blocks are not empty; take any bytes
    [data], and any name and directory that hold neither a CR nor an LF.
    Then [upload_file] succeeds, whatever the device held before, and
    [download_file_text] of that name afterwards gives [data] decoded as
    strict ASCII; doing both again gives the same. The result is the text
    whose bytes are exactly [data] when every byte is below 128, and
    [UnicodeDecodeError] when some byte is not: the download gives back a
    text, never the bytes. *)
Theorem upload_then_download_text (hostname name : string) (data : bytes)
    (directory : option string) (p : plc) (t : list call) :
  device_ok hostname p = true ->
  no_newline (py_or directory DIRECTORY) = true ->
  no_newline name = true ->
  exists w1 w2 w3 w4,
    upload_file hostname name data directory (World p t) = (Ok tt, w1)
    /\ download_file_text hostname (Some name) directory w1
       = (decode_ascii data, w2)
    /\ upload_file hostname name data directory w2 = (Ok tt, w3)
    /\ download_file_text hostname (Some name) directory w3
       = (decode_ascii data, w4)
    /\ (forallb byte_is_ascii data = true ->
        exists text,
          decode_ascii data = Ok text
          /\ list_ascii_of_string text = map ascii_of_byte data
          /\ bytes_of_str text = data)
    /\ (forall b, b ∈ data -> byte_is_ascii b = false ->
        decode_ascii data = Raise UnicodeDecodeError).
Proof.
  intros Hok Hdir Hname.
  destruct (upload_file_plc hostname name data directory p t Hok Hdir Hname)
    as (q1 & t1 & Hup1 & Hfile1 & Hsame1).
  pose proof (same_device_ok hostname p q1 Hsame1 Hok) as Hok1.
  destruct (download_file_text_plc hostname name data directory q1 t1
              Hok1 Hdir Hfile1)
    as (q2 & t2 & Hdown1 & _ & Hsame2).
  pose proof (same_device_ok hostname q1 q2 Hsame2 Hok1) as Hok2.
  destruct (upload_file_plc hostname name data directory q2 t2 Hok2 Hdir Hname)
    as (q3 & t3 & Hup2 & Hfile3 & Hsame3).
  pose proof (same_device_ok hostname q2 q3 Hsame3 Hok2) as Hok3.
  destruct (download_file_text_plc hostname name data directory q3 t3
              Hok3 Hdir Hfile3)
    as (q4 & t4 & Hdown2 & _ & _).
  exists (World q1 t1), (World q2 t2), (World q3 t3), (World q4 t4).
  repeat (split; [assumption|]). split.
  - intros Hall. exists (str_of_bytes data).
    split; [unfold decode_ascii; rewrite Hall; reflexivity|].
    split; [apply str_of_bytes_chars|apply bytes_of_str_of_bytes].
  - intros b Hin Hnon. exact (decode_ascii_non_ascii data b Hin Hnon).
Qed.

Lemma upload_then_download_text_witness :
  let p := Plc sample_hostname true [anonymous; webguest] true [] ∅ [] 4 ∅ 0 ∅ in
  let data := [x7b; x22; x61; x22; x3a; x31; x7d] in
  exists w1 w2 w3 w4,
    upload_file sample_hostname "kfe motion/v2.json" data (Some "my dir")
      (World p [])
    = (Ok tt, w1)
    /\ download_file_text sample_hostname (Some "kfe motion/v2.json")
         (Some "my dir") w1
       = (decode_ascii data, w2)
    /\ upload_file sample_hostname "kfe motion/v2.json" data (Some "my dir") w2
       = (Ok tt, w3)
    /\ download_file_text sample_hostname (Some "kfe motion/v2.json")
         (Some "my dir") w3
       = (decode_ascii data, w4)
    /\ (forallb byte_is_ascii data = true ->
        exists text,
          decode_ascii data = Ok text
          /\ list_ascii_of_string text = map ascii_of_byte data
          /\ bytes_of_str text = data)
    /\ (forall b, b ∈ data -> byte_is_ascii b = false ->
        decode_ascii data = Raise UnicodeDecodeError).
Proof.
  cbv zeta.
  apply (upload_then_download_text sample_hostname "kfe motion/v2.json"
           [x7b; x22; x61; x22; x3a; x31; x7d] (Some "my dir")).
  - vm_compute. reflexivity.
  - vm_compute. reflexivity.
  - vm_compute. reflexivity.
Defined.

(** C9 as stated fails, in three ways. For bytes outside ASCII: the one
    byte E9 is uploaded and stored, and downloading it returns no text at
    all but raises [UnicodeDecodeError]. For a name that holds a line
    feed: ftplib refuses to send the STOR command, [upload_file] raises
    [ValueError] and nothing is stored. And on a device that lets
    Administrator in but forgets that login when it rejects webguest:
    [ftp] goes on to webguest after Administrator was let in, the session
    ends not logged in, and [upload_file] raises [error_perm]. *)
Lemma upload_then_download_not_every_bytes :
  let w := sample_world [Administrator] ∅ in
  let up := upload_file sample_hostname "kfe-motion.json" [xe9] None w in
  let down := download_file_text sample_hostname (Some "kfe-motion.json") None
                (snd up) in
  let newline := String "a" (String "010" "b") in
  let up_newline := upload_file sample_hostname newline [x61] None w in
  let resetting := Plc sample_hostname true [Administrator] true ["pmps"] ∅ []
                     4 ∅ 0 ∅ in
  let up_resetting := upload_file sample_hostname "kfe-motion.json" [x61] None
                        (World resetting []) in
  (fst up = Ok tt
   /\ plc_files (state (snd up)) !! ("pmps", "kfe-motion.json") = Some [xe9]
   /\ fst down = Raise UnicodeDecodeError
   /\ ~ (exists text, fst down = Ok text /\ bytes_of_str text = [xe9]))
  /\ (fst up_newline = Raise ValueError
      /\ plc_files (state (snd up_newline)) = ∅)
  /\ (fst up_resetting = Raise error_perm
      /\ accepts_cred (plc_accepts resetting) Administrator = true
      /\ plc_files (state (snd up_resetting)) = ∅).
Proof.
  vm_compute. repeat split; try reflexivity.
  intros (text & Hdown & _). discriminate Hdown.
Qed.

(** ** Comparing documents *)

Section dicts.
Context {V : Type}.
Implicit Types (d : list (string * V)) (k : string) (v : V).

Lemma dict_get_Some_elem d k v : dict_get k d = Some v -> (k, v) ∈ d.
Proof.
  induction d as [|[k' v'] d IH]; cbn [dict_get]; [discriminate|].
  destruct (String.eqb k k') eqn:Hk.
  - apply String.eqb_eq in Hk. subst k'. intros [= ->]. apply list_elem_of_here.
  - intros Hget. apply list_elem_of_further, IH, Hget.
Qed.

Lemma dict_get_None d k : dict_get k d = None <-> k ∉ dict_keys d.
Proof.
  unfold dict_keys. induction d as [|[k' v'] d IH]; cbn [dict_get fmap list_fmap].
  - split; [intros _; apply not_elem_of_nil|reflexivity].
  - rewrite not_elem_of_cons. cbn [fst].
    destruct (String.eqb k k') eqn:Hk.
    + apply String.eqb_eq in Hk. split; [discriminate|]. intros [Hne _]. contradiction.
    + apply String.eqb_neq in Hk. rewrite IH. tauto.
Qed.

Lemma dict_get_elem_NoDup d k v :
  NoDup (dict_keys d) -> (k, v) ∈ d -> dict_get k d = Some v.
Proof.
  unfold dict_keys. induction d as [|[k' v'] d IH]; cbn [dict_get fmap list_fmap].
  - intros _ Hin. apply elem_of_nil in Hin. contradiction.
  - rewrite NoDup_cons. cbn [fst]. intros [Hfresh Hnodup] Hin.
    apply elem_of_cons in Hin as [Heq|Hin].
    + injection Heq as -> ->. rewrite String.eqb_refl. reflexivity.
    + destruct (String.eqb k k') eqn:Hk.
      * apply String.eqb_eq in Hk. subst k'. exfalso. apply Hfresh.
        apply list_elem_of_fmap. exists (k, v). split; [reflexivity|exact Hin].
      * apply IH; assumption.
Qed.

Lemma dict_get_perm d d' k :
  NoDup (dict_keys d) -> d ≡ₚ d' -> dict_get k d' = dict_get k d.
Proof.
  intros Hnodup Hperm.
  assert (Hnodup' : NoDup (dict_keys d')).
  { unfold dict_keys in *. rewrite <- Hperm. exact Hnodup. }
  destruct (dict_get k d) as [v|] eqn:Hget.
  - apply dict_get_elem_NoDup; [exact Hnodup'|].
    rewrite <- Hperm. apply dict_get_Some_elem, Hget.
  - apply dict_get_None. apply dict_get_None in Hget.
    unfold dict_keys in *. rewrite <- Hperm. exact Hget.
Qed.

(** The comparison of two dicts with distinct keys decides [dict_equal]. *)
Lemma dict_eqb_iff (veq : V -> V -> bool) (R : V -> V -> Prop) d1 d2 :
  NoDup (dict_keys d1) -> NoDup (dict_keys d2) ->
  (forall k v w, dict_get k d1 = Some v -> dict_get k d2 = Some w ->
                 (veq v w = true <-> R v w)) ->
  dict_eqb veq d1 d2 = true <-> dict_equal R d1 d2.
Proof.
  intros Hnd1 Hnd2 Hveq. unfold dict_eqb, dict_equal.
  rewrite andb_true_iff, Nat.eqb_eq, forallb_forall. split.
  - intros [Hlen Hall] k.
    assert (Hsub : forall x, x ∈ dict_keys d1 -> x ∈ dict_keys d2).
    { intros x Hx. apply list_elem_of_fmap in Hx as ([x' v] & -> & Hin).
      cbn [fst]. apply list_elem_of_In in Hin. specialize (Hall _ Hin).
      cbn in Hall. destruct (dict_get x' d2) eqn:Hget; [|discriminate].
      destruct (decide (x' ∈ dict_keys d2)) as [|Hnot]; [assumption|].
      apply dict_get_None in Hnot. congruence. }
    assert (Hperm : dict_keys d1 ≡ₚ dict_keys d2).
    { apply submseteq_length_Permutation.
      - apply NoDup_submseteq; assumption.
      - unfold dict_keys. rewrite !length_fmap. lia. }
    destruct (dict_get k d1) as [v|] eqn:Hget1.
    + pose proof (dict_get_Some_elem _ _ _ Hget1) as Hin.
      apply list_elem_of_In in Hin. specialize (Hall _ Hin). cbn in Hall.
      destruct (dict_get k d2) as [w|] eqn:Hget2; [|discriminate].
      constructor. apply (Hveq k v w Hget1 Hget2), Hall.
    + apply dict_get_None in Hget1. rewrite Hperm in Hget1.
      apply dict_get_None in Hget1. rewrite Hget1. constructor.
  - intros Hequal. split.
    + assert (Hperm : dict_keys d1 ≡ₚ dict_keys d2).
      { apply NoDup_Permutation; [assumption..|]. intros x.
        specialize (Hequal x).
        destruct (decide (x ∈ dict_keys d1)) as [Hin1|Hout1];
          destruct (decide (x ∈ dict_keys d2)) as [Hin2|Hout2]; try tauto.
        - apply dict_get_None in Hout2. rewrite Hout2 in Hequal.
          inversion Hequal as [? ? ? Heq1 Heq2|Heq1 Heq2].
          symmetry in Heq1. apply dict_get_None in Heq1. contradiction.
        - apply dict_get_None in Hout1. rewrite Hout1 in Hequal.
          inversion Hequal as [? ? ? Heq1 Heq2|Heq1 Heq2].
          symmetry in Heq2. apply dict_get_None in Heq2. contradiction. }
      apply Permutation_length in Hperm. unfold dict_keys in Hperm.
      rewrite !length_fmap in Hperm. exact Hperm.
    + intros [k v] Hin. apply list_elem_of_In in Hin.
      pose proof (dict_get_elem_NoDup _ _ _ Hnd1 Hin) as Hget1.
      specialize (Hequal k). rewrite Hget1 in Hequal.
      inversion Hequal as [? w HR Heq1 Heq2|]; subst.
      symmetry in Heq2. apply (Hveq k v w Hget1 Heq2), HR.
Qed.

End dicts.

Lemma pow2_even (k : Z) : 0 < k -> Z.odd (2 ^ k) = false.
Proof. intros Hk. rewrite Z.odd_pow by exact Hk. reflexivity. Qed.

Lemma odd_not_scaled (z z' k : Z) :
  Z.odd z = true -> 0 < k -> z <> z' * 2 ^ k.
Proof.
  intros Hodd Hk Heq. rewrite Heq, Z.odd_mul, (pow2_even k Hk), andb_false_r in Hodd.
  discriminate.
Qed.

Lemma dyadic_int_int (n m : Z) :
  n * 2 ^ (0 - Z.min 0 0) = m * 2 ^ (0 - Z.min 0 0) <-> n = m.
Proof. rewrite Z.min_id, Z.sub_diag, Z.pow_0_r, !Z.mul_1_r. reflexivity. Qed.

Lemma dyadic_int_fin (n z e : Z) :
  Z.odd z = true ->
  n * 2 ^ (0 - Z.min 0 e) = z * 2 ^ (e - Z.min 0 e) <-> 0 <= e /\ n = z * 2 ^ e.
Proof.
  intros Hodd. destruct (Z.le_gt_cases 0 e) as [He|He].
  - rewrite Z.min_l by exact He. rewrite !Z.sub_0_r, Z.pow_0_r, Z.mul_1_r.
    split; [intros ->; split; [exact He|reflexivity] | intros [_ ->]; reflexivity].
  - rewrite Z.min_r by lia. rewrite Z.sub_diag, Z.mul_1_r. split.
    + intros Heq. exfalso. apply (odd_not_scaled z n (0 - e) Hodd); lia.
    + lia.
Qed.

Lemma dyadic_fin_fin (z e z' e' : Z) :
  Z.odd z = true -> Z.odd z' = true ->
  z * 2 ^ (e - Z.min e e') = z' * 2 ^ (e' - Z.min e e') <-> z = z' /\ e = e'.
Proof.
  intros Hodd Hodd'. split.
  - intros Heq. destruct (Z.lt_trichotomy e e') as [Hlt|[->|Hgt]].
    + rewrite Z.min_l, Z.sub_diag, Z.mul_1_r in Heq by lia.
      exfalso. apply (odd_not_scaled z z' (e' - e) Hodd); [lia|exact Heq].
    + rewrite Z.min_id, Z.sub_diag in Heq. lia.
    + rewrite Z.min_r, Z.sub_diag, Z.mul_1_r in Heq by lia.
      exfalso. apply (odd_not_scaled z' z (e - e') Hodd'); [lia|]. symmetry. exact Heq.
  - intros [-> ->]. reflexivity.
Qed.

Lemma odd_nonzero (z : Z) : Z.odd z = true -> z <> 0.
Proof. intros Hodd ->. discriminate. Qed.

Lemma dyadic_zero_fin (z e : Z) :
  Z.odd z = true -> 0 * 2 ^ (0 - Z.min 0 e) <> z * 2 ^ (e - Z.min 0 e).
Proof.
  intros Hodd Heq. rewrite Z.mul_0_l in Heq. symmetry in Heq.
  apply Z.mul_eq_0 in Heq as [Hz|Hp]; [exact (odd_nonzero z Hodd Hz)|].
  assert (0 < 2 ^ (e - Z.min 0 e)) by (apply Z.pow_pos_nonneg; lia). lia.
Qed.

(** [==] on two numbers of a document is the equality of their values. *)
Lemma py_eq_numbers (v w : jval) (z e z' e' : Z) :
  is_scalar v = true -> is_scalar w = true ->
  number_value v = Some (z, e) -> number_value w = Some (z', e') ->
  py_eq v w = true <->
  z * 2 ^ (e - Z.min e e') = z' * 2 ^ (e' - Z.min e e').
Proof.
  intros Hv Hw Hnv Hnw.
  destruct v as [|x|n|[| |s|fz fe]|?|?|?]; try discriminate Hnv;
    destruct w as [|y|m|[| |s'|gz ge]|?|?|?]; try discriminate Hnw;
    cbn [number_value] in Hnv, Hnw; injection Hnv as <- <-;
    injection Hnw as <- <-; cbn [is_scalar float_wf] in Hv, Hw;
    cbn [py_eq float_eqb int_float_eqb].
  all: rewrite ?dyadic_int_int, ?Bool.eqb_true_iff, ?Z.eqb_eq,
         ?andb_true_iff, ?Z.leb_le, ?Z.eqb_eq.
  - destruct x, y; cbn; split; intros H; first [reflexivity | discriminate H].
  - reflexivity.
  - reflexivity.
  - symmetry. apply dyadic_int_fin. exact Hw.
  - reflexivity.
  - reflexivity.
  - reflexivity.
  - symmetry. apply dyadic_int_fin. exact Hw.
  - split; intros H; symmetry; exact H.
  - split; intros H; symmetry; exact H.
  - split; reflexivity.
  - split; [discriminate|]. intros H. exfalso. exact (dyadic_zero_fin gz ge Hw H).
  - rewrite (Z.min_comm fe 0), <- (dyadic_int_fin (Z.b2z y) fz fe Hv).
    split; intros H; symmetry; exact H.
  - rewrite (Z.min_comm fe 0), <- (dyadic_int_fin m fz fe Hv).
    split; intros H; symmetry; exact H.
  - split; [discriminate|]. intros H. exfalso. rewrite (Z.min_comm fe 0) in H.
    symmetry in H. exact (dyadic_zero_fin fz fe Hv H).
  - symmetry. apply dyadic_fin_fin; assumption.
Qed.

Lemma same_number_values (v w : jval) (z e z' e' : Z) :
  number_value v = Some (z, e) -> number_value w = Some (z', e') ->
  same_number v w <->
  z * 2 ^ (e - Z.min e e') = z' * 2 ^ (e' - Z.min e e').
Proof.
  intros Hv Hw. split.
  - intros (a & b & a' & b' & Ha & Hb & Heq). rewrite Hv in Ha. rewrite Hw in Hb.
    injection Ha as <- <-. injection Hb as <- <-. exact Heq.
  - intros Heq. exists z, e, z', e'. auto.
Qed.

Lemma same_number_not_number_l (v w : jval) :
  number_value v = None -> ~ same_number v w.
Proof. intros Hv (a & b & a' & b' & Ha & _). rewrite Hv in Ha. discriminate. Qed.

Lemma same_number_not_number_r (v w : jval) :
  number_value w = None -> ~ same_number v w.
Proof. intros Hw (a & b & a' & b' & _ & Hb & _). rewrite Hw in Hb. discriminate. Qed.

Lemma same_number_sym (v w : jval) : same_number v w -> same_number w v.
Proof.
  intros (z & e & z' & e' & Hv & Hw & Heq). exists z', e', z, e.
  rewrite (Z.min_comm e' e). auto.
Qed.

(** A number equal to itself by value: every number but NaN. *)
Lemma py_eq_number_refl (v : jval) (z e : Z) :
  number_value v = Some (z, e) -> same_number v v.
Proof. intros Hv. exists z, e, z, e. auto. Qed.

(** On the scalars of a document, the comparison the containers make of two
    items - identity first, then [==] - is [py_equal_scalars]. *)
Lemma py_eq_scalars (v w : jval) :
  is_scalar v = true -> is_scalar w = true ->
  py_eq_item v w = true <-> py_equal_scalars v w.
Proof.
  intros Hv Hw. unfold py_eq_item, py_equal_scalars.
  destruct (number_value v) as [[z e]|] eqn:Hnv.
  - destruct (number_value w) as [[z' e']|] eqn:Hnw.
    + assert (His : py_is v w = false).
      { destruct v as [| | |[| | |]| | |], w as [| | |[| | |]| | |]; try reflexivity;
          discriminate. }
      rewrite His, orb_false_l, (py_eq_numbers v w z e z' e' Hv Hw Hnv Hnw).
      rewrite <- (same_number_values v w z e z' e' Hnv Hnw). split; [right; assumption|].
      intros [->|H]; [exact (py_eq_number_refl w z e Hnv)|exact H].
    + assert (Hf : py_is v w || py_eq v w = false).
      { destruct v as [|x|n|[| |s|fz fe]|?|?|?]; try discriminate Hnv;
          destruct w as [|y|m|[| |s'|gz ge]|?|?|?]; try discriminate Hnw;
          try discriminate Hw; reflexivity. }
      rewrite Hf. split; [discriminate|].
      intros [->|H]; [congruence|]. exfalso.
      exact (same_number_not_number_r v w Hnw H).
  - split.
    + intros H. left.
      destruct v as [|x|n|[|s|s|fz fe]|s|?|?]; try discriminate Hnv; try discriminate Hv;
        destruct w as [|y|m|[|s'|s'|gz ge]|s'|?|?]; try discriminate Hw;
        try discriminate H; try reflexivity.
      * cbn in H. apply Bool.eqb_prop in H. congruence.
      * cbn in H. apply String.eqb_eq in H. congruence.
    + intros [<-|H]; [|exfalso; exact (same_number_not_number_l v w Hnv H)].
      destruct v as [|x|n|[|s|s|fz fe]|s|?|?]; try discriminate Hnv; try discriminate Hv;
        cbn; try reflexivity.
      * apply Bool.eqb_reflx.
      * apply String.eqb_refl.
Qed.

Lemma is_params_inv (p : jval) :
  is_params p = true ->
  exists ps, p = JDict ps /\ NoDup (dict_keys ps)
             /\ forall k v, (k, v) ∈ ps -> is_scalar v = true.
Proof.
  destruct p as [| | | | | |ps]; cbn [is_params]; try discriminate.
  rewrite andb_true_iff, bool_decide_eq_true, forallb_forall.
  intros [Hnodup Hall]. exists ps. repeat split; [exact Hnodup|].
  intros k v Hin. apply list_elem_of_In in Hin. exact (Hall _ Hin).
Qed.

Lemma is_config_document_inv (a : jval) :
  is_config_document a = true ->
  exists xs, a = JDict xs /\ NoDup (dict_keys xs)
             /\ forall k p, (k, p) ∈ xs -> is_params p = true.
Proof.
  destruct a as [| | | | | |xs]; cbn [is_config_document]; try discriminate.
  rewrite andb_true_iff, bool_decide_eq_true, forallb_forall.
  intros [Hnodup Hall]. exists xs. repeat split; [exact Hnodup|].
  intros k p Hin. apply list_elem_of_In in Hin. exact (Hall _ Hin).
Qed.

(** The parameters of a device are a dict, never the NaN object. *)
Lemma py_is_params (p q : jval) : is_params p = true -> py_is p q = false.
Proof. destruct p as [| | |[| | |]| | |]; try discriminate; reflexivity. Qed.

Lemma py_eq_params (p q : jval) :
  is_params p = true -> is_params q = true ->
  py_eq p q = true <-> params_equal py_equal_scalars p q.
Proof.
  intros Hp Hq.
  apply is_params_inv in Hp as (ps & -> & Hndp & Hsp).
  apply is_params_inv in Hq as (qs & -> & Hndq & Hsq).
  cbn [py_eq params_equal]. apply dict_eqb_iff; [assumption..|].
  intros k v w Hv Hw. apply (py_eq_scalars v w).
  - apply (Hsp k), dict_get_Some_elem, Hv.
  - apply (Hsq k), dict_get_Some_elem, Hw.
Qed.

(** On configuration documents [==] is structural equality up to
    [py_equal_scalars]. *)
Lemma py_eq_config_documents (a b : jval) :
  is_config_document a = true -> is_config_document b = true ->
  py_eq a b = true <-> structurally_equal py_equal_scalars a b.
Proof.
  intros Ha Hb.
  apply is_config_document_inv in Ha as (xs & -> & Hndx & Hpx).
  apply is_config_document_inv in Hb as (ys & -> & Hndy & Hpy).
  cbn [py_eq structurally_equal]. apply dict_eqb_iff; [assumption..|].
  intros k p q Hp Hq.
  assert (Hparams : is_params p = true) by apply (Hpx k), dict_get_Some_elem, Hp.
  rewrite (py_is_params p q Hparams), orb_false_l. apply py_eq_params.
  - exact Hparams.
  - apply (Hpy k), dict_get_Some_elem, Hq.
Qed.

Lemma params_permuted_is_params (p p' : jval) :
  is_params p = true -> params_permuted p p' -> is_params p' = true.
Proof.
  intros Hp Hperm. apply is_params_inv in Hp as (ps & -> & Hnd & Hsc).
  destruct p' as [| | | | | |ps']; cbn [params_permuted] in Hperm; try contradiction.
  cbn [is_params]. rewrite andb_true_iff, bool_decide_eq_true, forallb_forall.
  split.
  - unfold dict_keys in *. rewrite <- Hperm. exact Hnd.
  - intros [k v] Hin. apply list_elem_of_In in Hin. rewrite <- Hperm in Hin.
    exact (Hsc k v Hin).
Qed.

Lemma params_permuted_equal (R : jval -> jval -> Prop) (p p' q q' : jval) :
  is_params p = true -> is_params q = true ->
  params_permuted p p' -> params_permuted q q' ->
  params_equal R p q <-> params_equal R p' q'.
Proof.
  intros Hp Hq Hpp Hqq.
  apply is_params_inv in Hp as (ps & -> & Hndp & _).
  apply is_params_inv in Hq as (qs & -> & Hndq & _).
  destruct p' as [| | | | | |ps']; cbn [params_permuted] in Hpp; try contradiction.
  destruct q' as [| | | | | |qs']; cbn [params_permuted] in Hqq; try contradiction.
  cbn [params_equal]. unfold dict_equal.
  split; intros Hequal k; specialize (Hequal k).
  - rewrite (dict_get_perm ps ps' k Hndp Hpp), (dict_get_perm qs qs' k Hndq Hqq).
    exact Hequal.
  - rewrite (dict_get_perm ps ps' k Hndp Hpp), (dict_get_perm qs qs' k Hndq Hqq)
      in Hequal.
    exact Hequal.
Qed.

Lemma doc_permuted_inv (xs : list (string * jval)) (a' : jval) :
  NoDup (dict_keys xs) ->
  (forall k p, (k, p) ∈ xs -> is_params p = true) ->
  doc_permuted (JDict xs) a' ->
  exists xs', a' = JDict xs' /\ is_config_document a' = true
    /\ forall k, option_Forall2 params_permuted (dict_get k xs) (dict_get k xs').
Proof.
  intros Hnd Hparams Hperm.
  destruct a' as [| | | | | |xs']; cbn [doc_permuted] in Hperm; try contradiction.
  destruct Hperm as (m & Hall & Hperm).
  assert (Hkeys : dict_keys m = dict_keys xs).
  { unfold dict_keys. clear -Hall.
    induction Hall as [|e e' xs m [Hfst _] _ IH]; [reflexivity|].
    cbn [fmap list_fmap]. rewrite Hfst. f_equal. exact IH. }
  assert (Hget : forall k,
             option_Forall2 params_permuted (dict_get k xs) (dict_get k m)).
  { intros k. clear -Hall.
    induction Hall as [|[k1 p1] [k2 p2] xs m [Hfst Hpp] _ IH];
      cbn [dict_get]; [constructor|].
    cbn [fst snd] in Hfst, Hpp. subst k2.
    destruct (String.eqb k k1); [constructor; exact Hpp|exact IH]. }
  assert (Hparams_m : forall k p, (k, p) ∈ m -> is_params p = true).
  { clear -Hall Hparams.
    induction Hall as [|[k1 p1] [k2 p2] xs m [Hfst Hpp] _ IH];
      intros k p Hin; [apply elem_of_nil in Hin; contradiction|].
    cbn [fst snd] in Hfst, Hpp. apply elem_of_cons in Hin as [[= -> ->]|Hin].
    - apply (params_permuted_is_params p1 p2); [|exact Hpp].
      apply (Hparams k1). apply list_elem_of_here.
    - apply (IH (fun k0 p0 H0 => Hparams k0 p0 (list_elem_of_further _ _ _ H0)) k p Hin). }
  assert (Hnd_m : NoDup (dict_keys m)) by (rewrite Hkeys; exact Hnd).
  exists xs'. split; [reflexivity|]. split.
  - cbn [is_config_document].
    rewrite andb_true_iff, bool_decide_eq_true, forallb_forall. split.
    + unfold dict_keys in *. rewrite <- Hperm. exact Hnd_m.
    + intros [k p] Hin. apply list_elem_of_In in Hin. rewrite <- Hperm in Hin.
      exact (Hparams_m k p Hin).
  - intros k. rewrite (dict_get_perm m xs' k Hnd_m Hperm). apply Hget.
Qed.

Lemma option_params_permuted_equal (R : jval -> jval -> Prop)
    (ox ox' oy oy' : option jval) :
  (forall p, ox = Some p -> is_params p = true) ->
  (forall q, oy = Some q -> is_params q = true) ->
  option_Forall2 params_permuted ox ox' ->
  option_Forall2 params_permuted oy oy' ->
  option_Forall2 (params_equal R) ox oy
  <-> option_Forall2 (params_equal R) ox' oy'.
Proof.
  intros Hp Hq Hx Hy.
  destruct Hx as [p p' Hpp|]; destruct Hy as [q q' Hqq|];
    split; intros Hequal; inversion Hequal; subst; constructor.
  - apply (params_permuted_equal R p p' q q'); auto.
  - apply (params_permuted_equal R p p' q q'); auto.
Qed.

(** Reordering the devices and the parameters of either document does
    not change the comparison. *)
Lemma py_eq_doc_permuted (a a' b b' : jval) :
  is_config_document a = true -> is_config_document b = true ->
  doc_permuted a a' -> doc_permuted b b' ->
  py_eq a' b' = py_eq a b.
Proof.
  intros Ha Hb Haa Hbb.
  pose proof Ha as Ha0. pose proof Hb as Hb0.
  apply is_config_document_inv in Ha0 as (xs & -> & Hndx & Hpx).
  apply is_config_document_inv in Hb0 as (ys & -> & Hndy & Hpy).
  destruct (doc_permuted_inv xs a' Hndx Hpx Haa) as (xs' & -> & Ha' & Hgx).
  destruct (doc_permuted_inv ys b' Hndy Hpy Hbb) as (ys' & -> & Hb' & Hgy).
  apply Bool.eq_true_iff_eq.
  rewrite (py_eq_config_documents _ _ Ha' Hb'), (py_eq_config_documents _ _ Ha Hb).
  cbn [structurally_equal]. unfold dict_equal.
  assert (Hk : forall k,
             option_Forall2 (params_equal py_equal_scalars)
               (dict_get k xs) (dict_get k ys)
             <-> option_Forall2 (params_equal py_equal_scalars)
                   (dict_get k xs') (dict_get k ys')).
  { intros k. apply option_params_permuted_equal; [| |apply Hgx|apply Hgy].
    - intros p Hget. apply (Hpx k), dict_get_Some_elem, Hget.
    - intros q Hget. apply (Hpy k), dict_get_Some_elem, Hget. }
  split; intros Hequal k; apply Hk, Hequal.
Qed.

Lemma compare_file_run {S : Type} `{!Env S} (hostname local_filename : string)
    (plc_filename directory : option string) (w w1 w2 : world S) (a b : jval) :
  local_file_json_dict local_filename w = (Ok a, w1) ->
  download_file_json_dict hostname plc_filename directory w1 = (Ok b, w2) ->
  compare_file hostname local_filename plc_filename directory w
  = (Ok (py_eq a b), w2).
Proof.
  intros Hlocal Hplc. unfold compare_file.
  rewrite (bind_ok _ _ _ _ _ Hlocal), (bind_ok _ _ _ _ _ Hplc). reflexivity.
Qed.

Lemma py_equal_scalars_types (v w : jval) :
  py_equal_scalars v w -> type_of v <> type_of w ->
  (type_of v = TBoolean /\ type_of w = TNumber)
  \/ (type_of v = TNumber /\ type_of w = TBoolean).
Proof.
  intros [->|(z & e & z' & e' & Hv & Hw & _)] Htypes; [contradiction|].
  destruct v as [| | |[| | |]| | |]; try discriminate Hv;
    destruct w as [| | |[| | |]| | |]; try discriminate Hw;
    cbn [type_of] in *; first [contradiction | left; split; reflexivity
                              | right; split; reflexivity].
Qed.

Lemma structurally_equal_param_at (R : jval -> jval -> Prop) (a b : jval)
    (dev name : string) (v w : jval) :
  structurally_equal R a b ->
  param_at a dev name = Some v -> param_at b dev name = Some w -> R v w.
Proof.
  destruct a as [| | | | | |xs], b as [| | | | | |ys];
    cbn [structurally_equal param_at]; try contradiction.
  intros Hequal Hv Hw. specialize (Hequal dev).
  destruct (dict_get dev xs) as [[| | | | | |ps]|]; try discriminate.
  destruct (dict_get dev ys) as [[| | | | | |qs]|]; try discriminate.
  inversion Hequal as [? ? Hparams|]; subst. cbn [params_equal] in Hparams.
  specialize (Hparams name). rewrite Hv, Hw in Hparams.
  inversion Hparams; subst. assumption.
Qed.

(** C5, as the code has it. [compare_file] returns [local_data ==
    plc_data]. For two configuration documents, whose values are strings,
    numbers ([int] or [float]), booleans and [None], this is true exactly
    when they have the same top-level keys and, under each key, the same
    parameter names with values equal in Python's sense: the same value of
    the same type (NaN included: every NaN of a decoded document is one
    object), or two numbers of the same numeric value, where a boolean
    counts as the number 1 or 0, so that [True == 1 == 1.0] and
    [0 == -0.0]. The result does not depend on the order of the keys at
    either level. When the two values of a parameter have different JSON
    types and the documents still compare equal, one is a boolean and the
    other a number; a string against a number always makes the result
    false. *)
Theorem compare_file_structural {S : Type} `{!Env S}
    (hostname local_filename : string) (plc_filename directory : option string)
    (w w1 w2 : world S) (a b : jval) :
  local_file_json_dict local_filename w = (Ok a, w1) ->
  download_file_json_dict hostname plc_filename directory w1 = (Ok b, w2) ->
  is_config_document a = true -> is_config_document b = true ->
  compare_file hostname local_filename plc_filename directory w
  = (Ok (py_eq a b), w2)
  /\ (py_eq a b = true <-> structurally_equal py_equal_scalars a b)
  /\ (forall a' b', doc_permuted a a' -> doc_permuted b b' ->
        py_eq a' b' = py_eq a b)
  /\ (forall dev name v v', param_at a dev name = Some v ->
        param_at b dev name = Some v' -> type_of v <> type_of v' ->
        py_eq a b = true ->
        (type_of v = TBoolean /\ type_of v' = TNumber)
        \/ (type_of v = TNumber /\ type_of v' = TBoolean)).
Proof.
  intros Hlocal Hplc Ha Hb.
  split; [exact (compare_file_run _ _ _ _ _ _ _ _ _ Hlocal Hplc)|].
  split; [exact (py_eq_config_documents a b Ha Hb)|].
  split; [intros a' b'; exact (py_eq_doc_permuted a a' b b' Ha Hb)|].
  intros dev name v v' Hv Hv' Htypes Heq.
  apply (py_eq_config_documents a b Ha Hb) in Heq.
  apply py_equal_scalars_types; [|exact Htypes].
  exact (structurally_equal_param_at _ a b dev name v v' Heq Hv Hv').
Qed.

Lemma compare_file_structural_witness :
  let w := sample_world [Administrator]
             {[ ("pmps", "plc-kfe-motion.json") := doc_c_bytes;
                ("pmps", "floats.json") := doc_d_bytes ]} in
  let wl := World limits_plc_device [] in
  (compare_file sample_hostname "/data/plc-kfe-motion.json"
     (Some "plc-kfe-motion.json") None w
   = (Ok (py_eq doc_a doc_c),
      snd (download_file_json_dict sample_hostname
             (Some "plc-kfe-motion.json") None w))
   /\ py_eq doc_a doc_c = false
   /\ param_at doc_a "dev1" "rate" = Some (JInt 1)
   /\ param_at doc_c "dev1" "rate" = Some (JStr "1"))
  /\ (compare_file sample_hostname "/data/plc-kfe-motion.json"
        (Some "floats.json") None w
      = (Ok (py_eq doc_a doc_d),
         snd (download_file_json_dict sample_hostname
                (Some "floats.json") None w))
      /\ py_eq doc_a doc_d = true
      /\ structurally_equal py_equal_scalars doc_a doc_d
      /\ param_at doc_a "dev1" "rate" = Some (JInt 1)
      /\ param_at doc_d "dev1" "rate" = Some (JFloat (FFin 1 0)))
  /\ (json.loads limits_local_text = Ok limits_local
      /\ json.loads limits_plc_text = Ok limits_plc
      /\ compare_file sample_hostname "/data/limits.json"
           (Some "limits.json") None wl
         = (Ok (py_eq limits_local limits_plc),
            snd (download_file_json_dict sample_hostname
                   (Some "limits.json") None wl))
      /\ py_eq limits_local limits_plc = true
      /\ py_eq (JFloat FNan) (JFloat FNan) = false).
Proof.
  cbv zeta.
  set (w := sample_world [Administrator]
              {[ ("pmps", "plc-kfe-motion.json") := doc_c_bytes;
                 ("pmps", "floats.json") := doc_d_bytes ]}).
  set (wl := World limits_plc_device []).
  destruct (compare_file_structural sample_hostname "/data/plc-kfe-motion.json"
              (Some "plc-kfe-motion.json") None w w
              (snd (download_file_json_dict sample_hostname
                      (Some "plc-kfe-motion.json") None w))
              doc_a doc_c)
    as (Hrun & _ & _ & _).
  { vm_compute. reflexivity. }
  { vm_compute. reflexivity. }
  { vm_compute. reflexivity. }
  { vm_compute. reflexivity. }
  destruct (compare_file_structural sample_hostname "/data/plc-kfe-motion.json"
              (Some "floats.json") None w w
              (snd (download_file_json_dict sample_hostname
                      (Some "floats.json") None w))
              doc_a doc_d)
    as (Hrun' & Hiff & _ & _).
  { vm_compute. reflexivity. }
  { vm_compute. reflexivity. }
  { vm_compute. reflexivity. }
  { vm_compute. reflexivity. }
  destruct (compare_file_structural sample_hostname "/data/limits.json"
              (Some "limits.json") None wl wl
              (snd (download_file_json_dict sample_hostname
                      (Some "limits.json") None wl))
              limits_local limits_plc)
    as (Hrun'' & _ & _ & _).
  { vm_compute. reflexivity. }
  { vm_compute. reflexivity. }
  { vm_compute. reflexivity. }
  { vm_compute. reflexivity. }
  split; [|split].
  - split; [exact Hrun|]. repeat split; reflexivity.
  - split; [exact Hrun'|]. split; [reflexivity|].
    split; [apply Hiff; reflexivity|]. split; reflexivity.
  - split; [vm_compute; reflexivity|]. split; [vm_compute; reflexivity|].
    split; [exact Hrun''|]. split; reflexivity.
Defined.

(** C5 as stated fails for a boolean against a number: [doc_a] has the
    parameter on of dev2 as [true], [doc_b] has it as the number 1; the two
    values differ in type, the documents are not structurally equal with
    values of matching types, and [compare_file] returns [True]. *)
Lemma compare_file_true_equals_one :
  let w := sample_world [Administrator]
             {[ ("pmps", "plc-kfe-motion.json") := doc_b_bytes ]} in
  fst (compare_file sample_hostname "/data/plc-kfe-motion.json"
         (Some "plc-kfe-motion.json") None w) = Ok true
  /\ fst (local_file_json_dict "/data/plc-kfe-motion.json" w) = Ok doc_a
  /\ fst (download_file_json_dict sample_hostname
            (Some "plc-kfe-motion.json") None w) = Ok doc_b
  /\ param_at doc_a "dev2" "on" = Some (JBool true)
  /\ param_at doc_b "dev2" "on" = Some (JInt 1)
  /\ type_of (JBool true) <> type_of (JInt 1)
  /\ ~ structurally_equal eq doc_a doc_b.
Proof.
  cbv zeta. repeat split; try (vm_compute; reflexivity).
  - discriminate.
  - intros Hequal.
    pose proof (structurally_equal_param_at eq doc_a doc_b "dev2" "on"
                  (JBool true) (JInt 1) Hequal eq_refl eq_refl) as Heq.
    discriminate Heq.
Qed.

(** ** More on the listing parser *)

Lemma str_forallb_app (f : ascii -> bool) (a b : string) :
  str_forallb f (a +:+ b) = str_forallb f a && str_forallb f b.
Proof.
  induction a as [|c a IH]; [reflexivity|].
  change (str_forallb f (String c (a +:+ b))
          = str_forallb f (String c a) && str_forallb f b).
  cbn [str_forallb]. rewrite IH, andb_assoc. reflexivity.
Qed.

Lemma str_forallb_snoc (f : ascii -> bool) (s : string) (c : ascii) :
  str_forallb f (str_snoc s c) = str_forallb f s && f c.
Proof.
  unfold str_snoc. rewrite str_forallb_app. cbn [str_forallb].
  rewrite andb_true_r. reflexivity.
Qed.

Lemma str_forallb_rev_app (f : ascii -> bool) (s acc : string) :
  str_forallb f (String.rev_app s acc) = str_forallb f s && str_forallb f acc.
Proof.
  revert acc. induction s as [|c s IH]; intros acc; [reflexivity|].
  cbn [String.rev_app str_forallb]. rewrite IH. cbn [str_forallb].
  rewrite !andb_assoc, (andb_comm (str_forallb f s) (f c)). reflexivity.
Qed.

Lemma str_forallb_lstrip (f : ascii -> bool) (s : string) :
  str_forallb f s = true -> str_forallb f (str_lstrip s) = true.
Proof.
  induction s as [|c s IH]; [reflexivity|].
  cbn [str_lstrip]. destruct (py_isspace c); [|trivial].
  cbn [str_forallb]. rewrite andb_true_iff. intros [_ Hs]. exact (IH Hs).
Qed.

Lemma str_forallb_strip (f : ascii -> bool) (s : string) :
  str_forallb f s = true -> str_forallb f (str_strip s) = true.
Proof.
  intros Hs. unfold str_strip, String.rev.
  rewrite str_forallb_rev_app, andb_true_r.
  apply str_forallb_lstrip.
  rewrite str_forallb_rev_app, andb_true_r.
  apply str_forallb_lstrip, Hs.
Qed.

(** The pieces of [s.split(sep)] do not contain [sep]. *)
Lemma str_split_on_go_no_sep (sep : ascii) (s cur piece : string) :
  no_char sep cur = true ->
  piece ∈ str_split_on_go sep s cur -> no_char sep piece = true.
Proof.
  revert cur. induction s as [|c s IH]; intros cur Hcur; cbn [str_split_on_go].
  - intros Hin. apply list_elem_of_singleton in Hin. subst piece. exact Hcur.
  - destruct (Ascii.eqb c sep) eqn:Hc.
    + intros Hin. apply elem_of_cons in Hin as [->|Hin]; [exact Hcur|].
      apply (IH ""); [reflexivity|exact Hin].
    + apply IH. unfold no_char in *. rewrite str_forallb_snoc, Hcur, Hc.
      reflexivity.
Qed.

Lemma str_split_on_no_sep (sep : ascii) (s piece : string) :
  piece ∈ str_split_on sep s -> no_char sep piece = true.
Proof. apply str_split_on_go_no_sep. reflexivity. Qed.

(** The tokens of [s.split()] are not empty and hold no whitespace. *)
Lemma str_split_go_tokens (s cur token : string) :
  no_space cur = true ->
  token ∈ str_split_go s cur ->
  str_is_empty token = false /\ no_space token = true.
Proof.
  revert cur. induction s as [|c s IH]; intros cur Hcur; cbn [str_split_go].
  - destruct (str_is_empty cur) eqn:Hempty.
    + intros Hin. apply elem_of_nil in Hin. contradiction.
    + intros Hin. apply list_elem_of_singleton in Hin. subst token. auto.
  - destruct (py_isspace c) eqn:Hc.
    + destruct (str_is_empty cur) eqn:Hempty.
      * apply IH. reflexivity.
      * intros Hin. apply elem_of_cons in Hin as [->|Hin]; [auto|].
        apply (IH ""); [reflexivity|exact Hin].
    + apply IH. unfold no_space in *. rewrite str_forallb_snoc, Hcur, Hc.
      reflexivity.
Qed.

Lemma str_split_tokens (s token : string) :
  token ∈ str_split s ->
  str_is_empty token = false /\ no_space token = true.
Proof. apply str_split_go_tokens. reflexivity. Qed.

Lemma is_digit_val (c : ascii) : is_digit c = true -> 0 <= digit_val c <= 9.
Proof.
  unfold is_digit, digit_val. rewrite andb_true_iff, !Nat.leb_le. lia.
Qed.

Lemma int_digits_nonneg (s : string) (acc : Z) (after_digit : bool) (n : Z) :
  0 <= acc -> int_digits s acc after_digit = Some n -> 0 <= n.
Proof.
  revert acc after_digit. induction s as [|c s IH]; intros acc after Hacc;
    cbn [int_digits].
  - destruct after; [|discriminate]. intros [= <-]. exact Hacc.
  - destruct (is_digit c) eqn:Hd.
    + apply IH. pose proof (is_digit_val c Hd). lia.
    + destruct (Ascii.eqb c "_"); [|discriminate].
      destruct after; [|discriminate]. apply IH. exact Hacc.
Qed.

(** [int(s)] is negative only for a literal with a minus sign. *)
Lemma py_int_nonneg (s : string) (n : Z) :
  no_char "-" s = true -> py_int s = Ok n -> 0 <= n.
Proof.
  intros Hs. apply (str_forallb_strip _ s) in Hs. unfold py_int.
  destruct (str_strip s) as [|c body] eqn:Hbody.
  - cbn. discriminate.
  - cbn [str_forallb] in Hs. apply andb_true_iff in Hs as [Hc _].
    destruct c as [[] [] [] [] [] [] [] []]; try discriminate Hc;
      cbv beta iota;
      (destruct (int_digits _ 0 false) as [m|] eqn:Hd; [|discriminate]);
      intros [= <-]; exact (int_digits_nonneg _ 0 false m (Z.le_refl 0) Hd).
Qed.

Lemma res_bind_ok_inv {A B} (r : Res A) (k : A -> Res B) (b : B) :
  (r ≫= k) = Ok b -> exists a, r = Ok a /\ k a = Ok b.
Proof.
  destruct r as [a|e]; [|discriminate]. intros Hk. exists a. split; [reflexivity|exact Hk].
Qed.

(** What a successful parse tells about the line. *)
Lemma from_list_line_ok_inv (line : string) (record : PLCFile) :
  from_list_line line = Ok record ->
  exists date time size_token mo d y h mi,
    str_split line = [date; time; size_token; filename record]
    /\ str_split_on "-" date = [mo; d; y]
    /\ str_split_on ":" time = [h; mi]
    /\ (exists yv mov dv hv miv,
          py_int y = Ok yv /\ py_int mo = Ok mov /\ py_int d = Ok dv
          /\ py_int h = Ok hv /\ py_int mi = Ok miv
          /\ datetime_new (yv + 2000) mov dv hv miv = Ok (create_time record))
    /\ py_int size_token = Ok (size record).
Proof.
  unfold from_list_line.
  destruct (str_split line) as [|date [|time [|sz [|name [|extra rest]]]]]
    eqn:Hline; try discriminate.
  destruct (str_split_on "-" date) as [|mo [|d [|y [|extra rest]]]]
    eqn:Hdate; try discriminate.
  destruct (str_split_on ":" time) as [|h [|mi [|extra rest]]]
    eqn:Htime; try discriminate.
  intros Hrun.
  apply res_bind_ok_inv in Hrun as (yv & Hy & Hrun).
  apply res_bind_ok_inv in Hrun as (mov & Hmo & Hrun).
  apply res_bind_ok_inv in Hrun as (dv & Hd & Hrun).
  apply res_bind_ok_inv in Hrun as (hv & Hh & Hrun).
  apply res_bind_ok_inv in Hrun as (miv & Hmi & Hrun).
  apply res_bind_ok_inv in Hrun as (full & Hfull & Hrun).
  apply res_bind_ok_inv in Hrun as (szv & Hsz & Hrun).
  revert Hrun. intros [= <-]. cbn [filename create_time size].
  exists date, time, sz, mo, d, y, h, mi. repeat split; try assumption.
  exists yv, mov, dv, hv, miv. repeat split; assumption.
Qed.

Lemma days_in_month_le (y m : Z) : days_in_month y m <= 31.
Proof.
  unfold days_in_month.
  destruct (m =? 2); [destruct (is_leap y); lia|].
  destruct ((m =? 4) || (m =? 6) || (m =? 9) || (m =? 11)); lia.
Qed.

Lemma datetime_new_ok_inv (y mo d h mi : Z) (dt : datetime) :
  datetime_new y mo d h mi = Ok dt ->
  dt = mk_datetime y mo d h mi 0 0
  /\ 1 <= y <= 9999 /\ 1 <= mo <= 12 /\ 1 <= d <= days_in_month y mo
  /\ 0 <= h <= 23 /\ 0 <= mi <= 59.
Proof.
  unfold datetime_new.
  destruct (forallb fits_c_int [y; mo; d; h; mi]); [|discriminate].
  cbn [negb].
  destruct ((1 <=? y) && (y <=? 9999)) eqn:Hy; [|discriminate].
  destruct ((1 <=? mo) && (mo <=? 12)) eqn:Hmo; [|discriminate].
  destruct ((1 <=? d) && (d <=? days_in_month y mo)) eqn:Hd; [|discriminate].
  destruct ((0 <=? h) && (h <=? 23)) eqn:Hh; [|discriminate].
  destruct ((0 <=? mi) && (mi <=? 59)) eqn:Hmi; [|discriminate].
  cbn [negb]. intros [= <-].
  apply andb_true_iff in Hy, Hmo, Hd, Hh, Hmi.
  rewrite !Z.leb_le in Hy, Hmo, Hd, Hh, Hmi. repeat split; lia.
Qed.

(** X1. A record that [PLCFile.from_list_line] returns carries a time
    that exists on the calendar: the year is between 2000 and 9999 (the
    two-digit year cannot be negative, a minus sign would cut the date
    into four pieces), the month between 1 and 12, the day between 1 and
    the length of that month, the hour below 24, the minute below 60, and
    the seconds are zero. *)
Theorem from_list_line_create_time (line : string) (record : PLCFile) :
  from_list_line line = Ok record ->
  let t := create_time record in
  2000 <= year t <= 9999
  /\ 1 <= month t <= 12
  /\ 1 <= day t <= days_in_month (year t) (month t)
  /\ day t <= 31
  /\ 0 <= hour t <= 23
  /\ 0 <= minute t <= 59
  /\ second t = 0 /\ microsecond t = 0.
Proof.
  intros Hrun.
  apply from_list_line_ok_inv in Hrun
    as (date & time & sz & mo & d & y & h & mi & _ & Hdate & _ & Hfields & _).
  destruct Hfields as (yv & mov & dv & hv & miv & Hy & _ & _ & _ & _ & Hnew).
  apply datetime_new_ok_inv in Hnew as (-> & Hyr & Hmo & Hd & Hh & Hmi).
  assert (Hpos : 0 <= yv).
  { apply (py_int_nonneg y); [|exact Hy].
    apply (str_split_on_no_sep "-" date). rewrite Hdate.
    apply list_elem_of_further, list_elem_of_further, list_elem_of_here. }
  cbn [create_time year month day hour minute second microsecond].
  pose proof (days_in_month_le (yv + 2000) mov).
  repeat split; lia.
Qed.

Lemma from_list_line_create_time_witness :
  let record := mk_PLCFile "kfe-motion.json"
                  (mk_datetime 2024 2 29 23 59 0 0) 16439 in
  let t := create_time record in
  2000 <= year t <= 9999
  /\ 1 <= month t <= 12
  /\ 1 <= day t <= days_in_month (year t) (month t)
  /\ day t <= 31
  /\ 0 <= hour t <= 23
  /\ 0 <= minute t <= 59
  /\ second t = 0 /\ microsecond t = 0.
Proof.
  apply (from_list_line_create_time "02-29-24 23:59 16439 kfe-motion.json").
  vm_compute. reflexivity.
Defined.

(** X2. A record that [PLCFile.from_list_line] returns comes from a line
    of exactly four tokens: its filename is the fourth token, which is not
    empty and holds no whitespace, and its size is the integer value of
    the third token, sign included. *)
Theorem from_list_line_fields (line : string) (record : PLCFile) :
  from_list_line line = Ok record ->
  exists date time size_token,
    str_split line = [date; time; size_token; filename record]
    /\ py_int size_token = Ok (size record)
    /\ str_is_empty (filename record) = false
    /\ no_space (filename record) = true.
Proof.
  intros Hrun.
  apply from_list_line_ok_inv in Hrun
    as (date & time & sz & mo & d & y & h & mi & Hsplit & _ & _ & _ & Hsize).
  exists date, time, sz. split; [exact Hsplit|]. split; [exact Hsize|].
  apply (str_split_tokens line). rewrite Hsplit.
  do 3 apply list_elem_of_further. apply list_elem_of_here.
Qed.

Lemma from_list_line_fields_witness :
  exists date time size_token,
    str_split "11-04-22 13:59 -7 kfe-motion.json"
    = [date; time; size_token; "kfe-motion.json"]
    /\ py_int size_token = Ok (-7)
    /\ str_is_empty "kfe-motion.json" = false
    /\ no_space "kfe-motion.json" = true.
Proof.
  apply (from_list_line_fields "11-04-22 13:59 -7 kfe-motion.json"
           (mk_PLCFile "kfe-motion.json" (mk_datetime 2022 11 4 13 59 0 0) (-7))).
  vm_compute. reflexivity.
Defined.

(** ** More on the session manager *)

Lemma list_comprehension_Forall2 {A B} (f : A -> Res B) (xs : list A)
    (ys : list B) :
  list_comprehension f xs = Ok ys <-> Forall2 (fun x y => f x = Ok y) xs ys.
Proof.
  revert ys. induction xs as [|x xs IH]; intros ys; cbn [list_comprehension].
  - split.
    + intros [= <-]. constructor.
    + intros Hall. inversion Hall. reflexivity.
  - split.
    + intros Hrun. apply res_bind_ok_inv in Hrun as (y & Hy & Hrun).
      apply res_bind_ok_inv in Hrun as (ys' & Hys & Hrun).
      revert Hrun. intros [= <-]. constructor; [exact Hy|]. apply IH, Hys.
    + intros Hall. inversion Hall as [|? y ? ys' Hy Hys]; subst.
      apply IH in Hys. rewrite Hy. cbn. rewrite Hys. reflexivity.
Qed.

Lemma list_comprehension_fails {A B} (f : A -> Res B) (xs : list A) (x : A) :
  x ∈ xs -> is_ok (f x) = false -> is_ok (list_comprehension f xs) = false.
Proof.
  intros Hin Hbad. induction xs as [|x0 xs IH]; [apply elem_of_nil in Hin; contradiction|].
  cbn [list_comprehension]. apply elem_of_cons in Hin as [<-|Hin].
  - destruct (f x); [discriminate|reflexivity].
  - destruct (f x0) as [y|e]; [|reflexivity]. cbn.
    specialize (IH Hin). destruct (list_comprehension f xs); [discriminate|reflexivity].
Qed.

Section emitting.
Context {S : Type} `{!Env S}.

Lemma emits_ret {A} (P : call -> bool) (a : A) : emits P (mret a : M S A).
Proof. intros w. exists []. rewrite app_nil_r. split; reflexivity. Qed.

Lemma emits_raise {A} (P : call -> bool) (e : exn) : emits P (raise e : M S A).
Proof. intros w. exists []. rewrite app_nil_r. split; reflexivity. Qed.

Lemma emits_lift {A} (P : call -> bool) (r : Res A) : emits P (lift r : M S A).
Proof. intros w. exists []. rewrite app_nil_r. split; reflexivity. Qed.

Lemma emits_ask {A} (P : call -> bool) (g : S -> Res A * S) : emits P (ask g).
Proof.
  intros w. exists []. rewrite app_nil_r. unfold ask.
  destruct (g (state w)). split; reflexivity.
Qed.

Lemma emits_bind {A B} (P : call -> bool) (c : M S A) (k : A -> M S B) :
  emits P c -> (forall a, emits P (k a)) -> emits P (c ≫= k).
Proof.
  intros Hc Hk w. rewrite bind_run. destruct (Hc w) as (l1 & Ht1 & Hl1).
  destruct (c w) as [[a|e] w1]; cbn [snd] in Ht1.
  - destruct (Hk a w1) as (l2 & Ht2 & Hl2). exists (l1 ++ l2).
    rewrite Ht2, Ht1, app_assoc, forallb_app, Hl1, Hl2. split; reflexivity.
  - exists l1. split; assumption.
Qed.

Lemma emits_try_except {A} (P : call -> bool) (c handler : M S A) catches :
  emits P c -> emits P handler -> emits P (try_except c catches handler).
Proof.
  intros Hc Hh w. unfold try_except. destruct (Hc w) as (l1 & Ht1 & Hl1).
  destruct (c w) as [[a|e] w1]; cbn [snd] in Ht1.
  - exists l1. split; assumption.
  - destruct (catches e).
    + destruct (Hh w1) as (l2 & Ht2 & Hl2). exists (l1 ++ l2).
      rewrite Ht2, Ht1, app_assoc, forallb_app, Hl1, Hl2. split; reflexivity.
    + exists l1. split; assumption.
Qed.

Lemma emits_call {A} (P : call -> bool) (c : call) (g : S -> Res A * S) :
  P c = true -> emits P (_ ← log c; ask g).
Proof.
  intros HP w. exists [c]. rewrite bind_run. unfold log, ask. cbn.
  destruct (g (state w)). cbn. rewrite HP. split; reflexivity.
Qed.

Lemma emits_with {Y A} (P : call -> bool) (g : generator S Y)
    (body : Y -> M S A) :
  emits P (gen_start g) -> (forall y, emits P (gen_next g y)) ->
  (forall y e, emits P (gen_throw g y e)) -> (forall y, emits P (body y)) ->
  emits P (with_ g body).
Proof.
  intros Hstart Hnext Hthrow Hbody w. unfold with_.
  destruct (Hstart w) as (l1 & Ht1 & Hl1).
  destruct (gen_start g w) as [[y|e] w1]; cbn [snd] in Ht1.
  - destruct (Hbody y w1) as (l2 & Ht2 & Hl2).
    destruct (body y w1) as [[a|e] w2]; cbn [snd] in Ht2.
    + destruct (Hnext y w2) as (l3 & Ht3 & Hl3).
      exists (l1 ++ l2 ++ l3).
      assert (Htrace : trace (snd (gen_next g y w2)) = trace w ++ l1 ++ l2 ++ l3).
      { rewrite Ht3, Ht2, Ht1, <- !app_assoc. reflexivity. }
      rewrite !forallb_app, Hl1, Hl2, Hl3.
      destruct (gen_next g y w2) as [[u|e] w3]; split; (exact Htrace || reflexivity).
    + destruct (Hthrow y e w2) as (l3 & Ht3 & Hl3).
      exists (l1 ++ l2 ++ l3).
      assert (Htrace : trace (snd (gen_throw g y e w2)) = trace w ++ l1 ++ l2 ++ l3).
      { rewrite Ht3, Ht2, Ht1, <- !app_assoc. reflexivity. }
      rewrite !forallb_app, Hl1, Hl2, Hl3.
      destruct (gen_throw g y e w2) as [[v|e'] w3]; [destruct v|].
      split; (exact Htrace || reflexivity).
  - exists l1. split; assumption.
Qed.

Lemma emits_login_defaults (P : call -> bool) f creds rval :
  (forall c, P (CLogin f c) = true) -> emits P (login_defaults f creds rval).
Proof.
  intros HP. revert rval. induction creds as [|[user pwd] creds IH]; intros rval.
  - apply emits_ret.
  - cbn [login_defaults]. apply emits_bind; [|intros a; apply IH].
    apply emits_try_except; [apply emits_call, HP|apply emits_ret].
Qed.

(** The calls of [ftp] from the first login to its [yield]. *)
Lemma emits_ftp_logins (P : call -> bool) (f : FTP) (dir : string) :
  (forall c, P (CLogin f c) = true) ->
  P (CNlst f) = true -> P (CMkd f dir) = true -> P (CCwd f dir) = true ->
  emits P (rval ← login_defaults f DEFAULT_PW None;
           rval ← (if is_None rval then login f None else mret rval);
           _ ← (if is_None rval then raise RuntimeError else mret tt);
           names ← nlst f;
           _ ← (if negb (str_in dir names) then mkd f dir else mret tt);
           _ ← cwd f dir;
           mret f).
Proof.
  intros Hlogin Hnlst Hmkd Hcwd.
  apply emits_bind; [apply emits_login_defaults, Hlogin|intros rval].
  apply emits_bind.
  { destruct (is_None rval); [apply emits_call, Hlogin|apply emits_ret]. }
  intros rval'. apply emits_bind.
  { destruct (is_None rval'); [apply emits_raise|apply emits_ret]. }
  intros _. apply emits_bind; [apply emits_call, Hnlst|intros names].
  apply emits_bind.
  { destruct (negb _); [apply emits_call, Hmkd|apply emits_ret]. }
  intros _. apply emits_bind; [apply emits_call, Hcwd|intros _; apply emits_ret].
Qed.

(** The calls of [ftp] before its [yield]. *)
Lemma emits_ftp_setup (P : call -> bool) hostname directory :
  P (CConnect hostname) = true ->
  (forall f, P (CSetPasv f false) = true) ->
  (forall f c, P (CLogin f c) = true) ->
  (forall f, P (CNlst f) = true) ->
  (forall f, P (CMkd f (py_or directory DIRECTORY)) = true) ->
  (forall f, P (CCwd f (py_or directory DIRECTORY)) = true) ->
  emits P (ftp_setup hostname directory).
Proof.
  intros Hconnect Hpasv Hlogin Hnlst Hmkd Hcwd. unfold ftp_setup.
  apply emits_bind; [apply emits_call, Hconnect|intros f].
  apply emits_bind.
  { intros w. exists [CSetPasv f false]. cbn. rewrite Hpasv. split; reflexivity. }
  intros _. apply emits_ftp_logins; auto.
Qed.

Lemma emits_ftp_cleanup (P : call -> bool) f :
  P (CQuit f) = true -> P (CClose f) = true -> emits P (ftp_cleanup f).
Proof.
  intros Hquit Hclose. unfold ftp_cleanup.
  apply emits_try_except; apply emits_call; assumption.
Qed.

Lemma emits_with_ftp {A} (P : call -> bool) hostname directory
    (body : FTP -> M S A) :
  P (CConnect hostname) = true ->
  (forall f, P (CSetPasv f false) = true) ->
  (forall f c, P (CLogin f c) = true) ->
  (forall f, P (CNlst f) = true) ->
  (forall f, P (CMkd f (py_or directory DIRECTORY)) = true) ->
  (forall f, P (CCwd f (py_or directory DIRECTORY)) = true) ->
  (forall f, P (CQuit f) = true) -> (forall f, P (CClose f) = true) ->
  (forall f, emits P (body f)) ->
  emits P (with_ (ftp hostname directory) body).
Proof.
  intros Hconnect Hpasv Hlogin Hnlst Hmkd Hcwd Hquit Hclose Hbody.
  apply emits_with; cbn [ftp gen_start gen_next gen_throw].
  - apply emits_ftp_setup; assumption.
  - intros f. apply emits_ftp_cleanup; [apply Hquit|apply Hclose].
  - intros f e. apply emits_raise.
  - exact Hbody.
Qed.


(** X3. A session whose body returns is always torn down, and the body's
    result is what [with ftp(...)] gives back. The teardown calls [quit];
    when [quit] returns that is all, and the session ends in the state
    [quit] left; when [quit] raises, whatever the exception, [close] is
    called on the state [quit] left and the exception is dropped. In both
    cases the teardown raises nothing. *)
Theorem with_ftp_returns_after_teardown {A} hostname directory
    (body : FTP -> M S A) (w w1 w2 : world S) f a :
  ftp_setup hostname directory w = (Ok f, w1) ->
  body f w1 = (Ok a, w2) ->
  (forall wq, quit f w2 = (Ok tt, wq) ->
     with_ (ftp hostname directory) body w = (Ok a, wq)
     /\ trace wq = trace w2 ++ [CQuit f])
  /\ (forall e wq, quit f w2 = (Raise e, wq) ->
        with_ (ftp hostname directory) body w
        = (Ok a, World (env_close f (state wq))
                   (trace w2 ++ [CQuit f; CClose f])))
  /\ exists w3, with_ (ftp hostname directory) body w = (Ok a, w3)
       /\ (trace w3 = trace w2 ++ [CQuit f]
           \/ trace w3 = trace w2 ++ [CQuit f; CClose f]).
Proof.
  intros Hsetup Hbody.
  assert (Hwith : with_ (ftp hostname directory) body w
                  = match ftp_cleanup f w2 with
                    | (Ok _, w3) => (Ok a, w3)
                    | (Raise e, w3) => (Raise e, w3)
                    end).
  { unfold with_. cbn [ftp gen_start gen_next gen_throw].
    rewrite Hsetup, Hbody. reflexivity. }
  split; [|split].
  - intros wq Hquit. rewrite Hwith. unfold ftp_cleanup, try_except.
    rewrite Hquit. split; [reflexivity|]. exact (quit_trace _ _ _ _ Hquit).
  - intros e wq Hquit. rewrite Hwith. unfold ftp_cleanup, try_except.
    rewrite Hquit. apply quit_trace in Hquit.
    unfold is_Exception, close. rewrite call_run. cbn [fst snd].
    rewrite Hquit, <- app_assoc. reflexivity.
  - exact (with_ftp_body_returns hostname directory body w w1 w2 f a Hsetup Hbody).
Qed.

(** X4. When the connection cannot be made, [ftp] raises what the
    connection attempt raised: nothing is sent after it, no login is
    tried, and the body of the [with] does not run. *)
Theorem ftp_unreachable_host {A} hostname directory (body : FTP -> M S A)
    (w w1 : world S) e :
  FTP_new hostname w = (Raise e, w1) ->
  with_ (ftp hostname directory) body w = (Raise e, w1)
  /\ trace w1 = trace w ++ [CConnect hostname].
Proof.
  intros Hnew. split.
  - unfold with_. cbn [ftp gen_start]. unfold ftp_setup.
    rewrite (bind_raise _ _ _ _ _ Hnew). reflexivity.
  - exact (call_trace _ _ _ _ _ Hnew).
Qed.

Lemma login_defaults_app f tried rest rval (w : world S) :
  login_defaults f (tried ++ rest) rval w
  = match login_defaults f tried rval w with
    | (Ok r1, w1) => login_defaults f rest r1 w1
    | (Raise e, w1) => (Raise e, w1)
    end.
Proof.
  revert rval w. induction tried as [|[user pwd] tried IH]; intros rval w.
  - reflexivity.
  - cbn [app login_defaults]. rewrite !bind_run.
    destruct (try_except _ _ _ w) as [[r|e] w0]; [apply IH|reflexivity].
Qed.

Lemma login_defaults_raises_inv f creds rval (w w' : world S) e :
  login_defaults f creds rval w = (Raise e, w') ->
  is_error_perm e = false
  /\ exists tried c rest r1 w1,
       creds = tried ++ c :: rest
       /\ login_defaults f tried rval w = (Ok r1, w1)
       /\ login f (Some c) w1 = (Raise e, w')
       /\ trace w' = trace w ++ map (fun c => CLogin f (Some c)) (tried ++ [c]).
Proof.
  revert rval w. induction creds as [|[user pwd] creds IH]; intros rval w.
  - cbn. discriminate.
  - cbn [login_defaults]. rewrite bind_run. unfold try_except.
    destruct (login f (Some (user, pwd)) w) as [[r|e0] w0] eqn:Hlogin.
    + intros Hrest.
      apply IH in Hrest as (Hperm & tried & c & rest & r1 & w1 & -> & Hrun & Hl & Ht).
      split; [exact Hperm|]. exists ((user, pwd) :: tried), c, rest, r1, w1.
      split; [reflexivity|]. split.
      { cbn [login_defaults]. rewrite bind_run. unfold try_except.
        rewrite Hlogin. exact Hrun. }
      split; [exact Hl|]. apply login_trace in Hlogin.
      rewrite Ht, Hlogin, <- app_assoc. reflexivity.
    + destruct (is_error_perm e0) eqn:Hperm.
      * cbn [mret M_ret]. intros Hrest.
        apply IH in Hrest as (Hperm' & tried & c & rest & r1 & w1 & -> & Hrun & Hl & Ht).
        split; [exact Hperm'|]. exists ((user, pwd) :: tried), c, rest, r1, w1.
        split; [reflexivity|]. split.
        { cbn [login_defaults]. rewrite bind_run. unfold try_except.
          rewrite Hlogin, Hperm. exact Hrun. }
        split; [exact Hl|]. apply login_trace in Hlogin.
        rewrite Ht, Hlogin, <- app_assoc. reflexivity.
      * intros [= <- <-]. split; [exact Hperm|].
        exists [], (user, pwd), creds, rval, w.
        split; [reflexivity|]. split; [reflexivity|]. split; [exact Hlogin|].
        apply login_trace in Hlogin. exact Hlogin.
Qed.

(** X5. The loop over the default credentials swallows [error_perm] and
    nothing else. When a login of the loop raises [error_perm] the loop goes
    on with the next credential and [rval] as it was; when it raises
    anything else the loop ends there with that exception. So an exception
    that leaves the loop is not an [error_perm], it was raised by the login
    that is the last call made, and the credentials after that one were not
    tried. *)
Theorem login_defaults_raises f creds rval (w : world S) :
  (forall tried c rest r1 w1 e w',
     creds = tried ++ c :: rest ->
     login_defaults f tried rval w = (Ok r1, w1) ->
     login f (Some c) w1 = (Raise e, w') ->
     login_defaults f creds rval w
     = if is_error_perm e then login_defaults f rest r1 w' else (Raise e, w'))
  /\ (forall e w',
        login_defaults f creds rval w = (Raise e, w') ->
        is_error_perm e = false
        /\ exists tried c rest r1 w1,
             creds = tried ++ c :: rest
             /\ login_defaults f tried rval w = (Ok r1, w1)
             /\ login f (Some c) w1 = (Raise e, w')
             /\ trace w'
                = trace w ++ map (fun c => CLogin f (Some c)) (tried ++ [c])).
Proof.
  split.
  - intros tried [user pwd] rest r1 w1 e w' -> Htried Hlogin.
    rewrite login_defaults_app, Htried. cbn [login_defaults].
    rewrite bind_run. unfold try_except. rewrite Hlogin.
    destruct (is_error_perm e); reflexivity.
  - intros e w'. apply login_defaults_raises_inv.
Qed.

(** X6. Once connected, the first thing [ftp] does is to switch the
    connection to active mode: whatever happens later, the calls it makes
    start with the connection and [set_pasv(False)]. *)
Theorem ftp_sets_active_mode_first hostname directory (w w1 : world S) f :
  FTP_new hostname w = (Ok f, w1) ->
  exists rest,
    trace (snd (ftp_setup hostname directory w))
    = trace w ++ CConnect hostname :: CSetPasv f false :: rest.
Proof.
  intros Hnew. unfold ftp_setup. rewrite (bind_ok _ _ _ _ _ Hnew).
  rewrite bind_run. unfold set_pasv, log.
  destruct (emits_ftp_logins (fun _ => true) f (py_or directory DIRECTORY)
              (fun _ => eq_refl) eq_refl eq_refl eq_refl
              (World (state w1) (trace w1 ++ [CSetPasv f false])))
    as (rest & Htrace & _).
  exists rest. rewrite Htrace. cbn [trace].
  rewrite (call_trace _ _ _ _ _ Hnew), <- !app_assoc. reflexivity.
Qed.

(** X7. The functions that read from the device never store anything:
    whatever the device answers and however they end, [list_filenames],
    [list_file_info], [download_file_text], [download_file_json_dict] and
    [compare_file] send no STOR command and make no directory other than
    the working directory. *)
Theorem read_operations_never_store (hostname local_filename : string)
    (filename directory : option string) :
  let P := reads_only (py_or directory DIRECTORY) in
  emits P (list_filenames hostname directory)
  /\ emits P (list_file_info hostname directory)
  /\ emits P (download_file_text hostname filename directory)
  /\ emits P (download_file_json_dict hostname filename directory)
  /\ emits P (compare_file hostname local_filename filename directory).
Proof.
  cbv zeta.
  assert (Hwith : forall A (body : FTP -> M S A),
             (forall f, emits (reads_only (py_or directory DIRECTORY)) (body f)) ->
             emits (reads_only (py_or directory DIRECTORY))
               (with_ (ftp hostname directory) body)).
  { intros A body Hbody. apply emits_with_ftp; try reflexivity; [|exact Hbody].
    intros f. cbn. apply String.eqb_refl. }
  assert (Htext : emits (reads_only (py_or directory DIRECTORY))
                    (download_file_text hostname filename directory)).
  { unfold download_file_text. apply emits_bind; [|intros cs; apply emits_lift].
    apply Hwith. intros f.
    apply emits_bind; [apply emits_call; reflexivity|intros got; apply emits_ret]. }
  assert (Hjson : emits (reads_only (py_or directory DIRECTORY))
                    (download_file_json_dict hostname filename directory)).
  { unfold download_file_json_dict.
    apply emits_bind; [exact Htext|intros text; apply emits_lift]. }
  repeat split.
  - unfold list_filenames. apply Hwith. intros f. apply emits_call. reflexivity.
  - unfold list_file_info. apply emits_bind; [|intros ls; apply emits_lift].
    apply Hwith. intros f.
    apply emits_bind; [apply emits_call; reflexivity|intros got; apply emits_ret].
  - exact Htext.
  - exact Hjson.
  - unfold compare_file. apply emits_bind.
    + unfold local_file_json_dict.
      apply emits_bind; [apply emits_ask|intros text; apply emits_lift].
    + intros a. apply emits_bind; [exact Hjson|intros b; apply emits_ret].
Qed.

(** X8. [upload_file] writes one thing only: whatever the device answers
    and however the call ends, the only STOR command it sends is the one
    for [target_filename] with the bytes of [fd], it makes no directory
    other than the working directory, and it retrieves nothing. *)
Theorem upload_file_stores_only_target (hostname target_filename : string)
    (fd : bytes) (directory : option string) :
  emits (uploads_only (py_or directory DIRECTORY) target_filename fd)
    (upload_file hostname target_filename fd directory).
Proof.
  unfold upload_file. apply emits_with_ftp; try reflexivity.
  - intros f. cbn. apply String.eqb_refl.
  - intros f. apply emits_call. cbn [uploads_only].
    rewrite String.eqb_refl, bool_decide_eq_true_2; reflexivity.
Qed.

(** X9. [list_file_info] parses the listing after the session has ended,
    all or nothing: it returns one record per line of the listing, in the
    order of the listing, and a single line that does not parse makes the
    whole call raise. *)
Theorem list_file_info_all_or_nothing hostname directory (w w' : world S)
    (lines : list string) :
  with_ (ftp hostname directory) (fun ftp_obj => retrlines ftp_obj "LIST") w
  = (Ok lines, w') ->
  list_file_info hostname directory w
  = (list_comprehension from_list_line lines, w')
  /\ (forall records,
        list_comprehension from_list_line lines = Ok records <->
        Forall2 (fun line record => from_list_line line = Ok record)
          lines records)
  /\ (forall line, line ∈ lines -> is_ok (from_list_line line) = false ->
        is_ok (fst (list_file_info hostname directory w)) = false).
Proof.
  intros Hsession.
  assert (Hrun : list_file_info hostname directory w
                 = (list_comprehension from_list_line lines, w')).
  { unfold list_file_info.
    apply (with_fmap _ _ (fun got => ([] ++ got)%list)) in Hsession.
    rewrite (bind_ok _ _ _ _ _ Hsession). reflexivity. }
  split; [exact Hrun|]. split.
  - apply list_comprehension_Forall2.
  - intros line Hin Hbad. rewrite Hrun. cbn [fst].
    exact (list_comprehension_fails from_list_line lines line Hin Hbad).
Qed.

End emitting.

Lemma with_ftp_returns_after_teardown_witness :
  let w := sample_world [Administrator]
             {[ ("pmps", "kfe-motion.json") := doc_a_bytes ]} in
  let w1 := snd (ftp_setup sample_hostname None w) in
  (with_ (ftp sample_hostname None) (fun ftp_obj => nlst ftp_obj) w
   = (Ok ["kfe-motion.json"], snd (quit 0%nat (snd (nlst 0%nat w1))))
   /\ trace (snd (quit 0%nat (snd (nlst 0%nat w1))))
      = trace (snd (nlst 0%nat w1)) ++ [CQuit 0%nat])
  /\ with_ (ftp sample_hostname None) (fun ftp_obj => close ftp_obj) w
     = (Ok tt,
        World (env_close 0%nat (state (snd (quit 0%nat (snd (close 0%nat w1))))))
          (trace (snd (close 0%nat w1)) ++ [CQuit 0%nat; CClose 0%nat])).
Proof.
  cbv zeta.
  set (w := sample_world [Administrator]
              {[ ("pmps", "kfe-motion.json") := doc_a_bytes ]}).
  set (w1 := snd (ftp_setup sample_hostname None w)).
  destruct (with_ftp_returns_after_teardown sample_hostname None
              (fun ftp_obj => nlst ftp_obj) w w1 (snd (nlst 0%nat w1))
              0%nat ["kfe-motion.json"]) as (Hquit & _).
  { vm_compute. reflexivity. }
  { vm_compute. reflexivity. }
  destruct (with_ftp_returns_after_teardown sample_hostname None
              (fun ftp_obj => close ftp_obj) w w1 (snd (close 0%nat w1))
              0%nat tt) as (_ & Hclose & _).
  { vm_compute. reflexivity. }
  { vm_compute. reflexivity. }
  split.
  - apply Hquit. vm_compute. reflexivity.
  - apply (Hclose EOFError). vm_compute. reflexivity.
Defined.

Lemma ftp_unreachable_host_witness :
  with_ (ftp "plc-lfe-motion" None) (fun ftp_obj => nlst ftp_obj)
    (sample_world [Administrator] ∅)
  = (Raise OSError,
     World (sample_plc [Administrator] ∅) [CConnect "plc-lfe-motion"])
  /\ trace (World (sample_plc [Administrator] ∅) [CConnect "plc-lfe-motion"])
     = trace (sample_world [Administrator] ∅) ++ [CConnect "plc-lfe-motion"].
Proof.
  apply (ftp_unreachable_host "plc-lfe-motion" None
           (fun ftp_obj => nlst ftp_obj) (sample_world [Administrator] ∅)).
  vm_compute. reflexivity.
Defined.

Lemma login_defaults_raises_witness :
  let w := World tt [CConnect sample_hostname] in
  let p := snd (FTP_new sample_hostname (sample_world [webguest] ∅)) in
  login_defaults (S := unit) 0%nat DEFAULT_PW None w
  = (Raise EOFError, World tt (trace w ++ [CLogin 0%nat Administrator]))
  /\ login_defaults 0%nat DEFAULT_PW None p
     = login_defaults 0%nat [("webguest", "1")] None
         (snd (login 0%nat Administrator p))
  /\ (is_error_perm EOFError = false
      /\ exists tried c rest r1 w1,
           DEFAULT_PW = tried ++ c :: rest
           /\ login_defaults (S := unit) 0%nat tried None w = (Ok r1, w1)
           /\ login 0%nat (Some c) w1
              = (Raise EOFError, World tt (trace w ++ [CLogin 0%nat Administrator]))
           /\ trace (World tt (trace w ++ [CLogin 0%nat Administrator]))
              = trace w ++ map (fun c => CLogin 0%nat (Some c)) (tried ++ [c])).
Proof.
  cbv zeta. split; [|split].
  - apply (proj1 (login_defaults_raises (S := unit) 0%nat DEFAULT_PW None
                    (World tt [CConnect sample_hostname]))
             [] ("Administrator", "1") [("webguest", "1")] None
             (World tt [CConnect sample_hostname]) EOFError);
      vm_compute; reflexivity.
  - apply (proj1 (login_defaults_raises 0%nat DEFAULT_PW None
                    (snd (FTP_new sample_hostname (sample_world [webguest] ∅))))
             [] ("Administrator", "1") [("webguest", "1")] None
             (snd (FTP_new sample_hostname (sample_world [webguest] ∅)))
             error_perm);
      vm_compute; reflexivity.
  - apply (proj2 (login_defaults_raises (S := unit) 0%nat DEFAULT_PW None
                    (World tt [CConnect sample_hostname])) EOFError).
    vm_compute. reflexivity.
Defined.

Lemma ftp_sets_active_mode_first_witness :
  exists rest,
    trace (snd (ftp_setup sample_hostname None (sample_world [] ∅)))
    = trace (sample_world [] ∅)
      ++ CConnect sample_hostname :: CSetPasv 0%nat false :: rest.
Proof.
  apply (ftp_sets_active_mode_first sample_hostname None (sample_world [] ∅)
           (snd (FTP_new sample_hostname (sample_world [] ∅)))).
  vm_compute. reflexivity.
Defined.

Lemma list_file_info_all_or_nothing_witness :
  let w := sample_world [Administrator] ∅ in
  let lines := ["11-04-22  13:59                16439 kfe-motion.json"] in
  let w' := snd (list_file_info sample_hostname None w) in
  list_file_info sample_hostname None w
  = (list_comprehension from_list_line lines, w')
  /\ (forall records,
        list_comprehension from_list_line lines = Ok records <->
        Forall2 (fun line record => from_list_line line = Ok record)
          lines records)
  /\ (forall line, line ∈ lines -> is_ok (from_list_line line) = false ->
        is_ok (fst (list_file_info sample_hostname None w)) = false).
Proof.
  cbv zeta.
  apply (list_file_info_all_or_nothing sample_hostname None
           (sample_world [Administrator] ∅)).
  vm_compute. reflexivity.
Defined.

(** ** More on the reference device *)

Lemma nlst_not_logged_in f q t d :
  plc_sessions q !! f = Some (Session None d) ->
  nlst f (World q t) = (Raise error_perm, World q (t ++ [CNlst f])).
Proof.
  intros Hses. unfold nlst. rewrite call_run.
  cbn [env_nlst plc_env state trace]. unfold plc_nlst, logged_in.
  rewrite Hses. reflexivity.
Qed.

(** The logins of [ftp] on a device where they do not succeed: the
    anonymous login is rejected, or the session has lost its login by the
    time the listing is asked for. *)
Lemma login_phase_plc_rejected {B} f q t (k : FTP -> M plc B) dir :
  plc_sessions q !! f = Some (Session None "") ->
  logins_succeed q = false ->
  fst ((login_defaults f DEFAULT_PW None
          ≫= λ rval, (if is_None rval then login f None else mret rval)
          ≫= λ rval0, (if is_None rval0 then raise RuntimeError else mret ())
          ≫= λ _, nlst f
          ≫= λ names, (if negb (str_in dir names) then mkd f dir else mret tt)
          ≫= λ _, cwd f dir
          ≫= λ _, k f) (World q t))
  = Raise error_perm.
Proof.
  intros Hses Hacc. unfold logins_succeed in Hacc.
  apply orb_false_iff in Hacc as [HW Hacc].
  unfold DEFAULT_PW. cbn [login_defaults]. run.
  rewrite (login_plc f _ q t None "" Hses).
  fold Administrator. fold webguest.
  destruct (accepts_cred (plc_accepts q) Administrator) eqn:HA.
  - apply negb_false_iff in Hacc. run.
    erewrite login_plc by (cbn [plc_sessions with_sessions]; apply lookup_insert_eq).
    cbn [plc_accepts with_sessions plc_relogin_resets]. fold webguest.
    rewrite HW, Hacc. cbv [is_error_perm is_None mret M_ret].
    repeat (rewrite bind_run; cbv [is_None mret M_ret]).
    erewrite nlst_not_logged_in
      by (cbn [plc_sessions with_sessions]; apply lookup_insert_eq).
    reflexivity.
  - rewrite (rejected_login_state f q "" Hses).
    cbn [is_error_perm mret M_ret]. run.
    rewrite (login_plc f _ q _ None "" Hses). fold webguest. rewrite HW.
    rewrite (rejected_login_state f q "" Hses).
    cbn [is_error_perm is_None mret M_ret]. run.
    rewrite (login_plc f _ q _ None "" Hses).
    unfold anonymous in Hacc. rewrite Hacc. reflexivity.
Qed.

(** X10. On the reference device the setup of [ftp] succeeds when the
    device answers the host name, the logins leave the session logged in
    ([device_ok]) and the directory name holds neither a CR nor an LF. It
    tries Administrator and webguest in this order, and the anonymous login
    only when both were rejected; the session ends up with the last
    accepted one. It makes the directory only when the root listing lacks
    it, and then changes into it. Files, other directories and other
    sessions are left as they were. When the device answers the host name
    and the logins do not leave the session logged in, the setup raises
    [error_perm]: letting one of the three logins in is not enough on a
    device that forgets the login of Administrator when it rejects
    webguest. *)
Theorem ftp_setup_on_device (hostname : string) (directory : option string)
    (p : plc) (t : list call) :
  (device_ok hostname p = true ->
   no_newline (py_or directory DIRECTORY) = true ->
   ftp_setup hostname directory (World p t)
   = (Ok (plc_next p),
      World (setup_state (py_or directory DIRECTORY) p)
        (t ++ setup_calls hostname (py_or directory DIRECTORY) p)))
  /\ (plc_online p = true -> String.eqb hostname (plc_hostname p) = true ->
      logins_succeed p = false ->
      fst (ftp_setup hostname directory (World p t)) = Raise error_perm).
Proof.
  split; [apply ftp_setup_plc_exact|].
  intros Hon Hhost Hacc. unfold ftp_setup.
  unfold FTP_new. rewrite bind_run, call_run.
  cbn [env_connect plc_env state trace fst snd].
  unfold plc_connect. rewrite Hon, Hhost. cbn [andb fst snd].
  rewrite bind_run. unfold set_pasv, log. cbn [state trace].
  apply (login_phase_plc_rejected (plc_next p) _ _ (fun f => mret f)).
  - cbn [plc_sessions with_next with_sessions]. apply lookup_insert_eq.
  - exact Hacc.
Qed.

Lemma ftp_setup_on_device_witness :
  let resetting := Plc sample_hostname true [anonymous; Administrator] true
                     ["pmps"] ∅ [] 4 ∅ 0 ∅ in
  (ftp_setup sample_hostname (Some "old archive")
     (sample_world [anonymous; Administrator] ∅)
   = (Ok 0%nat,
      World (setup_state "old archive" (sample_plc [anonymous; Administrator] ∅))
        [CConnect sample_hostname; CSetPasv 0%nat false;
         CLogin 0%nat Administrator; CLogin 0%nat webguest;
         CNlst 0%nat; CMkd 0%nat "old archive"; CCwd 0%nat "old archive"])
   /\ chosen_cred [anonymous; Administrator] = Administrator
   /\ plc_dirs (setup_state "old archive"
                  (sample_plc [anonymous; Administrator] ∅))
      = ["pmps"; "old archive"])
  /\ fst (ftp_setup sample_hostname None (World resetting []))
     = Raise error_perm.
Proof.
  cbv zeta. split; [split; [|split; reflexivity]|].
  - apply (proj1 (ftp_setup_on_device sample_hostname (Some "old archive")
                    (sample_plc [anonymous; Administrator] ∅) [])).
    + vm_compute. reflexivity.
    + vm_compute. reflexivity.
  - apply (proj2 (ftp_setup_on_device sample_hostname None
                    (Plc sample_hostname true [anonymous; Administrator] true
                       ["pmps"] ∅ [] 4 ∅ 0 ∅) [])).
    + vm_compute. reflexivity.
    + vm_compute. reflexivity.
    + vm_compute. reflexivity.
Defined.

Lemma upload_file_plc_exact h name data d p t :
  device_ok h p = true ->
  no_newline (py_or d DIRECTORY) = true ->
  no_newline name = true ->
  upload_file h name data d (World p t)
  = (Ok tt,
     World (plc_close (plc_next p)
              (with_files (<[(py_or d DIRECTORY, name) := data]> (plc_files p))
                 (setup_state (py_or d DIRECTORY) p)))
       (((t ++ setup_calls h (py_or d DIRECTORY) p)
           ++ [CStorbinary (plc_next p) ("STOR " +:+ name) data])
          ++ [CQuit (plc_next p)])).
Proof.
  intros Hok Hdir Hname. unfold upload_file.
  eapply with_ftp_returns.
  - apply ftp_setup_plc_exact; assumption.
  - apply (storbinary_plc _ _ _ _ _ _ _ (setup_state_session _ p) Hname).
  - eapply ftp_cleanup_plc. cbn [plc_sessions with_files].
    apply setup_state_session.
Qed.

(** X11. On the reference device a successful [upload_file] changes one
    file and nothing else: afterwards the device holds [fd] under
    [target_filename] in the directory, every other file is as before, the
    local disk is untouched, the session it opened is gone, and the
    calls made are the setup, one STOR and [quit]. *)
Theorem upload_file_on_device (hostname target_filename : string) (fd : bytes)
    (directory : option string) (p : plc) (t : list call) :
  device_ok hostname p = true ->
  plain_name (py_or directory DIRECTORY) = true ->
  plain_name target_filename = true ->
  plc_sessions p !! plc_next p = None ->
  exists q,
    upload_file hostname target_filename fd directory (World p t)
    = (Ok tt,
       World q
         (t ++ setup_calls hostname (py_or directory DIRECTORY) p
            ++ [CStorbinary (plc_next p) ("STOR " +:+ target_filename) fd;
                CQuit (plc_next p)]))
    /\ plc_files q
       = <[(py_or directory DIRECTORY, target_filename) := fd]> (plc_files p)
    /\ plc_sessions q = plc_sessions p
    /\ plc_dirs q = setup_dirs (py_or directory DIRECTORY) (plc_dirs p)
    /\ local_files q = local_files p.
Proof.
  intros Hok Hdir Hname Hfresh. eexists. split.
  - rewrite (upload_file_plc_exact _ _ _ _ _ _ Hok
               (plain_name_no_newline _ Hdir) (plain_name_no_newline _ Hname)).
    rewrite <- !app_assoc. reflexivity.
  - cbn [plc_close with_sessions with_files setup_state plc_files plc_sessions
           plc_dirs local_files].
    repeat split. apply delete_insert_id, Hfresh.
Qed.

Lemma upload_file_on_device_witness :
  let p := sample_plc [webguest] {[ ("pmps", "old.json") := doc_b_bytes ]} in
  exists q,
    upload_file sample_hostname "kfe-motion.json" doc_a_bytes None (World p [])
    = (Ok tt,
       World q
         ([] ++ setup_calls sample_hostname (py_or None DIRECTORY) p
            ++ [CStorbinary (plc_next p) ("STOR " +:+ "kfe-motion.json") doc_a_bytes;
                CQuit (plc_next p)]))
    /\ plc_files q
       = <[(py_or None DIRECTORY, "kfe-motion.json") := doc_a_bytes]> (plc_files p)
    /\ plc_sessions q = plc_sessions p
    /\ plc_dirs q = setup_dirs (py_or None DIRECTORY) (plc_dirs p)
    /\ local_files q = local_files p.
Proof.
  cbv zeta.
  apply (upload_file_on_device sample_hostname "kfe-motion.json" doc_a_bytes None
           (sample_plc [webguest] {[ ("pmps", "old.json") := doc_b_bytes ]}) []).
  - vm_compute. reflexivity.
  - vm_compute. reflexivity.
  - vm_compute. reflexivity.
  - vm_compute. reflexivity.
Defined.

(** X12. On the reference device [download_file_text] never changes a
    file. When the device holds the file, the call returns its bytes
    decoded as ASCII and the session it opened is gone afterwards; when
    the device does not hold it, the call raises [error_perm]. *)
Theorem download_file_text_on_device (hostname name : string)
    (directory : option string) (p : plc) (t : list call) :
  device_ok hostname p = true ->
  plain_name (py_or directory DIRECTORY) = true ->
  plc_sessions p !! plc_next p = None ->
  exists r q t',
    download_file_text hostname (Some name) directory (World p t)
    = (r, World q t')
    /\ plc_files q = plc_files p
    /\ match plc_files p !! (py_or directory DIRECTORY, name) with
       | Some data => r = decode_ascii data /\ plc_sessions q = plc_sessions p
       | None => r = Raise error_perm
       end.
Proof.
  intros Hok Hdir Hfresh.
  pose proof (ftp_setup_plc_exact hostname directory p t Hok
                (plain_name_no_newline _ Hdir)) as Hsetup.
  pose proof (setup_state_session (py_or directory DIRECTORY) p) as Hses.
  apply device_ok_fields in Hok as (_ & _ & _ & Hblock).
  destruct (plc_files p !! (py_or directory DIRECTORY, name)) as [data|] eqn:Hfile.
  - eexists _, _, _. split; [|split; [|split; [reflexivity|]]].
    + rewrite <- (concat_chunks_of (plc_blocksize p) data) by exact Hblock.
      apply download_file_text_run. eapply with_ftp_returns.
      * exact Hsetup.
      * cbn [py_format]. apply (retrbinary_plc _ _ _ _ _ _ _ Hses). exact Hfile.
      * eapply ftp_cleanup_plc. exact Hses.
    + reflexivity.
    + cbn [plc_close with_sessions setup_state plc_sessions].
      apply delete_insert_id, Hfresh.
  - exists (Raise error_perm), (setup_state (py_or directory DIRECTORY) p).
    eexists. split; [|split; reflexivity].
    unfold download_file_text. apply bind_raise.
    eapply with_ftp_body_raises; [exact Hsetup|].
    apply bind_raise. cbn [py_format]. unfold retrbinary. rewrite call_run.
    cbn [env_retrbinary plc_env state trace]. unfold plc_retrbinary.
    rewrite (logged_in_plc _ _ _ _ Hses).
    change (strip_prefix "RETR " ("RETR " +:+ name)) with (Some name).
    cbv beta iota. cbn [ses_cwd]. cbn [setup_state plc_files]. rewrite Hfile.
    reflexivity.
Qed.

Lemma download_file_text_on_device_witness :
  let p := sample_plc [Administrator] {[ ("pmps", "kfe-motion.json") := doc_a_bytes ]} in
  exists r q t',
    download_file_text sample_hostname (Some "kfe-motion.json") None (World p [])
    = (r, World q t')
    /\ plc_files q = plc_files p
    /\ match plc_files p !! (py_or None DIRECTORY, "kfe-motion.json") with
       | Some data => r = decode_ascii data /\ plc_sessions q = plc_sessions p
       | None => r = Raise error_perm
       end.
Proof.
  cbv zeta.
  apply (download_file_text_on_device sample_hostname "kfe-motion.json" None
           (sample_plc [Administrator]
              {[ ("pmps", "kfe-motion.json") := doc_a_bytes ]}) []).
  - vm_compute. reflexivity.
  - vm_compute. reflexivity.
  - vm_compute. reflexivity.
Defined.

Lemma names_in_spec (dir name : string) (fs : gmap (string * string) bytes) :
  name ∈ names_in dir fs <-> is_Some (fs !! (dir, name)).
Proof.
  unfold names_in. rewrite list_elem_of_omap. split.
  - intros ([[d n] data] & Hin & Hsome). cbn [fst snd] in Hsome.
    destruct (String.eqb d dir) eqn:Hd; [|discriminate].
    apply String.eqb_eq in Hd. injection Hsome as ->. subst d.
    apply elem_of_map_to_list in Hin. exists data. exact Hin.
  - intros [data Hget]. exists ((dir, name), data). split.
    + apply elem_of_map_to_list, Hget.
    + cbn [fst snd]. rewrite String.eqb_refl. reflexivity.
Qed.

(** X13. On the reference device [list_filenames] returns the names of
    the files of the directory and nothing else: a name is in the result
    exactly when the device holds a file of that name there. *)
Theorem list_filenames_on_device (hostname : string) (directory : option string)
    (p : plc) (t : list call) :
  device_ok hostname p = true ->
  plain_name (py_or directory DIRECTORY) = true ->
  exists names w',
    list_filenames hostname directory (World p t) = (Ok names, w')
    /\ forall name,
         name ∈ names <->
         is_Some (plc_files p !! (py_or directory DIRECTORY, name)).
Proof.
  intros Hok Hdir.
  pose proof (ftp_setup_plc_exact hostname directory p t Hok
                (plain_name_no_newline _ Hdir)) as Hsetup.
  pose proof (setup_state_session (py_or directory DIRECTORY) p) as Hses.
  exists (names_in (py_or directory DIRECTORY) (plc_files p)). eexists. split.
  - unfold list_filenames. eapply with_ftp_returns.
    + exact Hsetup.
    + unfold nlst. rewrite call_run. cbn [env_nlst plc_env state trace].
      unfold plc_nlst. rewrite (logged_in_plc _ _ _ _ Hses). cbn [ses_cwd].
      rewrite (plain_name_not_empty _ Hdir). reflexivity.
    + eapply ftp_cleanup_plc. exact Hses.
  - intros name. apply names_in_spec.
Qed.

Lemma list_filenames_on_device_witness :
  let p := sample_plc [Administrator]
             {[ ("pmps", "kfe-motion.json") := doc_a_bytes ]} in
  exists names w',
    list_filenames sample_hostname None (World p []) = (Ok names, w')
    /\ forall name,
         name ∈ names <->
         is_Some (plc_files p !! (py_or None DIRECTORY, name)).
Proof.
  cbv zeta.
  apply (list_filenames_on_device sample_hostname None
           (sample_plc [Administrator]
              {[ ("pmps", "kfe-motion.json") := doc_a_bytes ]}) []).
  - vm_compute. reflexivity.
  - vm_compute. reflexivity.
Defined.

(** ** More on uploading and comparing *)

Lemma basename_go_no_slash (p cur : string) :
  no_char "/" cur = true -> no_char "/" (basename_go p cur) = true.
Proof.
  revert cur. induction p as [|c p IH]; intros cur Hcur; cbn [basename_go].
  - exact Hcur.
  - destruct (Ascii.eqb c "/") eqn:Hc.
    + apply IH. reflexivity.
    + apply IH. unfold no_char in *. rewrite str_forallb_snoc, Hcur, Hc.
      reflexivity.
Qed.

Lemma basename_go_plain (name cur : string) :
  no_char "/" name = true -> basename_go name cur = cur +:+ name.
Proof.
  revert cur. induction name as [|c name IH]; intros cur Hname.
  - cbn [basename_go]. rewrite str_app_nil_r. reflexivity.
  - unfold no_char in Hname. cbn [str_forallb] in Hname.
    apply andb_true_iff in Hname as [Hc Hname]. apply negb_true_iff in Hc.
    cbn [basename_go]. rewrite Hc, (IH _ Hname). unfold str_snoc.
    rewrite str_app_assoc. reflexivity.
Qed.

Lemma basename_go_slash (parent name cur : string) :
  no_char "/" name = true ->
  basename_go (parent +:+ String "/" name) cur = name.
Proof.
  intros Hname. revert cur. induction parent as [|c parent IH]; intros cur.
  - change ("" +:+ String "/" name) with (String "/" name).
    cbn [basename_go]. cbn [Ascii.eqb Bool.eqb]. cbv beta iota.
    apply (basename_go_plain name "" Hname).
  - change (String c parent +:+ String "/" name)
      with (String c (parent +:+ String "/" name)).
    cbn [basename_go]. destruct (Ascii.eqb c "/"); apply IH.
Qed.

(** X14. The name under which [upload_filename] stores a file when no
    destination is given never holds a slash: it is what follows the last
    slash of the local path, and the path itself when it has none. *)
Theorem os_path_basename_last_component (parent name : string) :
  no_char "/" (os_path_basename name) = true
  /\ (no_char "/" name = true ->
      os_path_basename name = name
      /\ os_path_basename (parent +:+ String "/" name) = name).
Proof.
  split.
  - apply basename_go_no_slash. reflexivity.
  - intros Hname. split.
    + unfold os_path_basename. rewrite (basename_go_plain name "" Hname).
      reflexivity.
    + apply basename_go_slash, Hname.
Qed.

Lemma os_path_basename_last_component_witness :
  no_char "/" (os_path_basename "plc-kfe-motion.json") = true
  /\ os_path_basename "plc-kfe-motion.json" = "plc-kfe-motion.json"
  /\ os_path_basename ("/data/exports" +:+ String "/" "plc-kfe-motion.json")
     = "plc-kfe-motion.json".
Proof.
  destruct (os_path_basename_last_component "/data/exports"
              "plc-kfe-motion.json") as [Hno Hlast].
  split; [exact Hno|]. apply Hlast. vm_compute. reflexivity.
Defined.

Lemma upload_filename_plc h fn dest d data p t :
  local_files p !! fn = Some data ->
  upload_filename h fn dest d (World p t)
  = upload_file h (py_or dest (os_path_basename fn)) data d (World p t).
Proof.
  intros Hlocal. unfold upload_filename. rewrite bind_run. unfold ask.
  cbn [state trace env_read_bytes plc_env]. unfold plc_read_bytes.
  rewrite Hlocal. reflexivity.
Qed.

(** X15. On the reference device, what [upload_filename] sends can be
    read back: after uploading the local file, downloading the
    destination name, which is the base name of the local path when none
    or an empty one is given, returns the bytes of the local file decoded
    as ASCII. *)
Theorem upload_filename_then_download (hostname filename : string)
    (dest_filename directory : option string) (data : bytes)
    (p : plc) (t : list call) :
  device_ok hostname p = true ->
  plain_name (py_or directory DIRECTORY) = true ->
  local_files p !! filename = Some data ->
  plain_name (py_or dest_filename (os_path_basename filename)) = true ->
  exists w1 w2,
    upload_filename hostname filename dest_filename directory (World p t)
    = (Ok tt, w1)
    /\ download_file_text hostname
         (Some (py_or dest_filename (os_path_basename filename))) directory w1
       = (decode_ascii data, w2).
Proof.
  intros Hok Hdir Hlocal Hname.
  apply plain_name_no_newline in Hdir, Hname.
  destruct (upload_file_plc hostname _ data directory p t Hok Hdir Hname)
    as (q1 & t1 & Hup & Hfile & Hsame).
  pose proof (same_device_ok hostname p q1 Hsame Hok) as Hok1.
  destruct (download_file_text_plc hostname _ data directory q1 t1
              Hok1 Hdir Hfile) as (q2 & t2 & Hdown & _ & _).
  exists (World q1 t1), (World q2 t2). split; [|exact Hdown].
  rewrite (upload_filename_plc _ _ _ _ _ _ _ Hlocal). exact Hup.
Qed.

Lemma upload_filename_then_download_witness :
  exists w1 w2,
    upload_filename sample_hostname "/data/plc-kfe-motion.json" (Some "") None
      (sample_world [webguest] ∅)
    = (Ok tt, w1)
    /\ download_file_text sample_hostname
         (Some (py_or (Some "") (os_path_basename "/data/plc-kfe-motion.json")))
         None w1
       = (decode_ascii doc_a_bytes, w2).
Proof.
  apply (upload_filename_then_download sample_hostname
           "/data/plc-kfe-motion.json" (Some "") None doc_a_bytes
           (sample_plc [webguest] ∅) []).
  - vm_compute. reflexivity.
  - vm_compute. reflexivity.
  - vm_compute. reflexivity.
  - vm_compute. reflexivity.
Defined.

Section comparing.
Context {S : Type} `{!Env S}.

(** X16. [compare_file] answers only when both documents were loaded: a
    returned boolean is [local_data == plc_data] of a local document and a
    downloaded one, and when the local file cannot be read or parsed the
    exception leaves the call before anything is sent to the device. *)
Theorem compare_file_needs_both (hostname local_filename : string)
    (plc_filename directory : option string) (w : world S) :
  (forall r w2,
     compare_file hostname local_filename plc_filename directory w = (Ok r, w2) ->
     exists a b,
       local_file_json_dict local_filename w = (Ok a, w)
       /\ download_file_json_dict hostname plc_filename directory w = (Ok b, w2)
       /\ r = py_eq a b)
  /\ (forall e w1,
        local_file_json_dict local_filename w = (Raise e, w1) ->
        compare_file hostname local_filename plc_filename directory w
        = (Raise e, w)
        /\ w1 = w).
Proof.
  assert (Hlocal : forall r w1,
             local_file_json_dict local_filename w = (r, w1) -> w1 = w).
  { intros r w1. unfold local_file_json_dict. rewrite bind_run. unfold ask, lift.
    destruct w as [s t]. cbn [state trace].
    destruct (env_read_text local_filename s); intros [= _ <-]; reflexivity. }
  split.
  - intros r w2 Hrun. unfold compare_file in Hrun.
    apply bind_ok_inv in Hrun as (a & w1 & Ha & Hrun).
    apply bind_ok_inv in Hrun as (b & w2' & Hb & Hret).
    revert Hret. intros [= <- <-].
    pose proof (Hlocal _ _ Ha) as ->.
    exists a, b. repeat split; assumption.
  - intros e w1 Hfail. pose proof (Hlocal _ _ Hfail) as ->.
    split; [|reflexivity]. unfold compare_file.
    apply (bind_raise _ _ _ _ _ Hfail).
Qed.

End comparing.

Lemma compare_file_needs_both_witness :
  let w := sample_world [Administrator]
             {[ ("pmps", "plc-kfe-motion.json") := doc_c_bytes ]} in
  (exists a b,
     local_file_json_dict "/data/plc-kfe-motion.json" w = (Ok a, w)
     /\ download_file_json_dict sample_hostname (Some "plc-kfe-motion.json")
          None w
        = (Ok b, snd (compare_file sample_hostname "/data/plc-kfe-motion.json"
                        (Some "plc-kfe-motion.json") None w))
     /\ false = py_eq a b)
  /\ compare_file sample_hostname "/data/missing.json"
       (Some "plc-kfe-motion.json") None w
     = (Raise OSError, w).
Proof.
  cbv zeta. split.
  - apply (proj1 (compare_file_needs_both sample_hostname
                    "/data/plc-kfe-motion.json" (Some "plc-kfe-motion.json")
                    None _)).
    vm_compute. reflexivity.
  - apply (proj2 (compare_file_needs_both sample_hostname "/data/missing.json"
                    (Some "plc-kfe-motion.json") None _) OSError
             (sample_world [Administrator]
                {[ ("pmps", "plc-kfe-motion.json") := doc_c_bytes ]})).
    vm_compute. reflexivity.
Defined.

Lemma py_equal_scalars_sym (v w : jval) :
  py_equal_scalars v w -> py_equal_scalars w v.
Proof.
  intros [->|Hnum]; [left; reflexivity|right; exact (same_number_sym v w Hnum)].
Qed.

Lemma dict_equal_sym {V} (R : V -> V -> Prop) (a b : list (string * V)) :
  (forall v w, R v w -> R w v) -> dict_equal R a b -> dict_equal R b a.
Proof.
  intros Hsym Hab k. destruct (Hab k); constructor. apply Hsym. assumption.
Qed.

Lemma params_equal_sym (R : jval -> jval -> Prop) (p q : jval) :
  (forall v w, R v w -> R w v) -> params_equal R p q -> params_equal R q p.
Proof.
  intros Hsym. destruct p, q; cbn [params_equal]; try contradiction.
  apply dict_equal_sym, Hsym.
Qed.

Lemma structurally_equal_sym (a b : jval) :
  structurally_equal py_equal_scalars a b ->
  structurally_equal py_equal_scalars b a.
Proof.
  destruct a, b; cbn [structurally_equal]; try contradiction.
  apply dict_equal_sym. intros p q. apply params_equal_sym.
  exact py_equal_scalars_sym.
Qed.

Lemma structurally_equal_refl (a : jval) :
  is_config_document a = true -> structurally_equal py_equal_scalars a a.
Proof.
  intros Ha. apply is_config_document_inv in Ha as (xs & -> & _ & Hparams).
  cbn [structurally_equal]. intros k.
  destruct (dict_get k xs) as [p|] eqn:Hget; constructor.
  apply dict_get_Some_elem, Hparams, is_params_inv in Hget as (ps & -> & _ & _).
  cbn [params_equal]. intros name.
  destruct (dict_get name ps); constructor. left. reflexivity.
Qed.

(** X17. On configuration documents the comparison is an equivalence in
    two respects that a caller relies on: a document equals itself, and
    the result does not depend on which of the two documents is the local
    one. *)
Theorem py_eq_config_reflexive_symmetric (a b : jval) :
  is_config_document a = true -> is_config_document b = true ->
  py_eq a a = true /\ py_eq a b = py_eq b a.
Proof.
  intros Ha Hb. split.
  - apply (py_eq_config_documents a a Ha Ha), structurally_equal_refl, Ha.
  - apply Bool.eq_true_iff_eq.
    rewrite (py_eq_config_documents a b Ha Hb), (py_eq_config_documents b a Hb Ha).
    split; apply structurally_equal_sym.
Qed.

Lemma py_eq_config_reflexive_symmetric_witness :
  py_eq doc_a doc_a = true /\ py_eq doc_a doc_c = py_eq doc_c doc_a.
Proof.
  apply (py_eq_config_reflexive_symmetric doc_a doc_c); vm_compute; reflexivity.
Defined.

Lemma decode_utf8_ascii (data : bytes) :
  forallb byte_is_ascii data = true ->
  decode_utf8 data = Ok (map ascii_of_byte data).
Proof.
  induction data as [|b data IH]; [reflexivity|].
  cbn [forallb decode_utf8 map]. rewrite andb_true_iff. intros [Hb Hdata].
  rewrite Hb, (IH Hdata). reflexivity.
Qed.

Lemma universal_newlines_no_CR (data : bytes) :
  no_CR data = true ->
  universal_newlines (map ascii_of_byte data) = map ascii_of_byte data.
Proof.
  unfold no_CR. induction data as [|b data IH]; [reflexivity|].
  cbn [forallb map universal_newlines]. rewrite andb_true_iff.
  intros [Hb Hdata]. rewrite (IH Hdata).
  destruct (Ascii.eqb_spec (ascii_of_byte b) "013") as [Heq|_]; [|reflexivity].
  apply (f_equal byte_of_ascii) in Heq. rewrite byte_of_ascii_of_byte in Heq.
  subst b. discriminate Hb.
Qed.

(** An ASCII file without a CR reads as text the way it decodes as
    ASCII. *)
Lemma read_text_ascii (data : bytes) :
  forallb byte_is_ascii data = true -> no_CR data = true ->
  read_text data = Ok (str_of_bytes data).
Proof.
  intros Hascii Hcr. unfold read_text. rewrite (decode_utf8_ascii data Hascii).
  cbn. rewrite (universal_newlines_no_CR data Hcr). reflexivity.
Qed.

Lemma local_file_json_dict_plc (filename : string) (data : bytes) (q : plc)
    (t : list call) :
  local_files q !! filename = Some data ->
  local_file_json_dict filename (World q t)
  = (text ← read_text data; json.loads text, World q t).
Proof.
  intros Hlocal. unfold local_file_json_dict. rewrite bind_run. unfold ask, lift.
  cbn [state trace env_read_text plc_env]. unfold plc_read_text, plc_read_bytes.
  rewrite Hlocal. cbn. destruct (read_text data); reflexivity.
Qed.

(** X18. On the reference device a file that was just uploaded compares
    equal to its local copy. Take a local file whose bytes are ASCII
    without a CR and whose text [json.loads] decodes to a configuration
    document, a device as in X10, and a directory and a base name that hold
    neither a CR nor an LF: after [upload_filename] of the file,
    [compare_file] of the same local file against the uploaded name
    returns [True]. *)
Theorem upload_filename_then_compare (hostname filename : string)
    (directory : option string) (data : bytes) (a : jval)
    (p : plc) (t : list call) :
  device_ok hostname p = true ->
  no_newline (py_or directory DIRECTORY) = true ->
  local_files p !! filename = Some data ->
  no_newline (os_path_basename filename) = true ->
  forallb byte_is_ascii data = true ->
  no_CR data = true ->
  json.loads (str_of_bytes data) = Ok a ->
  is_config_document a = true ->
  exists w1 w2,
    upload_filename hostname filename None directory (World p t) = (Ok tt, w1)
    /\ compare_file hostname filename (Some (os_path_basename filename))
         directory w1
       = (Ok true, w2).
Proof.
  intros Hok Hdir Hlocal Hname Hascii Hcr Hjson Hdoc.
  pose proof (upload_file_plc_exact hostname (os_path_basename filename) data
                directory p t Hok Hdir Hname) as Hup.
  set (q1 := plc_close _ _) in Hup. set (t1 := (_ ++ [CQuit _])) in Hup.
  assert (Hok1 : device_ok hostname q1 = true) by exact Hok.
  assert (Hfile : plc_files q1 !! (py_or directory DIRECTORY,
                                   os_path_basename filename) = Some data).
  { subst q1. cbn [plc_close with_sessions with_files plc_files].
    apply lookup_insert_eq. }
  destruct (download_file_text_plc hostname _ data directory q1 t1
              Hok1 Hdir Hfile) as (q2 & t2 & Hdown & _ & _).
  unfold decode_ascii in Hdown. rewrite Hascii in Hdown.
  assert (Hrefl : py_eq a a = true).
  { apply (py_eq_config_documents a a Hdoc Hdoc), structurally_equal_refl, Hdoc. }
  exists (World q1 t1), (World q2 t2). split.
  - rewrite (upload_filename_plc _ _ _ _ _ _ _ Hlocal). exact Hup.
  - rewrite <- Hrefl. apply (compare_file_run _ _ _ _ _ (World q1 t1)).
    + rewrite (local_file_json_dict_plc filename data q1 t1 Hlocal).
      rewrite (read_text_ascii data Hascii Hcr).
      cbn [mbind Res_bind res_bind]. rewrite Hjson. reflexivity.
    + unfold download_file_json_dict. rewrite (bind_ok _ _ _ _ _ Hdown).
      unfold lift. cbn [json_loads plc_env]. rewrite Hjson. reflexivity.
Qed.

Lemma upload_filename_then_compare_witness :
  json.loads (str_of_bytes doc_a_bytes) = Ok doc_a
  /\ exists w1 w2,
       upload_filename sample_hostname "/data/plc-kfe-motion.json" None None
         (sample_world [Administrator] ∅)
       = (Ok tt, w1)
       /\ compare_file sample_hostname "/data/plc-kfe-motion.json"
            (Some (os_path_basename "/data/plc-kfe-motion.json")) None w1
          = (Ok true, w2).
Proof.
  split; [vm_compute; reflexivity|].
  apply (upload_filename_then_compare sample_hostname
           "/data/plc-kfe-motion.json" None doc_a_bytes doc_a
           (sample_plc [Administrator] ∅) []);
    vm_compute; reflexivity.
Defined.
